(** * vision-app: goal store, habit statistics and analysis client

    A shallow embedding of the JavaScript sources of the repository:

    - [src/db-check.js]  (second document): the server with accounts
      ([/api/register], [/api/login]) and user-scoped goals on Supabase or
      SQLite;
    - [src/server.js]    (first document): the first server, one global goal
      table on PostgreSQL or SQLite, no user names;
      (second document): user-scoped goals on Supabase or SQLite, no accounts;
    - [src/unnamed/part_000]: the client with log-in;
    - [src/src/App.jsx]: the client without log-in.

    JavaScript values are JSON values (numbers are integers: the ids of the
    application are [Date.now()] milliseconds; a JSON text with a fraction
    or an exponent is recognised as JSON but has no value here),
    [undefined] is [None].
    Objects are association lists without repeated keys, in insertion order.
    Strings are byte strings (UTF-8). Time is a number of milliseconds since
    the epoch, as in [Date]; the one computation on fractions, the rate of a
    habit, is done in double precision. [Date.parse], the time zone and
    scrypt are parameters; the outcome of a request to the analysis service
    is an input. Handlers are functions from a request and the state of the
    database to a response and the new state. *)

From Stdlib Require Import ZArith List String Ascii Bool Lia.
From Stdlib Require Import Permutation Sorted.
From Stdlib Require Import DecimalString.
From Stdlib Require DecimalFacts DecimalPos DecimalZ.
From Stdlib Require Import Floats.PrimFloat Floats.FloatOps Floats.SpecFloat.
From Stdlib Require Uint63.
Import ListNotations.

Local Open Scope string_scope.
Local Open Scope Z_scope.

(* ================================================================== *)
(** * JavaScript values *)

Module JS.

Unset Elimination Schemes.
Inductive JSON : Type :=
| JNull
| JBool (b : bool)
| JNum (n : Z)
| JStr (s : string)
| JArr (l : list JSON)
| JObj (o : list (string * JSON)).
Set Elimination Schemes.

(** An object: the own enumerable properties, in insertion order. *)
Definition JsObject := list (string * JSON).

(** A JavaScript value: [None] is [undefined]. *)
Definition value := option JSON.

(** [o[k]]. *)
Fixpoint get (k : string) (o : JsObject) : value :=
  match o with
  | [] => None
  | (k', v) :: o' => if String.eqb k k' then Some v else get k o'
  end.

(** [o[k] = v]: an existing property keeps its place. *)
Fixpoint set (k : string) (v : JSON) (o : JsObject) : JsObject :=
  match o with
  | [] => [(k, v)]
  | (k', v') :: o' =>
      if String.eqb k k' then (k', v) :: o' else (k', v') :: set k v o'
  end.

(** [delete o[k]]. *)
Definition remove (k : string) (o : JsObject) : JsObject :=
  filter (fun kv => negb (String.eqb k (fst kv))) o.

(** [{ ...o, ...p }]. *)
Definition spread (o p : JsObject) : JsObject :=
  fold_left (fun acc kv => set (fst kv) (snd kv) acc) p o.

Definition keys (o : JsObject) : list string := map fst o.

(** Truthiness of a value ([!!v], [Boolean(v)]). *)
Definition truthy (v : value) : bool :=
  match v with
  | None => false
  | Some JNull => false
  | Some (JBool b) => b
  | Some (JNum n) => negb (n =? 0)
  | Some (JStr s) => negb (String.eqb s "")
  | Some (JArr _) => true
  | Some (JObj _) => true
  end.

(** Decimal rendering of an integer, [String(n)]. *)
Definition string_of_Z (n : Z) : string := NilZero.string_of_int (Z.to_int n).

Definition string_of_nat (n : nat) : string := string_of_Z (Z.of_nat n).

Fixpoint join (sep : string) (l : list string) : string :=
  match l with
  | [] => ""
  | [s] => s
  | s :: l' => s ++ sep ++ join sep l'
  end.

(** [String(v)]; an array is rendered by [join(",")], where [null] elements
    are empty. *)
Fixpoint String_json (v : JSON) : string :=
  match v with
  | JNull => "null"
  | JBool true => "true"
  | JBool false => "false"
  | JNum n => string_of_Z n
  | JStr s => s
  | JArr l =>
      join "," (map (fun x => match x with JNull => "" | _ => String_json x end) l)
  | JObj _ => "[object Object]"
  end.

Definition String_ (v : value) : string :=
  match v with
  | None => "undefined"
  | Some j => String_json j
  end.

(** [Array.isArray(v)]. *)
Definition isArray (v : value) : bool :=
  match v with Some (JArr _) => true | _ => false end.

Fixpoint chars_of (s : string) : list string :=
  match s with
  | EmptyString => []
  | String c s' => String c EmptyString :: chars_of s'
  end.

Fixpoint indexed {A} (i : nat) (l : list A) : list (string * A) :=
  match l with
  | [] => []
  | x :: l' => (string_of_nat i, x) :: indexed (S i) l'
  end.

(** The own enumerable properties of a non-null value, as object spread and
    rest patterns see them: an array and a string have their indices. *)
Definition own_props (v : JSON) : JsObject :=
  match v with
  | JObj o => o
  | JArr l => indexed 0 l
  | JStr s => indexed 0 (map JStr (chars_of s))
  | _ => []
  end.

(** [o?.[k]] on a value: [undefined] when [o] is [null] or [undefined]. *)
Definition opt_get (k : string) (v : value) : value :=
  match v with
  | Some j => get k (own_props j)
  | None => None
  end.

(** [a?.[i]] for an index. *)
Definition opt_index (i : nat) (v : value) : value :=
  opt_get (string_of_nat i) v.

(** Induction on JSON values, through arrays and objects. *)
Definition JSON_ind (P : JSON -> Prop)
  (fnull : P JNull) (fbool : forall b, P (JBool b))
  (fnum : forall n, P (JNum n)) (fstr : forall s, P (JStr s))
  (farr : forall l, Forall P l -> P (JArr l))
  (fobj : forall o, Forall (fun kv => P (snd kv)) o -> P (JObj o))
  : forall v, P v :=
  fix F (v : JSON) : P v :=
    match v with
    | JNull => fnull
    | JBool b => fbool b
    | JNum n => fnum n
    | JStr s => fstr s
    | JArr l =>
        farr l ((fix G (l : list JSON) : Forall P l :=
                   match l with
                   | [] => Forall_nil _
                   | x :: l' => Forall_cons x (F x) (G l')
                   end) l)
    | JObj o =>
        fobj o ((fix G (o : list (string * JSON))
                 : Forall (fun kv => P (snd kv)) o :=
                   match o with
                   | [] => Forall_nil _
                   | kv :: o' => Forall_cons kv (F (snd kv)) (G o')
                   end) o)
    end.

Fixpoint nodupb (l : list string) : bool :=
  match l with
  | [] => true
  | k :: l' => negb (existsb (String.eqb k) l') && nodupb l'
  end.

(** A value as JavaScript can hold it: no object has a key twice. *)
Fixpoint wf (v : JSON) : bool :=
  match v with
  | JArr l => forallb wf l
  | JObj o => nodupb (map fst o) && forallb (fun kv => wf (snd kv)) o
  | _ => true
  end.

(** Two values are the same JSON: arrays item by item, objects key by key
    whatever the order of the keys. *)
Fixpoint json_equiv (a b : JSON) : bool :=
  match a, b with
  | JNull, JNull => true
  | JBool x, JBool y => Bool.eqb x y
  | JNum x, JNum y => x =? y
  | JStr x, JStr y => String.eqb x y
  | JArr l, JArr m =>
      (fix items (l m : list JSON) : bool :=
         match l, m with
         | [], [] => true
         | x :: l', y :: m' => json_equiv x y && items l' m'
         | _, _ => false
         end) l m
  | JObj o, JObj p =>
      (List.length o =? List.length p)%nat
      && (fix members (o : list (string * JSON)) : bool :=
            match o with
            | [] => true
            | (k, v) :: o' =>
                match get k p with
                | Some w => json_equiv v w
                | None => false
                end && members o'
            end) o
  | _, _ => false
  end.

End JS.
Export JS.

(* ================================================================== *)
(** * [JSON.stringify] and [JSON.parse] *)

Module Json.

Definition hex_digit (n : N) : ascii :=
  match n with
  | 0%N => "0" | 1%N => "1" | 2%N => "2" | 3%N => "3" | 4%N => "4"
  | 5%N => "5" | 6%N => "6" | 7%N => "7" | 8%N => "8" | 9%N => "9"
  | 10%N => "a" | 11%N => "b" | 12%N => "c" | 13%N => "d" | 14%N => "e"
  | _ => "f"
  end%char.

(** The value of a hexadecimal digit, in either case. *)
Definition hex_val (c : ascii) : option N :=
  let n := N_of_ascii c in
  (if (48 <=? n) && (n <=? 57) then Some (n - 48)
   else if (97 <=? n) && (n <=? 102) then Some (n - 87)
   else if (65 <=? n) && (n <=? 70) then Some (n - 55)
   else None)%N.

(** The text [JSON.stringify] writes for one character of a string. *)
Definition escape_char (c : ascii) : string :=
  match c with
  | "034"%char => String "\" (String "034" "")
  | "\"%char => "\\"
  | "008"%char => "\b"
  | "009"%char => "\t"
  | "010"%char => "\n"
  | "012"%char => "\f"
  | "013"%char => "\r"
  | _ =>
      let n := N_of_ascii c in
      if (n <? 32)%N
      then "\u00" ++ String (hex_digit (n / 16)) (String (hex_digit (n mod 16)) "")
      else String c ""
  end.

Fixpoint escape (s : string) : string :=
  match s with
  | EmptyString => ""
  | String c s' => escape_char c ++ escape s'
  end.

Definition quote (s : string) : string :=
  String "034" (escape s ++ String "034" "").

(** [JSON.stringify(v)] of a JSON value. *)
Fixpoint stringify (v : JSON) : string :=
  match v with
  | JNull => "null"
  | JBool true => "true"
  | JBool false => "false"
  | JNum n => string_of_Z n
  | JStr s => quote s
  | JArr l => "[" ++ join "," (map stringify l) ++ "]"
  | JObj o =>
      "{" ++ join "," (map (fun kv => quote (fst kv) ++ ":" ++ stringify (snd kv)) o)
          ++ "}"
  end.

(** JSON white space. *)
Definition is_ws (c : ascii) : bool :=
  match c with
  | " " | "009" | "010" | "013" => true
  | _ => false
  end%char.

Fixpoint skip_ws (s : string) : string :=
  match s with
  | String c s' => if is_ws c then skip_ws s' else s
  | EmptyString => s
  end.

Definition is_digit (c : ascii) : bool :=
  match c with
  | "0" | "1" | "2" | "3" | "4" | "5" | "6" | "7" | "8" | "9" => true
  | _ => false
  end%char.

(** UTF-8 bytes of a code point of the basic plane (a [\uXXXX] escape). *)
Definition utf8 (n : N) : string :=
  (if n <? 128 then String (ascii_of_N n) ""
   else if n <? 2048 then
     String (ascii_of_N (192 + n / 64)) (String (ascii_of_N (128 + n mod 64)) "")
   else
     String (ascii_of_N (224 + n / 4096))
       (String (ascii_of_N (128 + (n / 64) mod 64))
          (String (ascii_of_N (128 + n mod 64)) "")))%N.

Definition hex4 (a b c d : ascii) : option N :=
  match hex_val a, hex_val b, hex_val c, hex_val d with
  | Some x, Some y, Some z, Some w => Some (((x * 16 + y) * 16 + z) * 16 + w)%N
  | _, _, _, _ => None
  end.

Definition unescape (e : ascii) : option ascii :=
  match e with
  | "034" => Some "034"
  | "\" => Some "\"
  | "/" => Some "/"
  | "b" => Some "008"
  | "f" => Some "012"
  | "n" => Some "010"
  | "r" => Some "013"
  | "t" => Some "009"
  | _ => None
  end%char.

Definition prepend (p : string) (r : option (string * string)) :=
  match r with
  | Some (s, rest) => Some (p ++ s, rest)
  | None => None
  end.

(** The characters of a string literal after its opening quote, and what
    follows the closing quote. *)
Fixpoint parse_string_body (s : string) : option (string * string) :=
  match s with
  | EmptyString => None
  | String c r =>
      match c with
      | "034"%char => Some ("", r)
      | "\"%char =>
          match r with
          | String "u" (String h1 (String h2 (String h3 (String h4 r')))) =>
              match hex4 h1 h2 h3 h4 with
              | Some n => prepend (utf8 n) (parse_string_body r')
              | None => None
              end
          | String e r' =>
              match unescape e with
              | Some c' => prepend (String c' "") (parse_string_body r')
              | None => None
              end
          | EmptyString => None
          end
      | _ =>
          if (N_of_ascii c <? 32)%N then None
          else prepend (String c "") (parse_string_body r)
      end
  end.

(** The longest prefix of digits. *)
Fixpoint span_digits (s : string) : string * string :=
  match s with
  | String c s' =>
      if is_digit c then let (d, r) := span_digits s' in (String c d, r)
      else ("", s)
  | EmptyString => ("", "")
  end.

(** An integer literal: an optional minus sign, then [0] or digits that do
    not start with [0]. A fraction or an exponent is outside the integers
    and is refused. *)
Definition parse_number (s : string) : option (JSON * string) :=
  let (neg, s1) := match s with String "-" r => (true, r) | _ => (false, s) end in
  let (d, r) := span_digits s1 in
  let ok_lead := match d with
                 | EmptyString => false
                 | String "0" (String _ _) => false
                 | _ => true
                 end in
  let ok_follow := match r with
                   | String "." _ | String "e" _ | String "E" _ => false
                   | _ => true
                   end in
  if ok_lead && ok_follow then
    match NilZero.uint_of_string d with
    | Some u =>
        let n := Z.of_uint u in
        Some (JNum (if neg then - n else n), r)
    | None => None
    end
  else None.

Fixpoint expect (lit : string) (s : string) : option string :=
  match lit, s with
  | EmptyString, _ => Some s
  | String a lit', String b s' => if Ascii.eqb a b then expect lit' s' else None
  | String _ _, EmptyString => None
  end.

(** [Object] built from the members in textual order: a repeated key keeps
    its first place and takes the last value. *)
Definition from_entries (l : list (string * JSON)) : JsObject := spread [] l.

Fixpoint parse_value (fuel : nat) (s : string) {struct fuel}
  : option (JSON * string) :=
  match fuel with
  | O => None
  | S fuel' =>
      match skip_ws s with
      | EmptyString => None
      | String c r =>
          if Ascii.eqb c "n" then
            match expect "ull" r with Some r' => Some (JNull, r') | None => None end
          else if Ascii.eqb c "t" then
            match expect "rue" r with Some r' => Some (JBool true, r') | None => None end
          else if Ascii.eqb c "f" then
            match expect "alse" r with Some r' => Some (JBool false, r') | None => None end
          else if Ascii.eqb c "034" then
            match parse_string_body r with
            | Some (str, r') => Some (JStr str, r')
            | None => None
            end
          else if Ascii.eqb c "[" then
            match skip_ws r with
            | EmptyString => None
            | String c' r' =>
                if Ascii.eqb c' "]" then Some (JArr [], r')
                else
                  match parse_elements fuel' r with
                  | Some (l, r'') => Some (JArr l, r'')
                  | None => None
                  end
            end
          else if Ascii.eqb c "{" then
            match skip_ws r with
            | EmptyString => None
            | String c' r' =>
                if Ascii.eqb c' "}" then Some (JObj [], r')
                else
                  match parse_members fuel' r with
                  | Some (o, r'') => Some (JObj (from_entries o), r'')
                  | None => None
                  end
            end
          else parse_number (String c r)
      end
  end
with parse_elements (fuel : nat) (s : string) {struct fuel}
  : option (list JSON * string) :=
  match fuel with
  | O => None
  | S fuel' =>
      match parse_value fuel' s with
      | Some (v, r) =>
          match skip_ws r with
          | EmptyString => None
          | String c r' =>
              if Ascii.eqb c "," then
                match parse_elements fuel' r' with
                | Some (l, r'') => Some (v :: l, r'')
                | None => None
                end
              else if Ascii.eqb c "]" then Some ([v], r')
              else None
          end
      | None => None
      end
  end
with parse_members (fuel : nat) (s : string) {struct fuel}
  : option (list (string * JSON) * string) :=
  match fuel with
  | O => None
  | S fuel' =>
      match skip_ws s with
      | EmptyString => None
      | String q r =>
          if Ascii.eqb q "034" then
            match parse_string_body r with
            | Some (k, r1) =>
                match skip_ws r1 with
                | EmptyString => None
                | String c r2 =>
                    if Ascii.eqb c ":" then
                      match parse_value fuel' r2 with
                      | Some (v, r3) =>
                          match skip_ws r3 with
                          | EmptyString => None
                          | String c' r4 =>
                              if Ascii.eqb c' "," then
                                match parse_members fuel' r4 with
                                | Some (o, r5) => Some ((k, v) :: o, r5)
                                | None => None
                                end
                              else if Ascii.eqb c' "}" then Some ([(k, v)], r4)
                              else None
                          end
                      | None => None
                      end
                    else None
                end
            | None => None
            end
          else None
      end
  end.

(** [JSON.parse(s)] on the texts whose numbers are integer literals;
    [None] is a [SyntaxError] there. *)
Definition parse (s : string) : option JSON :=
  match parse_value (S (String.length s)) s with
  | Some (v, r) => match skip_ws r with EmptyString => Some v | _ => None end
  | None => None
  end.

(** ** The grammar of JSON in full

    A number: an optional minus sign, [0] or digits that do not start with
    [0], an optional fraction ([.] and digits), an optional exponent ([e] or
    [E], an optional sign, digits). What follows it is returned. *)
Definition scan_digits1 (s : string) : option string :=
  let (d, r) := span_digits s in
  match d with
  | EmptyString => None
  | _ => Some r
  end.

Definition scan_exponent (s : string) : option string :=
  match s with
  | String c r =>
      if Ascii.eqb c "e" || Ascii.eqb c "E" then
        match r with
        | String "+" r' | String "-" r' => scan_digits1 r'
        | _ => scan_digits1 r
        end
      else Some s
  | EmptyString => Some s
  end.

Definition scan_fraction (s : string) : option string :=
  match s with
  | String "." r => scan_digits1 r
  | _ => Some s
  end.

Definition scan_number (s : string) : option string :=
  let s1 := match s with String "-" r => r | _ => s end in
  let (d, r) := span_digits s1 in
  let ok_lead := match d with
                 | EmptyString => false
                 | String "0" (String _ _) => false
                 | _ => true
                 end in
  if ok_lead then
    match scan_fraction r with
    | Some r' => scan_exponent r'
    | None => None
    end
  else None.

Definition after_string (s : string) : option string :=
  match parse_string_body s with
  | Some (_, r) => Some r
  | None => None
  end.

(** A value, the elements of an array after its first bracket, the members
    of an object after its brace: what follows them in the text. *)
Fixpoint scan_value (fuel : nat) (s : string) {struct fuel} : option string :=
  match fuel with
  | O => None
  | S fuel' =>
      match skip_ws s with
      | EmptyString => None
      | String c r =>
          if Ascii.eqb c "n" then expect "ull" r
          else if Ascii.eqb c "t" then expect "rue" r
          else if Ascii.eqb c "f" then expect "alse" r
          else if Ascii.eqb c "034" then after_string r
          else if Ascii.eqb c "[" then
            match skip_ws r with
            | EmptyString => None
            | String c' r' =>
                if Ascii.eqb c' "]" then Some r' else scan_elements fuel' r
            end
          else if Ascii.eqb c "{" then
            match skip_ws r with
            | EmptyString => None
            | String c' r' =>
                if Ascii.eqb c' "}" then Some r' else scan_members fuel' r
            end
          else scan_number (String c r)
      end
  end
with scan_elements (fuel : nat) (s : string) {struct fuel} : option string :=
  match fuel with
  | O => None
  | S fuel' =>
      match scan_value fuel' s with
      | Some r =>
          match skip_ws r with
          | EmptyString => None
          | String c r' =>
              if Ascii.eqb c "," then scan_elements fuel' r'
              else if Ascii.eqb c "]" then Some r'
              else None
          end
      | None => None
      end
  end
with scan_members (fuel : nat) (s : string) {struct fuel} : option string :=
  match fuel with
  | O => None
  | S fuel' =>
      match skip_ws s with
      | EmptyString => None
      | String q r =>
          if Ascii.eqb q "034" then
            match after_string r with
            | Some r1 =>
                match skip_ws r1 with
                | EmptyString => None
                | String c r2 =>
                    if Ascii.eqb c ":" then
                      match scan_value fuel' r2 with
                      | Some r3 =>
                          match skip_ws r3 with
                          | EmptyString => None
                          | String c' r4 =>
                              if Ascii.eqb c' "," then scan_members fuel' r4
                              else if Ascii.eqb c' "}" then Some r4
                              else None
                          end
                      | None => None
                      end
                    else None
                end
            | None => None
            end
          else None
      end
  end.

(** The text is JSON: [JSON.parse] throws a [SyntaxError] exactly when it
    is not. *)
Definition is_json (s : string) : bool :=
  match scan_value (S (String.length s)) s with
  | Some r => match skip_ws r with EmptyString => true | _ => false end
  | None => false
  end.

(** ** What the round trip of [stringify] and [parse] is stated with *)

(** What may follow a number for it to be read back whole. *)
Definition number_follow (rest : string) : bool :=
  match rest with
  | EmptyString => true
  | String c _ =>
      negb (is_digit c) && negb (Ascii.eqb c ".") && negb (Ascii.eqb c "e")
      && negb (Ascii.eqb c "E")
  end.

(** Fuel that suffices to read a value back. *)
Fixpoint size (v : JSON) : nat :=
  match v with
  | JArr l => S (fold_right (fun x n => S (size x + n)) O l)
  | JObj o => S (fold_right (fun kv n => S (size (snd kv) + n)) O o)
  | _ => 1%nat
  end.

Definition elements_size (l : list JSON) : nat :=
  fold_right (fun x n => S (size x + n)) O l.

Definition members_size (o : JsObject) : nat :=
  fold_right (fun kv n => S (size (snd kv) + n)) O o.

(** What may follow a value inside a text: nothing a number would absorb. *)
Definition reads_back (v : JSON) : Prop :=
  forall fuel rest,
    (size v <= fuel)%nat -> number_follow rest = true ->
    parse_value fuel (stringify v ++ rest) = Some (v, rest).

Definition member_text (kv : string * JSON) : string :=
  (quote (fst kv) ++ ":" ++ stringify (snd kv))%string.

End Json.

(* ================================================================== *)
(** * [Date]: instants, calendar days and their ISO text *)

Module DateTime.

(** Milliseconds in a day, [1000 * 60 * 60 * 24]. *)
Definition DAY : Z := 86400000.

(** Day number (days since 1970-01-01) of a proleptic Gregorian date. *)
Definition days_from_civil (y m d : Z) : Z :=
  let y' := if m <=? 2 then y - 1 else y in
  let era := y' / 400 in
  let yoe := y' - era * 400 in
  let doy := (153 * (if 2 <? m then m - 3 else m + 9) + 2) / 5 + d - 1 in
  let doe := yoe * 365 + yoe / 4 - yoe / 100 + doy in
  era * 146097 + doe - 719468.

(** Year, month and day of the month of a day number. *)
Definition civil_from_days (z : Z) : Z * Z * Z :=
  let z := z + 719468 in
  let era := z / 146097 in
  let doe := z - era * 146097 in
  let yoe := (doe - doe / 1460 + doe / 36524 - doe / 146096) / 365 in
  let y := yoe + era * 400 in
  let doy := doe - (365 * yoe + yoe / 4 - yoe / 100) in
  let mp := (5 * doy + 2) / 153 in
  let d := doy - (153 * mp + 2) / 5 + 1 in
  let m := if mp <? 10 then mp + 3 else mp - 9 in
  (if m <=? 2 then y + 1 else y, m, d).

Definition is_leap (y : Z) : bool :=
  ((y mod 4 =? 0) && negb (y mod 100 =? 0)) || (y mod 400 =? 0).

Definition days_in_month (y m : Z) : Z :=
  if m =? 2 then (if is_leap y then 29 else 28)
  else if (m =? 4) || (m =? 6) || (m =? 9) || (m =? 11) then 30
  else 31.

Definition digit (n : Z) : ascii := ascii_of_N (48 + Z.to_N (n mod 10)).

Definition pad2 (n : Z) : string :=
  String (digit (n / 10)) (String (digit n) "").

Definition pad4 (n : Z) : string :=
  String (digit (n / 1000)) (String (digit (n / 100)) (pad2 n)).

Definition pad6 (n : Z) : string :=
  String (digit (n / 100000)) (String (digit (n / 10000)) (pad4 n)).

(** The ISO text of a day number: [YYYY-MM-DD], with the sign and six
    digits of the year outside 0..9999. *)
Definition isoDay (day : Z) : string :=
  let '(y, m, d) := civil_from_days day in
  let year :=
    if (0 <=? y) && (y <=? 9999) then pad4 y
    else if y <? 0 then String "-" (pad6 (- y))
    else String "+" (pad6 y) in
  (year ++ "-" ++ pad2 m ++ "-" ++ pad2 d)%string.

(** The calendar day of an instant in UTC,
    [new Date(t).toISOString().split('T')[0]]. *)
Definition isoDate (t : Z) : string := isoDay (t / DAY).

Definition digit_val (c : ascii) : option Z :=
  let n := Z.of_N (N_of_ascii c) in
  if (48 <=? n) && (n <=? 57) then Some (n - 48) else None.

Fixpoint digits_val (l : list ascii) (acc : Z) : option Z :=
  match l with
  | [] => Some acc
  | c :: l' =>
      match digit_val c with
      | Some d => digits_val l' (acc * 10 + d)
      | None => None
      end
  end.

(** What [Date.parse] reads in the text [toISOString] writes,
    [YYYY-MM-DDTHH:mm:ss.sssZ]: the instance of [Date.parse] in the examples
    (the clients write [createdAt] with [toISOString]). *)
Definition iso_parse (s : string) : option Z :=
  match s with
  | String y1 (String y2 (String y3 (String y4 (String "-"
    (String m1 (String m2 (String "-"
    (String d1 (String d2 (String "T"
    (String h1 (String h2 (String ":"
    (String n1 (String n2 (String ":"
    (String s1 (String s2 (String "."
    (String f1 (String f2 (String f3 (String "Z" EmptyString)))))))))))))))))))))))
    =>
      match digits_val [y1; y2; y3; y4] 0, digits_val [m1; m2] 0,
            digits_val [d1; d2] 0, digits_val [h1; h2] 0,
            digits_val [n1; n2] 0, digits_val [s1; s2] 0,
            digits_val [f1; f2; f3] 0 with
      | Some y, Some m, Some d, Some h, Some n, Some sec, Some ms =>
          if (1 <=? m) && (m <=? 12) && (1 <=? d) && (d <=? days_in_month y m)
             && (h <=? 23) && (n <=? 59) && (sec <=? 59)
          then Some (days_from_civil y m d * DAY
                     + h * 3600000 + n * 60000 + sec * 1000 + ms)
          else None
      | _, _, _, _, _, _, _ => None
      end
  | _ => None
  end.

(** The largest time value of a [Date], in either direction. *)
Definition MAX_TIME : Z := 8640000000000000.

(** [new Date(v)]: a number is the instant itself, a string is read by
    [Date.parse], anything else goes through its primitive; [None] is an
    invalid date, whose time is [NaN]. [Date_parse] is the platform's
    [Date.parse], [None] where it does not recognise the text. *)
Definition new_Date (Date_parse : string -> option Z) (v : JSON) : option Z :=
  match v with
  | JNum n => if Z.abs n <=? MAX_TIME then Some n else None
  | JBool b => Some (if b then 1 else 0)
  | JNull => Some 0
  | JStr s => Date_parse s
  | _ => Date_parse (String_json v)
  end.

End DateTime.

(* ================================================================== *)
(** * What both clients share *)

Module ClientCommon.
Import DateTime.

(** A number that may be [NaN]. *)
Inductive number : Type :=
| Int (z : Z)
| NaN.

(** The object [getHabitStats] returns. *)
Record HabitStats : Type := mkStats {
  rate : number;
  daysElapsed : number;
  count : Z
}.

(** [a === b]; two arrays or two objects are never the same object here. *)
Definition strict_eq (a b : value) : bool :=
  match a, b with
  | None, None => true
  | Some JNull, Some JNull => true
  | Some (JBool x), Some (JBool y) => Bool.eqb x y
  | Some (JNum x), Some (JNum y) => x =? y
  | Some (JStr x), Some (JStr y) => String.eqb x y
  | _, _ => false
  end.

(** [Math.ceil(a / b)] for integers [a] and [b > 0]. *)
Definition ceil_div (a b : Z) : Z := - ((- a) / b).

(** The double of a small natural number (exact below [2^53]). *)
Definition double_of_Z (z : Z) : float := PrimFloat.of_uint63 (Uint63.of_Z z).

(** [Math.round(x)]: the integer nearest to the double [x], a half going
    up; [NaN] for [NaN] and the infinities. A finite double is
    [m * 2^e] exactly. *)
Definition Math_round (x : float) : number :=
  match Prim2SF x with
  | S754_zero _ => Int 0
  | S754_finite s m e =>
      let mz := if s then Z.neg m else Z.pos m in
      if 0 <=? e then Int (mz * 2 ^ e)
      else Int ((2 * mz + 2 ^ (- e)) / 2 ^ (- e + 1))
  | _ => NaN
  end.

(** [Math.round((count / daysElapsed) * 100)], in double precision. *)
Definition percent (count daysElapsed : Z) : number :=
  Math_round (PrimFloat.mul
                (PrimFloat.div (double_of_Z count) (double_of_Z daysElapsed))
                (double_of_Z 100)).

(** The integer nearest to [100 * c / d], a half going up, in exact
    arithmetic. *)
Definition round_percent (c d : Z) : Z := (200 * c + d) / (2 * d).

(** [goal.history && goal.history[key]], as a condition. *)
Definition history_has (goal : JsObject) (key : string) : bool :=
  truthy (get "history" goal) && truthy (opt_get key (get "history" goal)).

(** The time zone of the platform, as the [LocalTZA(t, isUTC)] of
    ECMAScript: the offset of local time from UTC, in milliseconds, at the
    instant [t] when [isUTC], and at the local time [t] otherwise (a local
    time that a change of offset repeats or skips is read with the offset
    before the change). *)
Definition TimeZone : Type := Z -> bool -> Z.

(** [LocalTime(t)] and [UTC(t)] of ECMAScript. *)
Definition LocalTime (tz : TimeZone) (t : Z) : Z := t + tz t true.

Definition UTC (tz : TimeZone) (t : Z) : Z := t - tz t false.

(** [const d = new Date(); d.setDate(now.getDate() - i);]: the local date
    and time of [now] with the day of the month moved back by [i], which is
    the local time of [now] less [i] days of 24 hours, read as a local time. *)
Definition setDate_back (tz : TimeZone) (now i : Z) : Z :=
  UTC tz (LocalTime tz now - i * DAY).

(** The loop [for (let i = 0; i < daysElapsed; i++)] of [getHabitStats],
    with [n] iterations left: [d] is [now] moved back [i] days on the local
    calendar by [setDate(now.getDate() - i)], and its key is the UTC day of
    [d], [d.toISOString().split('T')[0]]. *)
Fixpoint habit_loop (tz : TimeZone) (now : Z) (goal : JsObject) (i : Z)
    (n : nat) (count : Z) : Z :=
  match n with
  | O => count
  | S n' =>
      let d := setDate_back tz now i in
      let count' := if history_has goal (isoDate d) then count + 1 else count in
      habit_loop tz now goal (i + 1) n' count'
  end.

(** What a [try] block yields. *)
Inductive exn : Type :=
| FetchFailed          (* [fetch] rejected: no transport *)
| SyntaxError          (* [JSON.parse], [response.json()] *)
| TypeError            (* a property of [null], a method that is missing *)
| Error (msg : string).

Inductive result (A : Type) : Type :=
| Ok (a : A)
| Throw (e : exn).
Arguments Ok {A} a.
Arguments Throw {A} e.

Definition bind {A B} (r : result A) (k : A -> result B) : result B :=
  match r with
  | Ok a => k a
  | Throw e => Throw e
  end.

(** What [await fetch(...)] gives: a rejection, or a response; [body] is
    the text of its body (the bytes decoded, without a byte order mark),
    which [response.json()] parses. *)
Inductive FetchOutcome : Type :=
| Rejected
| Responded (body : string).

Definition response_json (o : FetchOutcome) : result JSON :=
  match o with
  | Rejected => Throw FetchFailed
  | Responded body =>
      match Json.parse body with
      | Some v => Ok v
      | None => Throw SyntaxError
      end
  end.

(** [JSON.parse(x)] of a value: the argument is first made a string. *)
Definition JSON_parse (x : value) : result JSON :=
  match Json.parse (String_ x) with
  | Some v => Ok v
  | None => Throw SyntaxError
  end.

(** [result.candidates?.[0]?.content?.parts?.[0]?.text]; reading
    [candidates] of [null] throws. *)
Definition candidate_text (result_ : JSON) : result value :=
  match result_ with
  | JNull => Throw TypeError
  | _ =>
      Ok (opt_get "text"
            (opt_index 0
               (opt_get "parts"
                  (opt_get "content"
                     (opt_index 0 (get "candidates" (own_props result_)))))))
  end.

(** [{ ...o, k: v }] where [v] may be [undefined]: the property is then
    absent from every JSON rendering of the object. *)
Definition assign (k : string) (v : value) (o : JsObject) : JsObject :=
  match v with
  | Some x => set k x o
  | None => remove k o
  end.

End ClientCommon.

(* ================================================================== *)
(** * The client with log-in ([src/unnamed/part_000]) *)

Module Client.
Import DateTime ClientCommon.

Section HabitStats.

(** The platform's time zone and its [Date.parse]. *)
Variable LocalTZA : TimeZone.
Variable Date_parse : string -> option Z.

Definition getHabitStats (now : Z) (goal : JsObject) : HabitStats :=
  if negb (strict_eq (get "category" goal) (Some (JStr "HABIT")))
     || negb (truthy (get "createdAt" goal))
  then mkStats (Int 0) (Int 0) 0
  else
    match match get "createdAt" goal with
          | Some c => new_Date Date_parse c
          | None => None
          end with
    | None => mkStats NaN NaN 0
    | Some start =>
        let daysElapsed :=
          Z.max 1 (Z.min 30 (ceil_div (Z.abs (now - start)) 86400000)) in
        let count := habit_loop LocalTZA now goal 0 (Z.to_nat daysElapsed) 0 in
        mkStats (percent count daysElapsed) (Int daysElapsed) count
    end.

End HabitStats.

(** The white space of [\s] and of [trim], in UTF-8: six characters of one
    byte (tab to carriage return, and the space), U+00A0 of two bytes, and
    U+1680, U+2000 to U+200A, U+2028, U+2029, U+202F, U+205F, U+3000 and
    U+FEFF of three. *)
Definition is_space1 (c : ascii) : bool :=
  let n := N_of_ascii c in
  (((9 <=? n) && (n <=? 13)) || (n =? 32))%N.

Definition is_space2 (c c2 : ascii) : bool :=
  ((N_of_ascii c =? 194) && (N_of_ascii c2 =? 160))%N.

Definition is_space3 (c c2 c3 : ascii) : bool :=
  let n := N_of_ascii c in
  let n2 := N_of_ascii c2 in
  let n3 := N_of_ascii c3 in
  (((n =? 225) && (n2 =? 154) && (n3 =? 128))
   || ((n =? 226) && (n2 =? 128)
       && (((128 <=? n3) && (n3 <=? 138)) || (n3 =? 168) || (n3 =? 169)
           || (n3 =? 175)))
   || ((n =? 226) && (n2 =? 129) && (n3 =? 159))
   || ((n =? 227) && (n2 =? 128) && (n3 =? 128))
   || ((n =? 239) && (n2 =? 187) && (n3 =? 191)))%N.

(** [\s*] at the head of a string, removed. *)
Fixpoint drop_spaces (s : string) : string :=
  match s with
  | EmptyString => s
  | String c r =>
      if is_space1 c then drop_spaces r
      else
        match r with
        | EmptyString => s
        | String c2 r2 =>
            if is_space2 c c2 then drop_spaces r2
            else
              match r2 with
              | EmptyString => s
              | String c3 r3 =>
                  if is_space3 c c2 c3 then drop_spaces r3 else s
              end
        end
  end.

(** [s.replace(/^```json\s*/, '')]. *)
Definition strip_open (s : string) : string :=
  match Json.expect "```json" s with
  | Some r => drop_spaces r
  | None => s
  end.

(** [s.replace(/\s*```$/, '')]: the leftmost place from which only white
    space and the closing fence remain. *)
Fixpoint strip_close (s : string) : string :=
  if String.eqb (drop_spaces s) "```" then ""
  else
    match s with
    | EmptyString => ""
    | String c r => String c (strip_close r)
    end.

Definition fallback : JSON :=
  JObj [("category", JStr "NONE"); ("roadmap", JArr []); ("subTasks", JArr []);
        ("advice", JStr "分析失敗")].

(** The [try] block of [analyzeGoal]. *)
Definition analyzeGoal_try (o : FetchOutcome) : result JSON :=
  bind (response_json o) (fun result_ =>
  bind (candidate_text result_) (fun rawText =>
  if negb (truthy rawText) then Throw (Error "No text content")
  else
    match rawText with
    | Some (JStr s) => JSON_parse (Some (JStr (strip_close (strip_open s))))
    | _ => Throw TypeError   (* no [replace] on what is not a string *)
    end)).

(** [analyzeGoal(text)]: the request carries [text], the outcome of the
    request decides the result. *)
Definition analyzeGoal (o : FetchOutcome) : JSON :=
  match analyzeGoal_try o with
  | Ok content => content
  | Throw _ => fallback
  end.

(** The goal [handleAddGoal] puts in front of the list while the analysis
    runs; [tempId] is [Date.now()], [createdAt] is
    [new Date().toISOString()]. *)
Definition newGoal (tempId : Z) (inputValue createdAt : string) : JsObject :=
  [("id", JNum tempId); ("text", JStr inputValue); ("completed", JBool false);
   ("category", JStr "PENDING"); ("subTasks", JArr []); ("history", JObj []);
   ("createdAt", JStr createdAt)].

(** [prev.map(g => g.id === tempId ? { ...g, ...analysis } : g)]. *)
Definition patch (tempId : Z) (analysis : JSON) (prev : list JsObject)
  : list JsObject :=
  map (fun g => if strict_eq (get "id" g) (Some (JNum tempId))
                then spread g (own_props analysis) else g) prev.

(** [handleAddGoal]: the goals once the analysis has come back (no other
    change of the list in between). The guard is
    [!inputValue.trim() || goals.length >= 100]. *)
Definition handleAddGoal (tempId : Z) (inputValue createdAt : string)
    (o : FetchOutcome) (goals : list JsObject) : list JsObject :=
  if String.eqb (drop_spaces inputValue) "" || (100 <=? List.length goals)%nat
  then goals
  else patch tempId (analyzeGoal o) (newGoal tempId inputValue createdAt :: goals).

(** The body of the request that saves the goals,
    [JSON.stringify({ username: currentUser, goals })]. *)
Record PostBody : Type := mkPost {
  post_username : string;
  post_goals : list JsObject
}.

(** The state of [App] that saving depends on; [timer] is the request the
    pending [setTimeout] of the save effect will send. *)
Record AppState : Type := mkApp {
  goals : list JsObject;
  currentUser : option string;
  timer : option PostBody
}.

(** The save effect: [if (!currentUser || goals.length === 0) return;],
    else a timer is set that will send the goals. *)
Definition saveEffect (currentUser : option string) (goals : list JsObject)
  : option PostBody :=
  match currentUser, goals with
  | Some u, _ :: _ => if String.eqb u "" then None else Some (mkPost u goals)
  | _, _ => None
  end.

(** [setGoals(new_goals)]: the effect depends on [goals], so its cleanup
    clears the pending timer and the effect runs again. *)
Definition setGoals (new_goals : list JsObject) (st : AppState) : AppState :=
  mkApp new_goals (currentUser st) (saveEffect (currentUser st) new_goals).

Definition deleteGoal (id : value) (st : AppState) : AppState :=
  setGoals (filter (fun g => negb (strict_eq (get "id" g) id)) (goals st)) st.

(** A second passes: the pending timer, if any, sends its request. *)
Definition timeout (st : AppState) : AppState * option PostBody :=
  (mkApp (goals st) (currentUser st) None, timer st).

End Client.

(* ================================================================== *)
(** * The client without log-in ([src/src/App.jsx]) *)

Module LegacyClient.
Import DateTime ClientCommon.

Section HabitStats.

(** The platform's time zone and its [Date.parse]. *)
Variable LocalTZA : TimeZone.
Variable Date_parse : string -> option Z.

Definition getHabitStats (now : Z) (goal : JsObject) : HabitStats :=
  if negb (strict_eq (get "category" goal) (Some (JStr "HABIT")))
     || negb (truthy (get "createdAt" goal))
  then mkStats (Int 0) (Int 0) 0
  else
    match match get "createdAt" goal with
          | Some c => new_Date Date_parse c
          | None => None
          end with
    | None => mkStats NaN NaN 0
    | Some start =>
        let diffTime := Z.abs (now - start) in
        let daysElapsed := ceil_div diffTime (1000 * 60 * 60 * 24) in
        let daysElapsed := if daysElapsed =? 0 then 1 else daysElapsed in
        let daysElapsed := if 30 <? daysElapsed then 30 else daysElapsed in
        let count := habit_loop LocalTZA now goal 0 (Z.to_nat daysElapsed) 0 in
        let rate := percent count daysElapsed in
        mkStats rate (Int daysElapsed) count
    end.

End HabitStats.

Definition fallback : JSON :=
  JObj [("category", JStr "NONE"); ("roadmap", JArr []); ("subTasks", JArr []);
        ("advice", JStr "分析に失敗しました。")].

(** [content.subTasks.length > 3], for a truthy [content.subTasks]. (A
    string is measured in bytes here, where JavaScript counts UTF-16 units:
    the same for ASCII text.) *)
Definition longer_than_3 (st : JSON) : bool :=
  match st with
  | JArr l => (3 <? List.length l)%nat
  | JStr s => (3 <? String.length s)%nat
  | JObj o => match get "length" o with Some (JNum n) => 3 <? n | _ => false end
  | _ => false
  end.

(** [content.subTasks.slice(0, 3)]; an object has no [slice]. *)
Definition slice_0_3 (st : JSON) : result JSON :=
  match st with
  | JArr l => Ok (JArr (firstn 3 l))
  | JStr s => Ok (JStr (String.substring 0 3 s))
  | _ => Throw TypeError
  end.

(** The [try] block of [analyzeGoal]. *)
Definition analyzeGoal_try (o : FetchOutcome) : result JSON :=
  bind (response_json o) (fun result_ =>
  bind (candidate_text result_) (fun text =>
  bind (JSON_parse text) (fun content =>
  match content with
  | JNull => Throw TypeError          (* [content.subTasks] of [null] *)
  | JObj c =>
      match get "subTasks" c with
      | Some st =>
          if truthy (Some st) && longer_than_3 st
          then bind (slice_0_3 st) (fun st' => Ok (JObj (set "subTasks" st' c)))
          else Ok content
      | None => Ok content
      end
  | _ => Ok content
  end))).

Definition analyzeGoal (o : FetchOutcome) : JSON :=
  match analyzeGoal_try o with
  | Ok content => content
  | Throw _ => fallback
  end.

Definition newGoal (tempId : Z) (inputValue createdAt : string) : JsObject :=
  Client.newGoal tempId inputValue createdAt.

(** [(analysis.subTasks || []).map((t, i) =>
       ({ id: `${tempId}_${i}`, text: t, completed: false }))];
    what is truthy and not an array has no [map]. *)
Fixpoint subTask_objects (tempId : Z) (i : nat) (l : list JSON) : list JSON :=
  match l with
  | [] => []
  | t :: l' =>
      JObj [("id", JStr (string_of_Z tempId ++ "_" ++ string_of_nat i));
            ("text", t); ("completed", JBool false)]
      :: subTask_objects tempId (S i) l'
  end.

Definition subTasks_of (tempId : Z) (v : value) : result JSON :=
  if truthy v then
    match v with
    | Some (JArr l) => Ok (JArr (subTask_objects tempId 0 l))
    | _ => Throw TypeError
    end
  else Ok (JArr []).

(** [v || []]. *)
Definition or_empty (v : value) : JSON :=
  if truthy v then match v with Some x => x | None => JArr [] end else JArr [].

(** The object [handleAddGoal] replaces the new goal with:
    [{ ...g, category: analysis.category, deadlineMonth: ..., isExam: ...,
       roadmap: analysis.roadmap || [], subTasks: ..., advice: ...,
       rewardIdea: ... }]. Reading a property of [null] throws. *)
Definition patched (tempId : Z) (analysis : JSON) (g : JsObject)
  : result JsObject :=
  match analysis with
  | JNull => Throw TypeError
  | _ =>
      let a := own_props analysis in
      bind (subTasks_of tempId (get "subTasks" a)) (fun subTasks =>
      Ok (assign "rewardIdea" (get "rewardIdea" a)
         (assign "advice" (get "advice" a)
         (set "subTasks" subTasks
         (set "roadmap" (or_empty (get "roadmap" a))
         (assign "isExam" (get "isExam" a)
         (assign "deadlineMonth" (get "deadlineMonth" a)
         (assign "category" (get "category" a) g))))))))
  end.

Fixpoint patch (tempId : Z) (analysis : JSON) (prev : list JsObject)
  : result (list JsObject) :=
  match prev with
  | [] => Ok []
  | g :: prev' =>
      bind (if strict_eq (get "id" g) (Some (JNum tempId))
            then patched tempId analysis g else Ok g) (fun g' =>
      bind (patch tempId analysis prev') (fun rest => Ok (g' :: rest)))
  end.

(** [handleAddGoal]: the goals once the analysis has come back. *)
Definition handleAddGoal (tempId : Z) (inputValue createdAt : string)
    (o : FetchOutcome) (goals : list JsObject) : result (list JsObject) :=
  if String.eqb (Client.drop_spaces inputValue) ""
     || (100 <=? List.length goals)%nat
  then Ok goals
  else patch tempId (analyzeGoal o) (newGoal tempId inputValue createdAt :: goals).

(** The save effect: the request it sends, if any. [goals.length === 0]
    returns before the request. *)
Definition saveEffect (goals : list JsObject) : option JSON :=
  match goals with
  | [] => None
  | _ => Some (JArr (map JObj goals))
  end.

Definition deleteGoal (id : value) (goals : list JsObject) : list JsObject :=
  filter (fun g => negb (strict_eq (get "id" g) id)) goals.

End LegacyClient.

(* ================================================================== *)
(** * Tables and responses *)

Module Db.

(** A row of [goals]. A column holds the JavaScript value the driver gives
    back for it; SQL [NULL] is [null]. The servers without user names leave
    [row_username] unused. Values are kept as the driver received them: the
    conversions a backend applies to a value that does not have the type of
    its column are not part of the model. *)
Record GoalRow : Type := mkRow {
  row_id : string;          (* id TEXT PRIMARY KEY *)
  row_username : string;    (* username TEXT *)
  row_text : JSON;          (* text TEXT *)
  row_category : JSON;      (* category TEXT *)
  row_completed : JSON;     (* completed BOOLEAN *)
  row_created_at : JSON;    (* created_at TEXT *)
  row_data : JSON           (* data JSON / JSONB *)
}.

(** A row of [users]. *)
Record UserRow : Type := mkUser {
  user_id : string;         (* id TEXT PRIMARY KEY *)
  user_username : string;   (* username TEXT UNIQUE *)
  password_hash : string;
  salt : string;
  user_created_at : string
}.

(** [res.status(s).json(body)]; [NoResponse] when the handler dies in a
    callback before it answers. *)
Inductive Response : Type :=
| Sent (status : Z) (body : JSON)
| NoResponse.

Definition ok (body : JSON) : Response := Sent 200 body.

Definition error_body (msg : string) : JSON := JObj [("error", JStr msg)].

(** What the driver stores for a bound parameter. SQLite has no boolean:
    [true] and [false] are stored as 1 and 0; [undefined] and [null] are
    [NULL]; an array or an object is bound as the text [[object Object]]. *)
Definition sqlite_bind (v : value) : JSON :=
  match v with
  | None => JNull
  | Some (JBool b) => JNum (if b then 1 else 0)
  | Some (JArr _) => JStr "[object Object]"
  | Some (JObj _) => JStr "[object Object]"
  | Some x => x
  end.

(** What PostgreSQL (also behind Supabase) stores: a property that is
    [undefined] is not sent and the column is [NULL]. *)
Definition pg_store (v : value) : JSON :=
  match v with
  | None => JNull
  | Some x => x
  end.

(** The order of [ORDER BY created_at]: text by its bytes; in SQLite [NULL]
    is the least value and numbers come before text, in PostgreSQL [NULL] is
    the greatest. *)
Definition col_rank (nulls_last : bool) (v : JSON) : Z :=
  match v with
  | JNull => if nulls_last then 3 else 0
  | JBool _ | JNum _ => 1
  | _ => 2
  end.

Definition col_le (nulls_last : bool) (a b : JSON) : bool :=
  match a, b with
  | JStr x, JStr y => String.leb x y
  | JNum x, JNum y => x <=? y
  | _, _ => col_rank nulls_last a <=? col_rank nulls_last b
  end.

(** [ORDER BY created_at DESC], rows of equal [created_at] in table order. *)
Fixpoint insert_desc (nulls_last : bool) (r : GoalRow) (l : list GoalRow)
  : list GoalRow :=
  match l with
  | [] => [r]
  | x :: l' =>
      if col_le nulls_last (row_created_at x) (row_created_at r)
      then r :: x :: l'
      else x :: insert_desc nulls_last r l'
  end.

Definition order_by_created_at_desc (nulls_last : bool) (l : list GoalRow)
  : list GoalRow :=
  fold_right (insert_desc nulls_last) [] l.

Definition has_id (id : string) (t : list GoalRow) : bool :=
  existsb (fun r => String.eqb (row_id r) id) t.

(** SQLite runs the queued [INSERT]s one by one. One that breaks the
    primary key fails and stores nothing, and the ones queued after it still
    run: this is the table they leave. (The failed statement has no
    callback: its error event is unhandled and ends the process after the
    response is sent. [key_clash] tells when that happens; what is stated
    about later requests is stated for a process that is still there.) *)
Fixpoint sqlite_insert_each (rows : list GoalRow) (t : list GoalRow)
  : list GoalRow :=
  match rows with
  | [] => t
  | r :: rows' =>
      if has_id (row_id r) t then sqlite_insert_each rows' t
      else sqlite_insert_each rows' (t ++ [r])%list
  end.

(** One of the queued [INSERT]s breaks the primary key. *)
Fixpoint key_clash (rows : list GoalRow) (t : list GoalRow) : bool :=
  match rows with
  | [] => false
  | r :: rows' =>
      if has_id (row_id r) t then true
      else key_clash rows' (t ++ [r])%list
  end.

(** One [INSERT] of several rows: all of them or, when an id is taken or
    repeated, none. *)
Definition insert_all (rows : list GoalRow) (t : list GoalRow)
  : option (list GoalRow) :=
  if nodupb (map row_id rows) && forallb (fun r => negb (has_id (row_id r) t)) rows
  then Some (t ++ rows)%list
  else None.

(** [const { id, text, category, completed, createdAt, ...rest } = g]. *)
Record Destructured : Type := mkFields {
  f_id : value;
  f_text : value;
  f_category : value;
  f_completed : value;
  f_createdAt : value;
  f_rest : JsObject
}.

Definition fixed_keys : list string :=
  ["id"; "text"; "category"; "completed"; "createdAt"].

Definition rest_of (o : JsObject) : JsObject :=
  filter (fun kv => negb (existsb (String.eqb (fst kv)) fixed_keys)) o.

Definition destructure (g : JSON) : ClientCommon.result Destructured :=
  match g with
  | JNull => ClientCommon.Throw ClientCommon.TypeError
  | _ =>
      let o := own_props g in
      ClientCommon.Ok
        (mkFields (get "id" o) (get "text" o) (get "category" o)
           (get "completed" o) (get "createdAt" o) (rest_of o))
  end.

(** [{ id: row.id, text: row.text, category: row.category,
       completed: c, createdAt: row.created_at, ...data }]. *)
Definition goal_of_row (r : GoalRow) (completed : JSON) (data : JsObject)
  : JSON :=
  JObj (spread [("id", JStr (row_id r)); ("text", row_text r);
                ("category", row_category r); ("completed", completed);
                ("createdAt", row_created_at r)] data).

End Db.

(* ================================================================== *)
(** * Goals scoped by user name: [/api/goals] of [src/db-check.js] (the
      server with accounts) and of the second document of [src/server.js]
      (the same two handlers, without the log lines) *)

Module ScopedServer.
Import ClientCommon Db.

(** [db.type]. *)
Inductive DbType : Type := supabase | sqlite.

(** The module-level [db] once [initDb] has set it, with the two tables
    behind its client. The Supabase tables are created outside the
    repository; they are taken to have the schema the SQLite branch
    creates. *)
Record Database : Type := mkDb {
  type : DbType;
  goals_table : list GoalRow;
  users_table : list UserRow
}.

(** [let db;]: [None] until (and unless) [initDb] assigns it. *)
Definition ServerState := option Database.

Definition with_goals (d : Database) (t : list GoalRow) : Database :=
  mkDb (type d) t (users_table d).

(** [!username]. *)
Definition absent (username : option string) : bool :=
  match username with
  | None => true
  | Some u => String.eqb u ""
  end.

Definition user_name (username : option string) : string :=
  match username with Some u => u | None => "" end.

(** [WHERE username = ?], [.eq('username', username)]. *)
Definition rows_of (u : string) (t : list GoalRow) : list GoalRow :=
  filter (fun r => String.eqb (row_username r) u) t.

(** [DELETE FROM goals WHERE username = ?]. *)
Definition delete_of (u : string) (t : list GoalRow) : list GoalRow :=
  filter (fun r => negb (String.eqb (row_username r) u)) t.

Fixpoint map_result {A B} (f : A -> result B) (l : list A) : result (list B) :=
  match l with
  | [] => Ok []
  | x :: l' =>
      bind (f x) (fun y => bind (map_result f l') (fun ys => Ok (y :: ys)))
  end.

(** The row the Supabase branch of [GET] maps to a goal:
    [...(row.data || {})]. *)
Definition supabase_goal (r : GoalRow) : JSON :=
  goal_of_row r (row_completed r)
    (if truthy (Some (row_data r)) then own_props (row_data r) else []).

(** The SQLite branch: [completed: Boolean(row.completed)],
    [...JSON.parse(row.data || '{}')]. *)
Definition sqlite_goal (r : GoalRow) : result JSON :=
  bind (JSON_parse (if truthy (Some (row_data r)) then Some (row_data r)
                    else Some (JStr "{}")))
    (fun data =>
       Ok (goal_of_row r (JBool (truthy (Some (row_completed r))))
             (own_props data))).

(** [app.get('/api/goals')]. *)
Definition getGoals (username : option string) (db : ServerState) : Response :=
  if absent username then ok (JArr [])
  else
    match db with
    | None => Sent 500 (error_body "Database not initialized")
    | Some d =>
        let u := user_name username in
        match type d with
        | supabase =>
            let data := order_by_created_at_desc true (rows_of u (goals_table d)) in
            ok (JArr (map supabase_goal data))
        | sqlite =>
            let rows := order_by_created_at_desc false (rows_of u (goals_table d)) in
            match map_result sqlite_goal rows with
            | Ok goals => ok (JArr goals)
            | Throw _ => NoResponse   (* thrown inside the callback of [all] *)
            end
        end
    end.

Definition supabase_row (u : string) (g : JSON) : result GoalRow :=
  bind (destructure g) (fun f =>
    Ok (mkRow (String_ (f_id f)) u (pg_store (f_text f)) (pg_store (f_category f))
          (pg_store (f_completed f)) (pg_store (f_createdAt f))
          (JObj (f_rest f)))).

Definition sqlite_row (u : string) (g : JSON) : result GoalRow :=
  bind (destructure g) (fun f =>
    Ok (mkRow (String_ (f_id f)) u (sqlite_bind (f_text f))
          (sqlite_bind (f_category f)) (sqlite_bind (f_completed f))
          (sqlite_bind (f_createdAt f))
          (JStr (Json.stringify (JObj (f_rest f)))))).

(** [goalList.forEach(g => { ...; stmt.run(...) })]: the rows queued before
    a goal that cannot be destructured, and whether there was one. *)
Fixpoint queued (u : string) (l : list JSON) : list GoalRow * bool :=
  match l with
  | [] => ([], false)
  | g :: l' =>
      match sqlite_row u g with
      | Ok r => let (rs, thrown) := queued u l' in (r :: rs, thrown)
      | Throw _ => ([], true)
      end
  end.

(** The messages of errors the platform words. *)
Definition msg_type_error : string :=
  "Cannot destructure property 'id' of 'g' as it is null.".
Definition msg_duplicate_key : string :=
  "duplicate key value violates unique constraint".

Definition success : JSON := JObj [("status", JStr "success")].

(** [Array.isArray(goals) ? goals : []]. *)
Definition goalList (goals : value) : list JSON :=
  match goals with
  | Some (JArr l) => l
  | _ => []
  end.

(** [app.post('/api/goals')] with body [{ username, goals }]. *)
Definition postGoals (username : option string) (goals : value)
    (db : ServerState) : Response * ServerState :=
  if absent username then (Sent 400 (error_body "Username is required"), db)
  else
    let goalList := goalList goals in
    match db with
    | None => (Sent 500 (error_body "Database not initialized"), db)
    | Some d =>
        let u := user_name username in
        let deleted := delete_of u (goals_table d) in
        match type d with
        | supabase =>
            match map_result (supabase_row u) goalList with
            | Throw _ =>
                (Sent 500 (error_body msg_type_error), Some (with_goals d deleted))
            | Ok rowsToInsert =>
                match rowsToInsert with
                | [] => (ok success, Some (with_goals d deleted))
                | _ =>
                    match insert_all rowsToInsert deleted with
                    | Some t => (ok success, Some (with_goals d t))
                    | None =>
                        (Sent 500 (error_body msg_duplicate_key),
                         Some (with_goals d deleted))
                    end
                end
            end
        | sqlite =>
            let (rows, thrown) := queued u goalList in
            let t := sqlite_insert_each rows deleted in
            (if thrown then Sent 500 (error_body msg_type_error) else ok success,
             Some (with_goals d t))
        end
    end.

End ScopedServer.

(* ================================================================== *)
(** * Accounts: [/api/register] and [/api/login] of [src/db-check.js] *)

Module AuthServer.
Import ClientCommon Db ScopedServer.

Section Auth.

(** [(await scryptAsync(password, salt, 64)).toString('hex')]: the derived
    key of [node:crypto], in hexadecimal. *)
Variable scrypt : string -> string -> string.

(** [hashPassword(password)]; [salt] is [randomBytes(16).toString('hex')]. *)
Definition hashPassword (salt : string) (password : string) : string * string :=
  (salt, scrypt password salt).

(** [verifyPassword(password, hash, salt)]: [timingSafeEqual] throws when
    the two buffers differ in length. *)
Definition verifyPassword (password hash salt : string) : result bool :=
  let buf := scrypt password salt in
  if (String.length hash =? String.length buf)%nat
  then Ok (String.eqb hash buf)
  else Throw (Error "Input buffers must have the same byte length").

(** [INSERT INTO users]: the id is the primary key, the user name is
    unique. *)
Definition insert_user (r : UserRow) (t : list UserRow) : option (list UserRow) :=
  if existsb (fun x => String.eqb (user_id x) (user_id r)
                       || String.eqb (user_username x) (user_username r)) t
  then None
  else Some (t ++ [r])%list.

Definition registered (username : string) : JSON :=
  JObj [("success", JBool true); ("username", JStr username)].

(** [app.post('/api/register')]; [salt] and [id] are the two draws of
    [randomBytes], [now] is [new Date().toISOString()]. *)
Definition register (salt id now : string) (username password : option string)
    (db : ServerState) : Response * ServerState :=
  if absent username || absent password
  then (Sent 400 (error_body "Username and password required"), db)
  else
    let u := user_name username in
    let '(salt, hash) := hashPassword salt (user_name password) in
    match db with
    | None => (Sent 500 (error_body "Registration failed or username exists"), db)
    | Some d =>
        match insert_user (mkUser id u hash salt now) (users_table d) with
        | Some t =>
            (ok (registered u), Some (mkDb (type d) (goals_table d) t))
        | None =>
            (Sent 500 (error_body "Registration failed or username exists"), db)
        end
    end.

(** [SELECT * FROM users WHERE username = ?]: Supabase's [single()] fails
    unless there is exactly one row; SQLite's [get] takes the first. *)
Definition find_user (d : Database) (u : string) : option UserRow :=
  match filter (fun x => String.eqb (user_username x) u) (users_table d) with
  | [] => None
  | [x] => Some x
  | x :: _ => match type d with supabase => None | sqlite => Some x end
  end.

Definition invalid_credentials : Response :=
  Sent 401 (error_body "Invalid credentials").

(** [app.post('/api/login')]. *)
Definition login (username password : option string) (db : ServerState)
  : Response :=
  if absent username || absent password
  then Sent 400 (error_body "Username and password required")
  else
    match db with
    | None => Sent 500 (error_body "Login failed")
    | Some d =>
        match find_user d (user_name username) with
        | None => invalid_credentials
        | Some user =>
            match verifyPassword (user_name password) (password_hash user)
                    (salt user) with
            | Throw _ => Sent 500 (error_body "Login failed")
            | Ok isValid =>
                if isValid then ok (registered (user_username user))
                else invalid_credentials
            end
        end
    end.

End Auth.

End AuthServer.

(* ================================================================== *)
(** * The first server: one table for everybody ([src/server.js], first
      document) *)

Module LegacyServer.
Import ClientCommon Db.

Inductive DbType : Type := postgres | sqlite.

(** [db] and the table [goals] behind it (no [username] column). *)
Record Database : Type := mkDb {
  type : DbType;
  goals_table : list GoalRow
}.

(** What a [JSONB] column gives back for the value stored in it: the keys
    of every object in the order of the type, the shorter key first and keys
    of one length by their bytes. *)
Definition jsonb_key_le (a b : string) : bool :=
  (String.length a <? String.length b)%nat
  || ((String.length a =? String.length b)%nat && String.leb a b).

Fixpoint jsonb_insert (kv : string * JSON) (o : JsObject) : JsObject :=
  match o with
  | [] => [kv]
  | x :: o' =>
      if jsonb_key_le (fst kv) (fst x) then kv :: x :: o'
      else x :: jsonb_insert kv o'
  end.

Fixpoint jsonb (v : JSON) : JSON :=
  match v with
  | JArr l => JArr (map jsonb l)
  | JObj o =>
      JObj (fold_right jsonb_insert []
              (map (fun kv => (fst kv, jsonb (snd kv))) o))
  | _ => v
  end.

(** The PostgreSQL branch of [GET]: [...row.data]. *)
Definition postgres_goal (r : GoalRow) : JSON :=
  goal_of_row r (row_completed r) (own_props (row_data r)).

(** [app.get('/api/goals')]: the query string is not read. *)
Definition getGoals (db : Database) : Response :=
  match type db with
  | postgres =>
      ok (JArr (map postgres_goal
                  (order_by_created_at_desc true (goals_table db))))
  | sqlite =>
      match ScopedServer.map_result ScopedServer.sqlite_goal
              (order_by_created_at_desc false (goals_table db)) with
      | Ok goals => ok (JArr goals)
      | Throw _ => NoResponse
      end
  end.

Definition postgres_row (g : JSON) : result GoalRow :=
  bind (destructure g) (fun f =>
    Ok (mkRow (String_ (f_id f)) "" (pg_store (f_text f)) (pg_store (f_category f))
          (pg_store (f_completed f)) (pg_store (f_createdAt f))
          (jsonb (JObj (f_rest f))))).

(** The [INSERT]s of the transaction, one after the other; [None] when one
    fails. *)
Fixpoint insert_each (rows : list GoalRow) (t : list GoalRow)
  : option (list GoalRow) :=
  match rows with
  | [] => Some t
  | r :: rows' =>
      if has_id (row_id r) t then None
      else insert_each rows' (t ++ [r])%list
  end.

(** [Array.isArray(goals) ? goals : [goals]]. *)
Definition goalList (body : JSON) : list JSON :=
  match body with
  | JArr l => l
  | _ => [body]
  end.

(** [app.post('/api/goals')]; the body is the list of goals itself. *)
Definition postGoals (body : JSON) (db : Database) : Response * Database :=
  let goalList := goalList body in
  match type db with
  | postgres =>
      (* BEGIN; DELETE FROM goals; INSERT ...; COMMIT, or ROLLBACK in the
         catch: taken as the one transaction the code means it to be. *)
      match ScopedServer.map_result postgres_row goalList with
      | Throw _ => (Sent 500 (error_body ScopedServer.msg_type_error), db)
      | Ok rows =>
          match insert_each rows [] with
          | Some t => (ok ScopedServer.success, mkDb postgres t)
          | None => (Sent 500 (error_body ScopedServer.msg_duplicate_key), db)
          end
      end
  | sqlite =>
      let (rows, thrown) := ScopedServer.queued "" goalList in
      let t := sqlite_insert_each rows [] in
      (if thrown then Sent 500 (error_body ScopedServer.msg_type_error)
       else ok ScopedServer.success,
       mkDb sqlite t)
  end.

End LegacyServer.

(* ================================================================== *)
(** * The client with log-in against the server with accounts *)

Module System.
Import Client ScopedServer.

(** The server handles the request of the save timer. *)
Definition deliver (req : option PostBody) (db : ServerState) : ServerState :=
  match req with
  | Some b =>
      snd (postGoals (Some (post_username b))
             (Some (JArr (map JObj (post_goals b)))) db)
  | None => db
  end.

(** A second passes. *)
Definition tick (s : AppState * ServerState) : AppState * ServerState :=
  let (st, req) := timeout (fst s) in (st, deliver req (snd s)).

Fixpoint ticks (n : nat) (s : AppState * ServerState) : AppState * ServerState :=
  match n with
  | O => s
  | S n' => ticks n' (tick s)
  end.

End System.

(* ================================================================== *)
(** * The handlers of the goal list in the client with log-in
      ([src/unnamed/part_000]) *)

Module Toggles.
Import DateTime ClientCommon.

(** [{ ...g, completed: !g.completed }]. *)
Definition flip_completed (g : JsObject) : JsObject :=
  set "completed" (JBool (negb (truthy (get "completed" g)))) g.

(** [toggleGoal(id)]: the list it hands to [setGoals],
    [goals.map(g => g.id === id ? { ...g, completed: !g.completed } : g)]. *)
Definition toggleGoal (id : value) (goals : list JsObject) : list JsObject :=
  map (fun g => if strict_eq (get "id" g) id then flip_completed g else g) goals.

(** [s.includes(p)] on strings: [p] occurs in [s]. *)
Fixpoint includes (s p : string) : bool :=
  String.prefix p s
  || match s with
     | EmptyString => false
     | String _ r => includes r p
     end.

(** A byte that continues a character of several bytes. *)
Definition is_continuation (c : ascii) : bool :=
  let n := N_of_ascii c in ((128 <=? n) && (n <? 192))%N.

Definition head_continues (s : string) : bool :=
  match s with
  | String c _ => is_continuation c
  | EmptyString => false
  end.

(** [[...s]]: the characters of a string, each with its bytes. *)
Fixpoint code_points (s : string) : list string :=
  match s with
  | EmptyString => []
  | String c r =>
      match code_points r with
      | p :: l =>
          if head_continues r then String c p :: l else String c "" :: p :: l
      | [] => [String c ""]
      end
  end.

(** [done.includes(text)] on an array. *)
Definition array_includes (l : list JSON) (text : JSON) : bool :=
  existsb (fun t => strict_eq (Some t) (Some text)) l.

(** [const done = g.doneSubTasks || [];
     const newDone = done.includes(text) ? done.filter(t => t !== text)
                                         : [...done, text];]
    A string has [includes] (of the text [String(text)]) and no [filter];
    a number, [true] and an object have no [includes]. *)
Definition newDone (doneSubTasks : value) (text : JSON) : result JSON :=
  if truthy doneSubTasks then
    match doneSubTasks with
    | Some (JArr done) =>
        if array_includes done text
        then Ok (JArr (filter (fun t => negb (strict_eq (Some t) (Some text))) done))
        else Ok (JArr (done ++ [text]))
    | Some (JStr s) =>
        if includes s (String_json text) then Throw TypeError
        else Ok (JArr (map JStr (code_points s) ++ [text]))
    | _ => Throw TypeError
    end
  else Ok (JArr [text]).

(** [toggleSubTask(goalId, text)]: the list it hands to [setGoals], or the
    exception of the one goal that throws. *)
Definition toggleSubTask (goalId : value) (text : JSON) (goals : list JsObject)
  : result (list JsObject) :=
  ScopedServer.map_result
    (fun g =>
       if negb (strict_eq (get "id" g) goalId) then Ok g
       else bind (newDone (get "doneSubTasks" g) text) (fun d =>
            Ok (set "doneSubTasks" d g)))
    goals.

(** [{ ...g.history }]. *)
Definition history_copy (g : JsObject) : JsObject :=
  match get "history" g with
  | Some h => own_props h
  | None => []
  end.

(** [const h = { ...g.history };
     if (h[todayStr]) delete h[todayStr]; else h[todayStr] = true;
     return { ...g, history: h };] *)
Definition toggle_today (todayStr : string) (g : JsObject) : JsObject :=
  let h := history_copy g in
  let h := if truthy (get todayStr h) then remove todayStr h
           else set todayStr (JBool true) h in
  set "history" (JObj h) g.

(** [toggleHabit(id)]; [todayStr] is [today.toISOString().split('T')[0]]. *)
Definition toggleHabit (todayStr : string) (id : value) (goals : list JsObject)
  : list JsObject :=
  map (fun g => if negb (strict_eq (get "id" g) id) then g
                else toggle_today todayStr g) goals.

(** [x < z] and [x >= z] for a number that may be [NaN]. *)
Definition lt_number (x : number) (z : Z) : bool :=
  match x with Int a => a <? z | NaN => false end.

Definition ge_number (x : number) (z : Z) : bool :=
  match x with Int a => z <=? a | NaN => false end.

Section Warning.

Variable LocalTZA : TimeZone.
Variable Date_parse : string -> option Z.

(** [const habitStats = goal.category === 'HABIT' ? getHabitStats(goal) : null;
     const isWarning = habitStats && habitStats.rate < 80
                       && habitStats.daysElapsed >= 3;] as a condition. *)
Definition isWarning (now : Z) (goal : JsObject) : bool :=
  if strict_eq (get "category" goal) (Some (JStr "HABIT")) then
    let habitStats := Client.getHabitStats LocalTZA Date_parse now goal in
    lt_number (rate habitStats) 80 && ge_number (daysElapsed habitStats) 3
  else false.

End Warning.

End Toggles.

(* ================================================================== *)
(** * The handlers of the goal list in the client without log-in
      ([src/src/App.jsx]) *)

Module LegacyToggles.
Import DateTime ClientCommon.

(** [toggleGoal(id)]: the same text as in the other client. *)
Definition toggleGoal (id : value) (goals : list JsObject) : list JsObject :=
  map (fun g => if strict_eq (get "id" g) id
                then set "completed" (JBool (negb (truthy (get "completed" g)))) g
                else g) goals.

(** [changeCategory(goalId, newCategory)]. *)
Definition changeCategory (goalId : value) (newCategory : string)
    (goals : list JsObject) : list JsObject :=
  map (fun g => if strict_eq (get "id" g) goalId
                then set "category" (JStr newCategory) g else g) goals.

(** [st => st.id === subId ? { ...st, completed: !st.completed } : st];
    reading [id] of [null] throws. *)
Definition flip_subtask (subId : value) (st : JSON) : result JSON :=
  match st with
  | JNull => Throw TypeError
  | _ =>
      let o := own_props st in
      if strict_eq (get "id" o) subId
      then Ok (JObj (set "completed" (JBool (negb (truthy (get "completed" o)))) o))
      else Ok st
  end.

(** [{ ...g, subTasks: g.subTasks.map(...) }]; only an array has [map]. *)
Definition flip_subtasks (subId : value) (g : JsObject) : result JsObject :=
  match get "subTasks" g with
  | Some (JArr l) =>
      bind (ScopedServer.map_result (flip_subtask subId) l) (fun l' =>
      Ok (set "subTasks" (JArr l') g))
  | _ => Throw TypeError
  end.

(** [toggleSubTask(goalId, subId)]. *)
Definition toggleSubTask (goalId subId : value) (goals : list JsObject)
  : result (list JsObject) :=
  ScopedServer.map_result
    (fun g => if strict_eq (get "id" g) goalId then flip_subtasks subId g
              else Ok g)
    goals.

(** [const history = { ...g.history };
     history[todayStr] = !history[todayStr];
     return { ...g, history };] *)
Definition toggle_today (todayStr : string) (g : JsObject) : JsObject :=
  let history := Toggles.history_copy g in
  set "history"
    (JObj (set todayStr (JBool (negb (truthy (get todayStr history)))) history)) g.

Definition toggleHabit (todayStr : string) (id : value) (goals : list JsObject)
  : list JsObject :=
  map (fun g => if negb (strict_eq (get "id" g) id) then g
                else toggle_today todayStr g) goals.

Section Warning.

Variable LocalTZA : TimeZone.
Variable Date_parse : string -> option Z.

(** [habitStats && habitStats.rate < 80 && habitStats.daysElapsed >= 3] in
    the list of goals, [stats.rate < 80 && stats.daysElapsed >= 3] in the
    list of the habits of the day. *)
Definition isWarning (now : Z) (goal : JsObject) : bool :=
  if strict_eq (get "category" goal) (Some (JStr "HABIT")) then
    let habitStats := LegacyClient.getHabitStats LocalTZA Date_parse now goal in
    Toggles.lt_number (rate habitStats) 80
    && Toggles.ge_number (daysElapsed habitStats) 3
  else false.

End Warning.

End LegacyToggles.

(* ================================================================== *)
(** * The counts of the header, the same text in both clients *)

Module Header.
Import ClientCommon.

Record Counts := mkCounts {
  total : nat;
  completed : nat;
  challenge : nat;
  habit : nat;
  hobby : nat
}.

(** [g => g.category === c]. *)
Definition in_category (c : string) (g : JsObject) : bool :=
  strict_eq (get "category" g) (Some (JStr c)).

(** [const stats = { total: goals.length,
                     completed: goals.filter(g => g.completed).length,
                     challenge: goals.filter(g => g.category === 'CHALLENGE').length,
                     habit: ..., hobby: ... }]. *)
Definition stats (goals : list JsObject) : Counts :=
  mkCounts (List.length goals)
    (List.length (filter (fun g => truthy (get "completed" g)) goals))
    (List.length (filter (in_category "CHALLENGE") goals))
    (List.length (filter (in_category "HABIT") goals))
    (List.length (filter (in_category "HOBBY") goals)).

End Header.

(* ================================================================== *)
(** * The requests to the model service: [/api/analyze] (all three
      servers) and [/api/chat] ([src/db-check.js]) *)

Module Proxy.
Import ClientCommon Db ScopedServer.

Definition analyze_failed : Response :=
  Sent 500 (error_body "Failed to fetch from Gemini API").

(** [app.post('/api/analyze')]: [apiKey] is [process.env.GEMINI_API_KEY],
    [upstream] what the request to the model service comes to. The status
    of the service's answer is not looked at. *)
Definition analyze (apiKey : option string) (upstream : FetchOutcome) : Response :=
  if absent apiKey then analyze_failed
  else
    match response_json upstream with
    | Ok data => ok data
    | Throw _ => analyze_failed
    end.

(** What [fetch] and [response.json()] give the client for an answer that
    reaches it: the text [res.json] writes, whatever the status. *)
Definition fetched (r : Response) : option FetchOutcome :=
  match r with
  | Sent _ body => Some (Responded (Json.stringify body))
  | NoResponse => None
  end.

Definition newline : string := String "010" "".

Definition indent12 : string := "            ".

(** The three fixed parts of the system prompt of [/api/chat], around
    [${goal.text}] and [${JSON.stringify(goal)}]. *)
Definition prompt_head : string :=
  newline ++ indent12
  ++ "あなたは目標達成コーチです。ユーザーの目標「".

Definition prompt_middle : string :=
  "」について相談を受けています。" ++ newline ++ indent12
  ++ "現状の目標詳細: ".

Definition prompt_tail : string :=
  newline ++ indent12 ++ newline ++ indent12
  ++ "ユーザーの問いかけに対して、具体的かつ励ましのあるアドバイスをしてください。"
  ++ newline ++ indent12
  ++ "必要であれば目標の修正案（下方修正や上方修正）も提案してください。"
  ++ newline ++ indent12
  ++ "返答は短く簡潔なテキストで返してください。"
  ++ newline ++ "        ".

(** The template of [systemPrompt]; reading [text] of a [goal] that is
    [undefined] or [null] throws. *)
Definition systemPrompt (goal : value) : result string :=
  match goal with
  | None | Some JNull => Throw TypeError
  | Some g =>
      Ok (prompt_head ++ String_ (get "text" (own_props g)) ++ prompt_middle
          ++ Json.stringify g ++ prompt_tail)
  end.

(** [...(context || [])]: an array gives its elements, a string its
    characters; a number, [true] and an object are not iterable. *)
Definition context_items (context : value) : result (list JSON) :=
  if truthy context then
    match context with
    | Some (JArr l) => Ok l
    | Some (JStr s) => Ok (map JStr (Toggles.code_points s))
    | _ => Throw TypeError
    end
  else Ok [].

(** The body of the request to the model service. *)
Definition chat_request (body : JSON) : result JSON :=
  let o := own_props body in
  bind (systemPrompt (get "goal" o)) (fun prompt =>
  bind (context_items (get "context" o)) (fun items =>
  Ok (JObj [("systemInstruction",
             JObj [("parts", JArr [JObj [("text", JStr prompt)]])]);
            ("contents",
             JArr (items ++ [JObj [("role", JStr "user");
                                   ("parts",
                                    JArr [JObj (assign "text" (get "message" o) [])])]]))]))).

Definition chat_failed : Response := Sent 500 (error_body "Chat failed").

(** [{ candidates: [{ content: { parts: [{ text: reply }] } }] }]. *)
Definition clean_reply (reply : JSON) : JSON :=
  JObj [("candidates",
         JArr [JObj [("content",
                      JObj [("parts", JArr [JObj [("text", reply)]])])]])].

(** What the [try] block of [/api/chat] makes of the service's answer. *)
Definition chat_reply (upstream : FetchOutcome) : result JSON :=
  bind (response_json upstream) (fun data =>
  match data with
  | JNull => Throw TypeError
  | _ =>
      if truthy (get "error" (own_props data))
      then Throw (Error (match opt_get "message" (get "error" (own_props data)) with
                         | Some m => String_json m
                         | None => ""
                         end))
      else
        bind (candidate_text data) (fun reply =>
        match reply with
        | Some r => if truthy reply then Ok r else Throw (Error "No response from AI")
        | None => Throw (Error "No response from AI")
        end)
  end).

(** [app.post('/api/chat')]: [body] is [req.body] (the JSON parser of the
    server passes objects and arrays), [service] answers the request. *)
Definition chat (body : JSON) (service : JSON -> FetchOutcome) : Response :=
  match bind (chat_request body) (fun request => chat_reply (service request)) with
  | Ok reply => ok (clean_reply reply)
  | Throw _ => chat_failed
  end.

End Proxy.

(* ================================================================== *)
(** * The connection check ([src/db-check.js], first document) *)

Module DbCheck.

(** A character of the class [[^:/@]]. *)
Definition in_class (c : ascii) : bool :=
  negb (Ascii.eqb c ":" || Ascii.eqb c "/" || Ascii.eqb c "@").

(** The longest run of characters of the class at the head of a string,
    and what follows it. *)
Fixpoint span_class (s : string) : string * string :=
  match s with
  | String c r =>
      if in_class c then let (run, rest) := span_class r in (String c run, rest)
      else ("", s)
  | EmptyString => ("", "")
  end.

(** [/:[^:/@]+@/] at the head of a string: what follows the match. The
    run that [+] takes is the longest one, since a shorter one is followed
    by a character of the class, which is not [@]. *)
Definition match_here (s : string) : option string :=
  match s with
  | String c r =>
      if Ascii.eqb c ":" then
        match span_class r with
        | (String _ _, String c2 rest) =>
            if Ascii.eqb c2 "@" then Some rest else None
        | _ => None
        end
      else None
  | EmptyString => None
  end.

(** [connectionString.replace(/:[^:/@]+@/, ':****@')]: the leftmost match
    is replaced. *)
Fixpoint mask (s : string) : string :=
  match match_here s with
  | Some rest => ":****@" ++ rest
  | None =>
      match s with
      | EmptyString => ""
      | String c r => String c (mask r)
      end
  end.

(** What the script prints first when [DATABASE_URL] is set. *)
Definition checking_line (connectionString : string) : string :=
  "Checking connection to: " ++ mask connectionString.

End DbCheck.

(* ================================================================== *)
(** * Habit statistics *)

Module HabitSpec.
Import DateTime ClientCommon.

(** Whether the UTC day [j] days before the UTC day of [now] is marked in
    the history. *)
Definition marked (now : Z) (goal : JsObject) (j : nat) : bool :=
  history_has goal (isoDate (now - Z.of_nat j * DAY)).

(** The number of marked days among the [d] consecutive UTC days that end
    with the UTC day of [now]. *)
Definition window_count (now : Z) (goal : JsObject) (d : Z) : Z :=
  Z.of_nat (List.length (filter (marked now goal) (seq 0 (Z.to_nat d)))).

(** The key the loop reads at its step [j]: the UTC date of the instant at
    which the local clock shows the local date of [now] moved back [j]
    days, at the local time of day of [now]. *)
Definition read_key (tz : TimeZone) (now : Z) (j : nat) : string :=
  isoDate (setDate_back tz now (Z.of_nat j)).

Definition read_marked (tz : TimeZone) (now : Z) (goal : JsObject) (j : nat)
  : bool :=
  history_has goal (read_key tz now j).

(** The number of steps [j < d] whose key is marked. *)
Definition read_count (tz : TimeZone) (now : Z) (goal : JsObject) (d : Z) : Z :=
  Z.of_nat (List.length (filter (read_marked tz now goal) (seq 0 (Z.to_nat d)))).

(** The offset of local time is the same at [now] and at the local times
    of the [d] steps back from it: no change of offset (daylight saving) in
    the window. *)
Definition steady (tz : TimeZone) (now d : Z) : Prop :=
  forall i, 0 <= i < d -> tz (LocalTime tz now - i * DAY) false = tz now true.

(** A zone that keeps one offset. *)
Definition fixed_zone (offset : Z) : TimeZone := fun _ _ => offset.

(** [clamp(x, 1, 30)]. *)
Definition clamp_1_30 (x : Z) : Z := Z.max 1 (Z.min 30 x).

(** The days elapsed as the specification words them,
    [clamp(ceil(hours since createdAt / 24), 1, 30)]: the time since
    [createdAt] is signed. *)
Definition claimed_daysElapsed (asOf start : Z) : Z :=
  clamp_1_30 (ceil_div (asOf - start) DAY).

(** On [n] days from [day] on, the date of the day number is a date of the
    calendar and has that day number. *)
Fixpoint calendar_agrees (n : nat) (day : Z) : bool :=
  match n with
  | O => true
  | S n' =>
      let '(y, m, d) := civil_from_days day in
      (days_from_civil y m d =? day) && (1 <=? m) && (m <=? 12)
      && (1 <=? d) && (d <=? days_in_month y m)
      && calendar_agrees n' (day + 1)
  end.

Definition is_habit (goal : JsObject) : bool :=
  strict_eq (get "category" goal) (Some (JStr "HABIT")).

End HabitSpec.


(* ================================================================== *)
(** * The goal store *)

Module StoreSpec.
Import ClientCommon Db ScopedServer.

(** A goal as the data model has it: an object whose fixed fields have
    their types, and which JavaScript can hold. *)
Definition is_goal (g : JsObject) : Prop :=
  wf (JObj g) = true
  /\ (exists s, get "text" g = Some (JStr s))
  /\ (exists s, get "category" g = Some (JStr s))
  /\ (exists b, get "completed" g = Some (JBool b))
  /\ (exists s, get "createdAt" g = Some (JStr s)).

(** The id a goal is stored under, [String(id)]. *)
Definition stored_id (g : JsObject) : string := String_ (get "id" g).

Definition field (k : string) (g : JsObject) : JSON :=
  match get k g with Some v => v | None => JNull end.

(** The goal that comes back: the five fixed fields, the id as a string,
    then the other fields. *)
Definition stored_form (g : JsObject) : JsObject :=
  ([("id", JStr (stored_id g)); ("text", field "text" g);
    ("category", field "category" g); ("completed", field "completed" g);
    ("createdAt", field "createdAt" g)] ++ rest_of g)%list.

(** The creation time of a goal, as text. *)
Definition created (g : JsObject) : string :=
  match get "createdAt" g with Some (JStr s) => s | _ => "" end.

(** [a] is not older than [b]. *)
Definition not_older (a b : JsObject) : Prop :=
  String.leb (created b) (created a) = true.

(** No row of another user has one of these ids. *)
Definition ids_free (u : string) (ids : list string) (t : list GoalRow) : Prop :=
  forall r, In r t -> row_username r <> u -> ~ In (row_id r) ids.

(** [a] is not older than [b], as rows. *)
Definition row_not_older (nl : bool) (a b : GoalRow) : Prop :=
  col_le nl (row_created_at b) (row_created_at a) = true.

Definition is_fixed (k : string) : bool := existsb (String.eqb k) fixed_keys.


(** [db.type] as the argument of the order: PostgreSQL puts [NULL] last. *)
Definition nulls_last (t : DbType) : bool :=
  match t with supabase => true | sqlite => false end.

Definition stored_row (t : DbType) (u : string) (g : JsObject) : GoalRow :=
  match t with
  | supabase =>
      mkRow (stored_id g) u (pg_store (get "text" g)) (pg_store (get "category" g))
        (pg_store (get "completed" g)) (pg_store (get "createdAt" g))
        (JObj (rest_of g))
  | sqlite =>
      mkRow (stored_id g) u (sqlite_bind (get "text" g))
        (sqlite_bind (get "category" g)) (sqlite_bind (get "completed" g))
        (sqlite_bind (get "createdAt" g))
        (JStr (Json.stringify (JObj (rest_of g))))
  end.

(** The goal [GET] makes of a row. *)
Definition loaded (t : DbType) (r : GoalRow) : result JSON :=
  match t with
  | supabase => Ok (supabase_goal r)
  | sqlite => sqlite_goal r
  end.

Definition loaded_obj (t : DbType) (r : GoalRow) : JsObject :=
  match loaded t r with
  | Ok (JObj o) => o
  | _ => []
  end.

(** A row that holds a goal. *)
Definition holds_goal (t : DbType) (u : string) (r : GoalRow) : Prop :=
  exists g, is_goal g /\ r = stored_row t u g.

End StoreSpec.


Module AuthSpec.
Import Db ScopedServer AuthServer.

(** What [/api/login] can answer to a request for [username]: success
    with the user name of the request, or one of three fixed errors. Nothing
    of the stored row but the name that was asked for is in it. *)
Definition login_answers (username : option string) (r : Response) : Prop :=
  r = ok (registered (user_name username))
  \/ r = Sent 400 (error_body "Username and password required")
  \/ r = invalid_credentials
  \/ r = Sent 500 (error_body "Login failed").

(** What [/api/login] answers to a password whose key is not the stored
    one: the keys of scrypt have one length and the answer is 401; were the
    lengths to differ, the comparison would throw and the answer be 500. *)
Definition refused (stored_key key : string) : Response :=
  if (String.length stored_key =? String.length key)%nat
  then invalid_credentials
  else Sent 500 (error_body "Login failed").

End AuthSpec.

Module AnalysisSpec.

(** The goal that is created when the analysis fails: the new goal with
    the fields of the fallback, whose message is [advice]. *)
Definition created_goal (tempId : Z) (inputValue createdAt advice : string)
  : JsObject :=
  [("id", JNum tempId); ("text", JStr inputValue); ("completed", JBool false);
   ("category", JStr "NONE"); ("subTasks", JArr []); ("history", JObj []);
   ("createdAt", JStr createdAt); ("roadmap", JArr []);
   ("advice", JStr advice)].

(** The analysis fails: the request is rejected, the body of the response
    is not JSON, the response has no candidates (an error payload), it has
    no candidate text, or the text is not JSON. [strip] is what the client does to the text before it parses
    it. *)
Inductive analysis_fails (strip : string -> string) : ClientCommon.FetchOutcome -> Prop :=
| fails_transport : analysis_fails strip ClientCommon.Rejected
| fails_body (body : string) :
    Json.is_json body = false ->
    analysis_fails strip (ClientCommon.Responded body)
| fails_no_candidates (body : string) (result_ : JSON) :
    Json.parse body = Some result_ ->
    get "candidates" (own_props result_) = None ->
    analysis_fails strip (ClientCommon.Responded body)
| fails_no_text (body : string) (result_ : JSON) :
    Json.parse body = Some result_ ->
    ClientCommon.candidate_text result_ = ClientCommon.Ok None ->
    analysis_fails strip (ClientCommon.Responded body)
| fails_text (body : string) (result_ : JSON) (s : string) :
    Json.parse body = Some result_ ->
    ClientCommon.candidate_text result_ = ClientCommon.Ok (Some (JStr s)) ->
    Json.is_json (strip s) = false ->
    analysis_fails strip (ClientCommon.Responded body).

End AnalysisSpec.

Module FenceSpec.
Import Client.

(** A text inside a code fence: the opening fence, white space, the text,
    white space, the closing fence. *)
Definition fence (ws1 t ws2 : string) : string :=
  ("```json" ++ ws1 ++ t ++ ws2 ++ "```")%string.

(** White space only. *)
Definition blank (ws : string) : Prop := drop_spaces ws = "".

(** An ASCII character that is not white space. *)
Definition visible (c : ascii) : bool :=
  (N_of_ascii c <? 128)%N && negb (is_space1 c).

(** A visible character other than the backquote. *)
Definition plain (c : ascii) : bool := visible c && negb (Ascii.eqb c "`").

Definition starts_plain (t : string) : bool :=
  match t with
  | String c _ => plain c
  | EmptyString => false
  end.

Fixpoint ends_with (p : ascii -> bool) (t : string) : bool :=
  match t with
  | EmptyString => false
  | String c EmptyString => p c
  | String _ r => ends_with p r
  end.

End FenceSpec.

(* ================================================================== *)
(** * Example data *)

Module Examples.
Import ClientCommon Db ScopedServer StoreSpec.

Definition goal_run : JsObject :=
  [("id", JNum 1767261600000); ("text", JStr "Run 5km every morning");
   ("completed", JBool false); ("category", JStr "HABIT");
   ("subTasks", JArr []);
   ("history", JObj [("2026-01-01", JBool true)]);
   ("createdAt", JStr "2026-01-01T10:00:00.000Z")].

Definition goal_read : JsObject :=
  [("id", JNum 1767348000000); ("text", JStr "Read twelve books");
   ("completed", JBool true); ("category", JStr "CHALLENGE");
   ("subTasks", JArr [JStr "Pick a book"; JStr "Read a chapter"]);
   ("history", JObj []);
   ("createdAt", JStr "2026-01-02T10:00:00.000Z");
   ("roadmap", JArr [JObj [("month", JNum 1); ("task", JStr "Choose the list")];
                     JObj [("month", JNum 2); ("task", JStr "Two books")]]);
   ("advice", JStr "A chapter a day"); ("deadlineMonth", JNum 12);
   ("isExam", JBool false); ("doneSubTasks", JArr [JStr "Pick a book"])].

(** The same two goals with ids that are strings already. *)
Definition goal_run_s : JsObject := set "id" (JStr "1767261600000") goal_run.
Definition goal_read_s : JsObject := set "id" (JStr "1767348000000") goal_read.

Definition goal_of_bob : JsObject :=
  [("id", JStr "1767000000000"); ("text", JStr "Learn to swim");
   ("completed", JBool false); ("category", JStr "HOBBY");
   ("subTasks", JArr []); ("history", JObj []);
   ("createdAt", JStr "2025-12-29T09:20:00.000Z")].

(** Two goals as the first server gives them back from PostgreSQL: the
    id a string, the fixed fields first, then the fields of the [JSONB]
    column in the order of its keys. *)
Definition goal_of_bob_pg : JsObject :=
  [("id", JStr "1767000000000"); ("text", JStr "Learn to swim");
   ("category", JStr "HOBBY"); ("completed", JBool false);
   ("createdAt", JStr "2025-12-29T09:20:00.000Z");
   ("history", JObj []); ("subTasks", JArr [])].

Definition goal_run_pg : JsObject :=
  [("id", JStr "1767261600000"); ("text", JStr "Run 5km every morning");
   ("category", JStr "HABIT"); ("completed", JBool false);
   ("createdAt", JStr "2026-01-01T10:00:00.000Z");
   ("history", JObj [("2026-01-01", JBool true)]); ("subTasks", JArr [])].

(** A database in which bob has saved one goal. *)
Definition db_of_bob (t : DbType) : Database :=
  mkDb t [stored_row t "bob" goal_of_bob] [].

(** A stand-in for scrypt in the examples: the salt, then the password. *)
Definition demo_kdf (password salt : string) : string :=
  (salt ++ "$" ++ password)%string.

Definition line_feed : string := String "010" "".

(** An analysis as the model writes it, and the same inside a code fence. *)
Definition analysis_text : string :=
  Json.stringify (JObj [("category", JStr "HABIT");
                        ("subTasks", JArr [JStr "Shoes by the door"]);
                        ("advice", JStr "Start small")]).

Definition fenced_text : string :=
  ("```json" ++ line_feed ++ analysis_text ++ line_feed ++ "```")%string.

(** The response of [/api/analyze] that carries a text. *)
Definition upstream (text : string) : FetchOutcome :=
  Responded (Json.stringify
    (JObj [("candidates",
            JArr [JObj [("content",
                         JObj [("parts", JArr [JObj [("text", JStr text)]])])]])])).

Definition c3_goal : JsObject :=
  [("id", JNum 1767434400000); ("text", JStr "Run 5km every morning");
   ("completed", JBool false); ("category", JStr "HABIT");
   ("subTasks", JArr []);
   ("history", JObj [("2026-01-01", JBool true)]);
   ("createdAt", JStr "2026-01-03T10:00:00.000Z")].

(** 2026-01-01T10:00:00.000Z, two days before [c3_goal] is created. *)
Definition c3_asOf : Z := 1767261600000.

Definition c4_goal : JsObject :=
  [("id", JNum 1767268800000); ("text", JStr "Run 5km every morning");
   ("completed", JBool false); ("category", JStr "HABIT");
   ("subTasks", JArr []);
   ("history", JObj [("2026-01-01", JBool true); ("2026-01-02", JBool true);
                     ("2026-01-03", JBool true)]);
   ("createdAt", JStr "2026-01-01T12:00:00.000Z")].

(** 2026-01-01T12:00:00.000Z. *)
Definition c4_start : Z := 1767268800000.

Definition HOUR : Z := 3600000.

(** Asia/Tokyo: nine hours ahead of UTC, the whole year. *)
Definition tokyo : TimeZone := HabitSpec.fixed_zone (9 * HOUR).

(** UTC itself. *)
Definition utc : TimeZone := HabitSpec.fixed_zone 0.

(** America/New_York around the end of summer time in 2026 (between the
    changes of 2026-03-08 and 2027-03-14): four hours behind UTC until
    2026-11-01T06:00:00Z, when the local clock goes from 02:00 back to
    01:00, five hours behind from then on. *)
Definition new_york : TimeZone :=
  fun t isUTC =>
    if isUTC then (if t <? 1793512800000 then -4 * HOUR else -5 * HOUR)
    else (if t <? 1793512800000 - 4 * HOUR then -4 * HOUR else -5 * HOUR).

(** 2026-11-02T00:30:00.000Z, which is 19:30 of 1 November in New York. *)
Definition dst_now : Z := 1793579400000.

(** A habit created on 2026-10-31 at 00:10 UTC, marked on 1 November
    only. *)
Definition dst_goal : JsObject :=
  [("id", JNum 1793405400000); ("text", JStr "Run 5km every morning");
   ("completed", JBool false); ("category", JStr "HABIT");
   ("subTasks", JArr []);
   ("history", JObj [("2026-11-01", JBool true)]);
   ("createdAt", JStr "2026-10-31T00:10:00.000Z")].

(** The same habit marked on its three days. *)
Definition dst_goal3 : JsObject :=
  set "history" (JObj [("2026-10-31", JBool true); ("2026-11-01", JBool true);
                       ("2026-11-02", JBool true)]) dst_goal.

End Examples.
(* ================================================================== *)
(** * What the further properties are stated with *)

Module MoreSpec.
Import DateTime ClientCommon Db ScopedServer StoreSpec.

(** Two goals of the list have the same [String(id)], or a goal has the id
    of a row of another user. *)
Definition id_clash (u : string) (gs : list JsObject) (t : list GoalRow) : Prop :=
  ~ NoDup (map stored_id gs)
  \/ exists g r, In g gs /\ In r t /\ row_username r <> u
                 /\ row_id r = stored_id g.

(** The save ends the process: on SQLite, one of its queued [INSERT]s
    breaks the primary key, and the error event of the statement is not
    handled. *)
Definition ends_process (username : option string) (goals : value)
    (db : ServerState) : bool :=
  match db with
  | Some d =>
      match type d with
      | sqlite =>
          negb (absent username)
          && key_clash (fst (queued (user_name username) (goalList goals)))
               (delete_of (user_name username) (goals_table d))
      | supabase => false
      end
  | None => false
  end.

(** A text on which [Json.parse] is [JSON.parse]: it is not JSON, or it
    is JSON whose numbers are integer literals, without fraction or
    exponent. *)
Definition integral (s : string) : bool :=
  negb (Json.is_json s)
  || match Json.parse s with Some _ => true | None => false end.

(** The candidate text of a response body, when it is a string. *)
Definition text_of (body : string) : option string :=
  match Json.parse body with
  | Some v =>
      match candidate_text v with
      | Ok (Some (JStr s)) => Some s
      | _ => None
      end
  | None => None
  end.

(** The outcome of a request to the model service whose texts are such:
    the body of the response and, in it, the candidate text as it is and
    without its code fence. *)
Definition in_integers (o : FetchOutcome) : bool :=
  match o with
  | Rejected => true
  | Responded body =>
      integral body
      && match text_of body with
         | Some s =>
             integral s && integral (Client.strip_close (Client.strip_open s))
         | None => true
         end
  end.

(** Every character of a string passes a test. *)
Fixpoint all_chars (p : ascii -> bool) (s : string) : bool :=
  match s with
  | EmptyString => true
  | String c r => p c && all_chars p r
  end.

(** A string without [@]. *)
Definition no_at (s : string) : bool :=
  all_chars (fun c => negb (Ascii.eqb c "@")) s.

(** What a click on the habit of today does to a goal [g]: a goal with
    another id stays; in a goal with the id [id] the mark of today is
    turned over, the marks of the other days and the other fields stay. *)
Definition habit_toggled (todayStr : string) (id : value) (g g' : JsObject)
  : Prop :=
  (strict_eq (get "id" g) id = false -> g' = g)
  /\ (strict_eq (get "id" g) id = true ->
      history_has g' todayStr = negb (history_has g todayStr))
  /\ (forall day, day <> todayStr -> history_has g' day = history_has g day)
  /\ (forall k, k <> "history" -> get k g' = get k g).

(** A value that [===] compares by what it is: not an array, not an
    object. *)
Definition is_primitive (v : JSON) : bool :=
  match v with
  | JArr _ | JObj _ => false
  | _ => true
  end.

(** [g.doneSubTasks || []] where that is a list. *)
Definition done_list (g : JsObject) : option (list JSON) :=
  match get "doneSubTasks" g with
  | Some (JArr l) => Some l
  | v => if truthy v then None else Some []
  end.

(** The sub-task [t] is among the done ones of [g]. *)
Definition is_done (g : JsObject) (t : JSON) : bool :=
  match done_list g with
  | Some l => Toggles.array_includes l t
  | None => false
  end.

(** What a click on the sub-task [text] of the goal [goalId] does to a goal
    [g]. *)
Definition subtask_toggled (goalId : value) (text : JSON) (g g' : JsObject)
  : Prop :=
  (strict_eq (get "id" g) goalId = false -> g' = g)
  /\ (strict_eq (get "id" g) goalId = true ->
      is_done g' text = negb (is_done g text))
  /\ (forall t, strict_eq (Some t) (Some text) = false ->
                is_done g' t = is_done g t)
  /\ (forall k, k <> "doneSubTasks" -> get k g' = get k g).

(** A sub-task as the client without log-in makes it: an object whose
    [completed] is a boolean. *)
Definition tidy_subtask (st : JSON) : Prop :=
  exists o b, st = JObj o /\ get "completed" o = Some (JBool b).

(** A goal whose [subTasks] is a list of such sub-tasks. *)
Definition tidy_goal (g : JsObject) : Prop :=
  exists l, get "subTasks" g = Some (JArr l) /\ Forall tidy_subtask l.

(** What a click on the sub-task [subId] does to a sub-task. *)
Definition subtask_flipped (subId : value) (st st' : JSON) : Prop :=
  exists o o',
    st = JObj o /\ st' = JObj o'
    /\ (strict_eq (get "id" o) subId = false -> o' = o)
    /\ (strict_eq (get "id" o) subId = true ->
        get "completed" o' = Some (JBool (negb (truthy (get "completed" o)))))
    /\ (forall k, k <> "completed" -> get k o' = get k o).

(** What it does to a goal, in the client without log-in. *)
Definition subtasks_toggled (goalId subId : value) (g g' : JsObject) : Prop :=
  (strict_eq (get "id" g) goalId = false -> g' = g)
  /\ (strict_eq (get "id" g) goalId = true ->
      exists l l', get "subTasks" g = Some (JArr l)
                   /\ get "subTasks" g' = Some (JArr l')
                   /\ Forall2 (subtask_flipped subId) l l')
  /\ (forall k, k <> "subTasks" -> get k g' = get k g).

(** The sub-task after the click, for a sub-task that is an object. *)
Definition flipped (subId : value) (st : JSON) : JSON :=
  match st with
  | JObj o =>
      if strict_eq (get "id" o) subId
      then JObj (set "completed" (JBool (negb (truthy (get "completed" o)))) o)
      else st
  | _ => st
  end.

(** The date of a day number is a date of the calendar and has that day
    number. *)
Definition date_ok (day : Z) : Prop :=
  let '(y, m, d) := civil_from_days day in
  days_from_civil y m d = day /\ 1 <= m <= 12 /\ 1 <= d <= 31.

(** The first day of the year [y] of an era of 400 years that starts on
    a first of March, counted from the start of the era. *)
Definition year_start (y : Z) : Z := 365 * y + y / 4 - y / 100 + y / 400.

(** The year of the era that [civil_from_days] finds for a day of the
    era. *)
Definition year_of_doe (doe : Z) : Z :=
  (doe - doe / 1460 + doe / 36524 - doe / 146096) / 365.

(** On [n] years from [y] on, the first and the last day of the year are
    found to be of that year. *)
Fixpoint years_agree (n : nat) (y : Z) : bool :=
  match n with
  | O => true
  | S n' =>
      (year_of_doe (year_start y) =? y)
      && (year_of_doe (year_start (y + 1) - 1) =? y)
      && years_agree n' (y + 1)
  end.

End MoreSpec.

(* ================================================================== *)
(** * Facts: [JSON.parse (JSON.stringify v) = v] *)

Module JsonFacts.
Import Json.

Lemma append_assoc (a b c : string) : ((a ++ b) ++ c = a ++ (b ++ c))%string.
Proof. induction a as [|x a IH]; simpl; [reflexivity | now rewrite IH]. Qed.

Lemma append_nil_r (a : string) : (a ++ "" = a)%string.
Proof. induction a as [|x a IH]; simpl; [reflexivity | now rewrite IH]. Qed.

Lemma length_append (a b : string) :
  String.length (a ++ b) = (String.length a + String.length b)%nat.
Proof. induction a as [|x a IH]; simpl; [reflexivity | now rewrite IH]. Qed.

(** ** Strings *)

Lemma parse_escape_char (c : ascii) (r : string) :
  parse_string_body (escape_char c ++ r)
  = prepend (String c "") (parse_string_body r).
Proof.
  destruct c as [[] [] [] [] [] [] [] []]; reflexivity.
Qed.

Lemma parse_escape (s rest : string) :
  parse_string_body (escape s ++ String "034" rest) = Some (s, rest).
Proof.
  induction s as [|c s IH]; simpl.
  - reflexivity.
  - rewrite append_assoc, parse_escape_char, IH. reflexivity.
Qed.

Lemma parse_quote (s rest : string) :
  exists r, (quote s ++ rest)%string = String "034" r
            /\ parse_string_body r = Some (s, rest).
Proof.
  unfold quote. simpl. eexists. split; [reflexivity|].
  rewrite append_assoc. simpl. apply parse_escape.
Qed.

(** ** Numbers *)

Lemma span_digits_uint (d : Decimal.uint) (rest : string) :
  match rest with String c _ => is_digit c = false | EmptyString => True end ->
  span_digits (NilEmpty.string_of_uint d ++ rest)
  = (NilEmpty.string_of_uint d, rest).
Proof.
  intros Hr. induction d; simpl; try (rewrite IHd; reflexivity).
  destruct rest as [|c r]; simpl; [reflexivity|]. now rewrite Hr.
Qed.

Lemma to_uint_no_leading_zero (p : positive) :
  match Pos.to_uint p with Decimal.D0 _ | Decimal.Nil => False | _ => True end.
Proof.
  pose proof (DecimalPos.Unsigned.to_of (Pos.to_uint p)) as H.
  rewrite DecimalPos.Unsigned.of_to in H. simpl in H.
  pose proof (DecimalPos.Unsigned.to_uint_nonzero p) as Hz.
  destruct (Pos.to_uint p) as [|d| | | | | | | | |] eqn:E; try exact I.
  - discriminate H.
  - unfold Decimal.unorm in H. simpl in H.
    pose proof (DecimalFacts.nb_digits_nzhead d) as Hn.
    destruct (Decimal.nzhead d) eqn:E2.
    + injection H as H. subst d. now apply Hz.
    + injection H as H. subst d. simpl in Hn. lia.
    + discriminate H. + discriminate H. + discriminate H. + discriminate H.
    + discriminate H. + discriminate H. + discriminate H. + discriminate H.
    + discriminate H.
Qed.

Lemma parse_number_pos (p : positive) (neg : bool) (rest : string) :
  number_follow rest = true ->
  let s := (NilEmpty.string_of_uint (Pos.to_uint p) ++ rest)%string in
  parse_number (if neg then String "-" s else s)
  = Some (JNum (if neg then Z.neg p else Z.pos p), rest).
Proof.
  intros Hf s.
  assert (Hd : match rest with String c _ => is_digit c = false
                          | EmptyString => True end).
  { destruct rest as [|c r]; [exact I|]. simpl in Hf.
    destruct (is_digit c); [discriminate | reflexivity]. }
  assert (Hfo : match rest with
                | String "." _ | String "e" _ | String "E" _ => false
                | _ => true end = true).
  { destruct rest as [|c r]; [reflexivity|]. simpl in Hf.
    destruct (Ascii.eqb_spec c "."); [subst; now rewrite andb_false_r in Hf|].
    destruct (Ascii.eqb_spec c "e"); [subst; now rewrite andb_false_r in Hf|].
    destruct (Ascii.eqb_spec c "E"); [subst; now rewrite andb_false_r in Hf|].
    destruct c as [[] [] [] [] [] [] [] []]; try reflexivity; congruence. }
  pose proof (to_uint_no_leading_zero p) as Hz.
  pose proof (DecimalPos.Unsigned.to_uint_nonnil p) as Hn.
  assert (Hs : match s with String "-" _ => False | _ => True end).
  { subst s. destruct (Pos.to_uint p); simpl; try exact I; contradiction. }
  assert (Hp : parse_number s = Some (JNum (Z.pos p), rest)
               /\ parse_number (String "-" s) = Some (JNum (Z.neg p), rest)).
  { unfold parse_number.
    replace (match s with String "-" r => (true, r) | _ => (false, s) end)
      with (false, s).
    2:{ destruct s as [|c s']; [reflexivity|].
        destruct c as [[] [] [] [] [] [] [] []]; try reflexivity; contradiction. }
    subst s. rewrite (span_digits_uint _ _ Hd), Hfo.
    replace (match NilEmpty.string_of_uint (Pos.to_uint p) with
             | EmptyString => false
             | String "0" (String _ _) => false
             | _ => true end) with true.
    2:{ destruct (Pos.to_uint p) as [|d| | | | | | | | |]; try reflexivity;
        contradiction. }
    simpl andb. cbv iota.
    replace (NilEmpty.string_of_uint (Pos.to_uint p))
      with (NilZero.string_of_uint (Pos.to_uint p))
      by (destruct (Pos.to_uint p); [contradiction|reflexivity..]).
    rewrite (NilZero.usu _ Hn).
    unfold Z.of_uint. rewrite DecimalPos.Unsigned.of_to. simpl. split; reflexivity. }
  destruct neg; tauto.
Qed.

Lemma parse_number_stringify (n : Z) (rest : string) :
  number_follow rest = true ->
  parse_number (string_of_Z n ++ rest) = Some (JNum n, rest).
Proof.
  intros Hf. destruct n as [|p|p]; unfold string_of_Z; simpl Z.to_int.
  - simpl. unfold parse_number. simpl.
    destruct rest as [|c r]; [reflexivity|]. simpl in Hf.
    destruct (is_digit c) eqn:Ed; [discriminate|]. simpl in Hf.
    destruct (Ascii.eqb_spec c "."); [discriminate|].
    destruct (Ascii.eqb_spec c "e"); [discriminate|].
    destruct (Ascii.eqb_spec c "E"); [discriminate|].
    destruct c as [[] [] [] [] [] [] [] []]; try reflexivity; try congruence;
      discriminate Ed.
  - pose proof (parse_number_pos p false rest Hf) as H. simpl in H.
    unfold NilZero.string_of_int, NilZero.string_of_uint.
    pose proof (DecimalPos.Unsigned.to_uint_nonnil p).
    destruct (Pos.to_uint p); [contradiction|exact H..].
  - pose proof (parse_number_pos p true rest Hf) as H. simpl in H.
    unfold NilZero.string_of_int, NilZero.string_of_uint.
    pose proof (DecimalPos.Unsigned.to_uint_nonnil p).
    destruct (Pos.to_uint p); [contradiction|exact H..].
Qed.

(** ** Objects built from members without repeated keys *)

Lemma existsb_eqb_In (k : string) (l : list string) :
  existsb (String.eqb k) l = true <-> In k l.
Proof.
  rewrite existsb_exists. split.
  - intros [x [Hx He]]. apply String.eqb_eq in He. now subst.
  - intros H. exists k. split; [assumption | apply String.eqb_refl].
Qed.

Lemma nodupb_NoDup (l : list string) : nodupb l = true <-> NoDup l.
Proof.
  induction l as [|k l IH]; simpl.
  - split; [constructor | reflexivity].
  - rewrite andb_true_iff, negb_true_iff, IH. split.
    + intros [Hn Hd]. constructor; [|assumption].
      intros Hin. apply existsb_eqb_In in Hin. congruence.
    + intros H. inversion H as [|? ? Hn Hd]; subst. split; [|assumption].
      destruct (existsb (String.eqb k) l) eqn:E; [|reflexivity].
      apply existsb_eqb_In in E. contradiction.
Qed.

Lemma set_fresh (k : string) (v : JSON) (o : JsObject) :
  ~ In k (keys o) -> set k v o = (o ++ [(k, v)])%list.
Proof.
  induction o as [|[k' v'] o IH]; simpl; intros Hn; [reflexivity|].
  destruct (String.eqb_spec k k') as [->|Hne].
  - exfalso. apply Hn. now left.
  - rewrite IH; [reflexivity|]. intros Hin. apply Hn. now right.
Qed.

Lemma spread_fresh (p o : JsObject) :
  NoDup (keys p) -> (forall k, In k (keys p) -> ~ In k (keys o)) ->
  spread o p = (o ++ p)%list.
Proof.
  revert o. unfold spread.
  induction p as [|[k v] p IH]; simpl; intros o Hd Hf.
  - now rewrite List.app_nil_r.
  - inversion Hd as [|? ? Hk Hd']; subst.
    rewrite set_fresh by (apply Hf; now left).
    rewrite IH; [now rewrite <- List.app_assoc| assumption |].
    intros k' Hin. unfold keys. rewrite List.map_app, List.in_app_iff. simpl.
    intros [H|[H|[]]].
    + apply (Hf k'); [now right | assumption].
    + subst k'. contradiction.
Qed.

Lemma from_entries_nodup (o : JsObject) :
  nodupb (keys o) = true -> from_entries o = o.
Proof.
  intros H. apply nodupb_NoDup in H. unfold from_entries.
  rewrite spread_fresh; [reflexivity | assumption | intros k _ []].
Qed.

(** ** Values *)

Lemma string_of_Z_head (n : Z) :
  exists c r, string_of_Z n = String c r
              /\ (is_digit c || Ascii.eqb c "-" = true).
Proof.
  unfold string_of_Z. destruct n as [|p|p]; simpl.
  - now exists "0"%char, ""%string.
  - pose proof (DecimalPos.Unsigned.to_uint_nonnil p).
    destruct (Pos.to_uint p); [contradiction|..]; simpl; eexists; eexists;
      (split; [reflexivity|reflexivity]).
  - eexists; eexists; split; reflexivity.
Qed.

Lemma number_dispatch (fuel : nat) (c : ascii) (r : string) :
  is_digit c || Ascii.eqb c "-" = true ->
  parse_value (S fuel) (String c r) = parse_number (String c r).
Proof.
  intros H.
  destruct c as [[] [] [] [] [] [] [] []]; try discriminate H; reflexivity.
Qed.

Lemma reads_back_elements (l : list JSON) :
  Forall reads_back l -> l <> [] ->
  forall fuel rest,
    (elements_size l <= fuel)%nat ->
    parse_elements fuel (join "," (map stringify l) ++ String "]" rest)
    = Some (l, rest).
Proof.
  induction 1 as [|v l Hv Hl IH]; intros Hne fuel rest Hf; [congruence|].
  destruct fuel as [|fuel]; [simpl in Hf; lia|].
  simpl in Hf. fold (elements_size l) in Hf.
  destruct l as [|v2 l'].
  - simpl. rewrite Hv by (simpl; first [lia | reflexivity]). reflexivity.
  - change (join "," (map stringify (v :: v2 :: l')))
      with (stringify v ++ "," ++ join "," (map stringify (v2 :: l')))%string.
    rewrite append_assoc.
    change (("," ++ join "," (map stringify (v2 :: l'))) ++ String "]" rest)%string
      with (String "," (join "," (map stringify (v2 :: l')) ++ String "]" rest)).
    cbn [parse_elements].
    rewrite Hv by (simpl; first [lia | reflexivity]).
    cbn [skip_ws is_ws Ascii.eqb Bool.eqb].
    rewrite IH; [reflexivity | congruence | simpl in *; lia].
Qed.

Lemma member_text_app (k : string) (v : JSON) (tail : string) :
  (member_text (k, v) ++ tail)%string
  = String "034" (escape k ++ String "034" (String ":" (stringify v ++ tail))).
Proof.
  unfold member_text, quote. cbn [fst snd].
  change (String "034" (escape k ++ String "034" "") ++ ":" ++ stringify v)%string
    with (String "034" ((escape k ++ String "034" "") ++ ":" ++ stringify v))%string.
  cbn [append]. f_equal. rewrite !append_assoc. reflexivity.
Qed.

Lemma parse_members_step (fuel : nat) (k : string) (v : JSON) (tail : string) :
  parse_value fuel (stringify v ++ tail) = Some (v, tail) ->
  parse_members (S fuel) (member_text (k, v) ++ tail)
  = match skip_ws tail with
    | EmptyString => None
    | String c r =>
        if Ascii.eqb c "," then
          match parse_members fuel r with
          | Some (o, r') => Some ((k, v) :: o, r')
          | None => None
          end
        else if Ascii.eqb c "}" then Some ([(k, v)], r)
        else None
    end.
Proof.
  intros Hv. rewrite member_text_app.
  cbn [parse_members skip_ws is_ws Ascii.eqb Bool.eqb].
  rewrite parse_escape. cbn [skip_ws is_ws Ascii.eqb Bool.eqb].
  rewrite Hv. reflexivity.
Qed.

Lemma reads_back_members (o : JsObject) :
  Forall (fun kv => reads_back (snd kv)) o -> o <> [] ->
  forall fuel rest,
    (members_size o <= fuel)%nat ->
    parse_members fuel (join "," (map member_text o) ++ String "}" rest)
    = Some (o, rest).
Proof.
  induction 1 as [|[k v] o Hv Ho IH]; intros Hne fuel rest Hf; [congruence|].
  destruct fuel as [|fuel]; [simpl in Hf; lia|].
  simpl in Hf. fold (members_size o) in Hf. simpl in Hv.
  destruct o as [|kv2 o'].
  - cbn [join map].
    rewrite parse_members_step
      by (apply Hv; [simpl; lia | reflexivity]).
    reflexivity.
  - change (join "," (map member_text ((k, v) :: kv2 :: o')))
      with (member_text (k, v) ++ "," ++ join "," (map member_text (kv2 :: o')))%string.
    rewrite append_assoc.
    change (("," ++ join "," (map member_text (kv2 :: o'))) ++ String "}" rest)%string
      with (String "," (join "," (map member_text (kv2 :: o')) ++ String "}" rest)).
    rewrite parse_members_step
      by (apply Hv; [simpl; lia | reflexivity]).
    cbn [skip_ws is_ws Ascii.eqb Bool.eqb].
    rewrite IH; [reflexivity | congruence | simpl in *; lia].
Qed.

Lemma stringify_head (v : JSON) :
  exists c r, stringify v = String c r /\ is_ws c = false
              /\ Ascii.eqb c "]" = false /\ Ascii.eqb c "}" = false.
Proof.
  destruct v as [|[]|n|s|l|o]; simpl;
    try (eexists; eexists; repeat split; reflexivity).
  destruct (string_of_Z_head n) as [c [r [-> Hc]]].
  exists c, r. split; [reflexivity|].
  destruct c as [[] [] [] [] [] [] [] []]; try discriminate Hc;
    repeat split; reflexivity.
Qed.

Lemma stringify_array_app (l : list JSON) (rest : string) :
  (stringify (JArr l) ++ rest)%string
  = String "[" (join "," (map stringify l) ++ String "]" rest).
Proof.
  cbn [stringify]. cbn [append]. f_equal. now rewrite append_assoc.
Qed.

Lemma stringify_object_app (o : JsObject) (rest : string) :
  (stringify (JObj o) ++ rest)%string
  = String "{" (join "," (map member_text o) ++ String "}" rest).
Proof.
  cbn [stringify]. cbn [append]. f_equal. now rewrite append_assoc.
Qed.

Lemma parse_value_array (fuel : nat) (txt : string) (c : ascii) (r : string) :
  txt = String c r -> is_ws c = false -> Ascii.eqb c "]" = false ->
  parse_value (S fuel) (String "[" txt)
  = match parse_elements fuel txt with
    | Some (l, r') => Some (JArr l, r')
    | None => None
    end.
Proof.
  intros E H1 H2. cbn [parse_value skip_ws is_ws Ascii.eqb Bool.eqb].
  rewrite E at 1. cbn [skip_ws]. now rewrite H1, H2.
Qed.

Lemma parse_value_object (fuel : nat) (txt : string) (c : ascii) (r : string) :
  txt = String c r -> is_ws c = false -> Ascii.eqb c "}" = false ->
  parse_value (S fuel) (String "{" txt)
  = match parse_members fuel txt with
    | Some (o, r') => Some (JObj (from_entries o), r')
    | None => None
    end.
Proof.
  intros E H1 H2. cbn [parse_value skip_ws is_ws Ascii.eqb Bool.eqb].
  rewrite E at 1. cbn [skip_ws]. now rewrite H1, H2.
Qed.

Theorem stringify_reads_back (v : JSON) : wf v = true -> reads_back v.
Proof.
  induction v as [|b|n|s|l IH|o IH] using JSON_ind; intros Hwf fuel rest Hf Hr;
    (destruct fuel as [|fuel]; [simpl in Hf; lia|]).
  - reflexivity.
  - destruct b; reflexivity.
  - simpl stringify.
    destruct (string_of_Z_head n) as [c [r [E Hc]]].
    pose proof (parse_number_stringify n rest Hr) as Hp.
    rewrite E in *. simpl append in *.
    rewrite number_dispatch by assumption. exact Hp.
  - simpl stringify. unfold quote. simpl. rewrite append_assoc. simpl.
    rewrite parse_escape. reflexivity.
  - simpl in Hwf. simpl in Hf. fold (elements_size l) in Hf.
    destruct l as [|v l'].
    + reflexivity.
    + assert (Hall : Forall reads_back (v :: l')).
      { rewrite forallb_forall in Hwf. rewrite Forall_forall in IH |- *.
        intros x Hx. apply IH; auto. }
      pose proof (reads_back_elements (v :: l') Hall ltac:(congruence)
                    fuel rest ltac:(lia)) as Hp.
      rewrite stringify_array_app.
      destruct (stringify_head v) as [c [r [E [H1 [H2 _]]]]].
      assert (Hh : exists r', (join "," (map stringify (v :: l'))
                                 ++ String "]" rest)%string = String c r').
      { destruct l'; cbn [join map]; rewrite E; cbn [append]; eauto. }
      destruct Hh as [r' E'].
      rewrite (parse_value_array fuel _ c r' E' H1 H2). now rewrite Hp.
  - simpl in Hwf. apply andb_true_iff in Hwf as [Hnd Hwf].
    simpl in Hf. fold (members_size o) in Hf.
    destruct o as [|[k v] o'].
    + reflexivity.
    + assert (Hall : Forall (fun kv => reads_back (snd kv)) ((k, v) :: o')).
      { rewrite forallb_forall in Hwf. rewrite Forall_forall in IH |- *.
        intros x Hx. apply IH; auto. }
      pose proof (reads_back_members ((k, v) :: o') Hall ltac:(congruence)
                    fuel rest ltac:(lia)) as Hp.
      rewrite stringify_object_app.
      assert (Hh : exists r', (join "," (map member_text ((k, v) :: o'))
                                 ++ String "}" rest)%string = String "034" r').
      { destruct o'; cbn [join map]; unfold member_text at 1, quote;
          cbn [fst snd append]; eauto. }
      destruct Hh as [r' E'].
      rewrite (parse_value_object fuel _ "034" r' E' eq_refl eq_refl).
      rewrite Hp, from_entries_nodup by exact Hnd. reflexivity.
Qed.

Lemma string_of_Z_nonempty (n : Z) : (1 <= String.length (string_of_Z n))%nat.
Proof.
  destruct (string_of_Z_head n) as [c [r [-> _]]]. simpl. lia.
Qed.

Lemma length_join_elements (l : list JSON) :
  Forall (fun v => (size v <= String.length (stringify v))%nat) l ->
  (elements_size l <= String.length (join "," (map stringify l)) + 1)%nat.
Proof.
  induction 1 as [|v l Hv Hl IH]; [simpl; lia|].
  cbn [elements_size fold_right]. fold (elements_size l).
  destruct l as [|v2 l'].
  - cbn [elements_size fold_right map join]. lia.
  - change (join "," (map stringify (v :: v2 :: l')))
      with (stringify v ++ String "," (join "," (map stringify (v2 :: l'))))%string.
    rewrite length_append. cbn [String.length]. lia.
Qed.

Lemma length_join_members (o : JsObject) :
  Forall (fun kv => (size (snd kv) <= String.length (stringify (snd kv)))%nat) o ->
  (members_size o <= String.length (join "," (map member_text o)) + 1)%nat.
Proof.
  induction 1 as [|[k v] o Hv Hl IH]; [simpl; lia|].
  cbn [members_size fold_right snd]. fold (members_size o). cbn [snd] in Hv.
  assert (Hm : (size v + 3 <= String.length (member_text (k, v)))%nat).
  { rewrite <- (append_nil_r (member_text (k, v))), member_text_app.
    cbn [String.length]. rewrite length_append. cbn [String.length].
    rewrite append_nil_r. lia. }
  destruct o as [|kv2 o'].
  - cbn [members_size fold_right map join]. lia.
  - change (join "," (map member_text ((k, v) :: kv2 :: o')))
      with (member_text (k, v) ++ String "," (join "," (map member_text (kv2 :: o'))))%string.
    rewrite length_append. cbn [String.length]. lia.
Qed.

Lemma size_le_length (v : JSON) : (size v <= String.length (stringify v))%nat.
Proof.
  induction v as [|b|n|s|l IH|o IH] using JSON_ind.
  - simpl. lia.
  - destruct b; simpl; lia.
  - simpl. apply string_of_Z_nonempty.
  - simpl. lia.
  - rewrite <- (append_nil_r (stringify (JArr l))), stringify_array_app.
    cbn [size String.length]. fold (elements_size l).
    rewrite length_append. cbn [String.length].
    pose proof (length_join_elements l IH). lia.
  - rewrite <- (append_nil_r (stringify (JObj o))), stringify_object_app.
    cbn [size String.length]. fold (members_size o).
    rewrite length_append. cbn [String.length].
    pose proof (length_join_members o IH). lia.
Qed.

(** [JSON.parse(JSON.stringify(v))] is [v]. *)
Theorem parse_stringify (v : JSON) :
  wf v = true -> parse (stringify v) = Some v.
Proof.
  intros Hwf. unfold parse.
  pose proof (stringify_reads_back v Hwf (S (String.length (stringify v))) ""%string)
    as H.
  rewrite append_nil_r in H. rewrite H; [reflexivity | | reflexivity].
  pose proof (size_le_length v). lia.
Qed.

End JsonFacts.

(* ================================================================== *)
(** * The grammar of JSON and the texts [parse] reads *)

Module GrammarFacts.
Import Json.

Lemma sign_rest (s : string) :
  snd (match s with String "-" r => (true, r) | _ => (false, s) end)
  = match s with String "-" r => r | _ => s end.
Proof.
  destruct s as [|c s']; [reflexivity|].
  destruct c as [[] [] [] [] [] [] [] []]; reflexivity.
Qed.

Lemma follow_scanned (r : string) :
  match r with
  | String "." _ | String "e" _ | String "E" _ => false
  | _ => true
  end = true ->
  scan_fraction r = Some r /\ scan_exponent r = Some r.
Proof.
  destruct r as [|c r']; [split; reflexivity|].
  destruct c as [[] [] [] [] [] [] [] []]; intros H;
    try discriminate H; split; reflexivity.
Qed.

(** An integer literal is a number of the grammar. *)
Lemma parse_number_scan (s : string) (v : JSON) (r : string) :
  parse_number s = Some (v, r) -> scan_number s = Some r.
Proof.
  unfold parse_number, scan_number. rewrite <- sign_rest.
  destruct (match s with String "-" r0 => (true, r0) | _ => (false, s) end)
    as [neg s1].
  cbn [snd]. destruct (span_digits s1) as [d r0].
  destruct (match d with
            | EmptyString => false
            | String "0" (String _ _) => false
            | _ => true
            end); [|discriminate].
  cbn [andb].
  destruct (match r0 with
            | String "." _ | String "e" _ | String "E" _ => false
            | _ => true
            end) eqn:Ef; [|discriminate].
  destruct (follow_scanned r0 Ef) as [-> ->].
  destruct (NilZero.uint_of_string d); [|discriminate].
  now intros [= _ <-].
Qed.

(** What [parse] reads is JSON. *)
Lemma parse_scan (fuel : nat) :
  (forall s v r, parse_value fuel s = Some (v, r) -> scan_value fuel s = Some r)
  /\ (forall s l r, parse_elements fuel s = Some (l, r) ->
                    scan_elements fuel s = Some r)
  /\ (forall s o r, parse_members fuel s = Some (o, r) ->
                    scan_members fuel s = Some r).
Proof.
  induction fuel as [|fuel [IHv [IHe IHm]]];
    [repeat split; intros; discriminate|].
  split; [|split].
  - intros s v r. cbn [parse_value scan_value].
    destruct (skip_ws s) as [|c t]; [discriminate|].
    destruct (Ascii.eqb c "n").
    { destruct (expect "ull" t); [now intros [= _ <-] | discriminate]. }
    destruct (Ascii.eqb c "t").
    { destruct (expect "rue" t); [now intros [= _ <-] | discriminate]. }
    destruct (Ascii.eqb c "f").
    { destruct (expect "alse" t); [now intros [= _ <-] | discriminate]. }
    destruct (Ascii.eqb c "034").
    { unfold after_string.
      destruct (parse_string_body t) as [[str r']|];
        [now intros [= _ <-] | discriminate]. }
    destruct (Ascii.eqb c "[").
    { destruct (skip_ws t) as [|c' r']; [discriminate|].
      destruct (Ascii.eqb c' "]"); [now intros [= _ <-]|].
      destruct (parse_elements fuel t) as [[l r'']|] eqn:E; [|discriminate].
      intros [= _ <-]. exact (IHe _ _ _ E). }
    destruct (Ascii.eqb c "{").
    { destruct (skip_ws t) as [|c' r']; [discriminate|].
      destruct (Ascii.eqb c' "}"); [now intros [= _ <-]|].
      destruct (parse_members fuel t) as [[o r'']|] eqn:E; [|discriminate].
      intros [= _ <-]. exact (IHm _ _ _ E). }
    apply parse_number_scan.
  - intros s l r. cbn [parse_elements scan_elements].
    destruct (parse_value fuel s) as [[v r1]|] eqn:E; [|discriminate].
    rewrite (IHv _ _ _ E).
    destruct (skip_ws r1) as [|c r']; [discriminate|].
    destruct (Ascii.eqb c ",").
    { destruct (parse_elements fuel r') as [[l' r'']|] eqn:E2; [|discriminate].
      intros [= _ <-]. exact (IHe _ _ _ E2). }
    destruct (Ascii.eqb c "]"); [now intros [= _ <-] | discriminate].
  - intros s o r. cbn [parse_members scan_members].
    destruct (skip_ws s) as [|q t]; [discriminate|].
    destruct (Ascii.eqb q "034"); [|discriminate].
    unfold after_string.
    destruct (parse_string_body t) as [[k r1]|]; [|discriminate].
    destruct (skip_ws r1) as [|c r2]; [discriminate|].
    destruct (Ascii.eqb c ":"); [|discriminate].
    destruct (parse_value fuel r2) as [[v r3]|] eqn:E; [|discriminate].
    rewrite (IHv _ _ _ E).
    destruct (skip_ws r3) as [|c' r4]; [discriminate|].
    destruct (Ascii.eqb c' ",").
    { destruct (parse_members fuel r4) as [[o' r5]|] eqn:E2; [|discriminate].
      intros [= _ <-]. exact (IHm _ _ _ E2). }
    destruct (Ascii.eqb c' "}"); [now intros [= _ <-] | discriminate].
Qed.

Lemma parse_is_json (s : string) (v : JSON) :
  parse s = Some v -> is_json s = true.
Proof.
  unfold parse, is_json.
  destruct (parse_value (S (String.length s)) s) as [[v' r]|] eqn:E;
    [|discriminate].
  rewrite (proj1 (parse_scan _) _ _ _ E).
  destruct (skip_ws r); [reflexivity | discriminate].
Qed.

(** A text that is not JSON is not read. *)
Lemma not_json_not_parsed (s : string) : is_json s = false -> parse s = None.
Proof.
  intros H. destruct (parse s) as [v|] eqn:E; [|reflexivity].
  apply parse_is_json in E. congruence.
Qed.

(** The grammar on examples: fractions and exponents are JSON, though
    [parse] has no value for them. *)
Lemma is_json_checked :
  is_json "0.5" = true /\ parse "0.5" = None
  /\ is_json "1e21" = true
  /\ is_json "[-0.12]" = true
  /\ is_json "[1,2.0E-3 ,true]" = true
  /\ is_json "1." = false /\ is_json ".5" = false /\ is_json "1e" = false
  /\ is_json "01" = false /\ is_json "-" = false /\ is_json "" = false
  /\ is_json "<html>" = false /\ is_json "[1,]" = false.
Proof. repeat split; vm_compute; reflexivity. Qed.

End GrammarFacts.
Module HabitFacts.
Import DateTime ClientCommon HabitSpec Examples.

(** The calendar: day numbers and dates agree on every day from 2000 to
    2040. *)
Lemma civil_days_checked :
  calendar_agrees (Z.to_nat 14976) 10957 = true.
Proof. vm_compute. reflexivity. Qed.

Lemma isoDate_checked :
  isoDate 0 = "1970-01-01"%string
  /\ isoDate (-1) = "1969-12-31"%string
  /\ isoDate 951782400000 = "2000-02-29"%string
  /\ isoDate 1709251199999 = "2024-02-29"%string
  /\ isoDate 1709251200000 = "2024-03-01"%string
  /\ isoDate 1767261600000 = "2026-01-01"%string
  /\ iso_parse "2026-01-01T10:00:00.000Z" = Some 1767261600000
  /\ iso_parse "2024-02-29T23:59:59.999Z" = Some 1709251199999
  /\ iso_parse "2025-02-29T00:00:00.000Z" = None.
Proof. repeat split; vm_compute; reflexivity. Qed.

Lemma ceil_div_spec (a b : Z) :
  0 < b -> (ceil_div a b - 1) * b < a <= ceil_div a b * b.
Proof.
  intros Hb. unfold ceil_div.
  pose proof (Z.div_mod (- a) b ltac:(lia)) as E.
  pose proof (Z.mod_pos_bound (- a) b Hb) as Hm.
  nia.
Qed.

Lemma ceil_div_nonneg (a b : Z) : 0 <= a -> 0 < b -> 0 <= ceil_div a b.
Proof.
  intros Ha Hb. pose proof (ceil_div_spec a b Hb). nia.
Qed.

(** [round_percent c d] is the integer nearest to [100 * c / d], a half
    going up. *)
Lemma round_percent_nearest (c d : Z) :
  0 < d ->
  2 * (100 * c) - d < 2 * d * round_percent c d <= 2 * (100 * c) + d.
Proof.
  intros Hd. unfold round_percent.
  pose proof (Z.div_mod (200 * c + d) (2 * d) ltac:(lia)) as E.
  pose proof (Z.mod_pos_bound (200 * c + d) (2 * d) ltac:(lia)) as Hm.
  nia.
Qed.

(** For the counts and day numbers of [getHabitStats], the double
    precision [Math.round((count / daysElapsed) * 100)] is the nearest
    integer of exact arithmetic: checked on each of the 495 pairs. *)
Lemma percent_exact (c d : Z) :
  1 <= d <= 30 -> 0 <= c <= d -> percent c d = Int (round_percent c d).
Proof.
  intros Hd Hc.
  assert (Hall : forallb (fun d' =>
            forallb (fun c' =>
               match percent (Z.of_nat c') (Z.of_nat d') with
               | Int r => r =? round_percent (Z.of_nat c') (Z.of_nat d')
               | NaN => false
               end) (seq 0 (S d'))) (seq 1 30) = true)
    by (vm_compute; reflexivity).
  rewrite forallb_forall in Hall.
  specialize (Hall (Z.to_nat d) ltac:(apply in_seq; lia)).
  rewrite forallb_forall in Hall.
  specialize (Hall (Z.to_nat c) ltac:(apply in_seq; lia)).
  rewrite !Z2Nat.id in Hall by lia.
  destruct (percent c d) as [r|]; [|discriminate].
  apply Z.eqb_eq in Hall. now subst.
Qed.

Lemma habit_loop_count (tz : TimeZone) (now : Z) (goal : JsObject) (n : nat) :
  forall (i : nat) (c : Z),
    habit_loop tz now goal (Z.of_nat i) n c
    = c + Z.of_nat (List.length (filter (read_marked tz now goal) (seq i n))).
Proof.
  induction n as [|n IH]; intros i c; simpl.
  - lia.
  - replace (Z.of_nat i + 1) with (Z.of_nat (S i)) by lia.
    rewrite IH. unfold read_marked at 2, read_key.
    destruct (history_has goal (isoDate (setDate_back tz now (Z.of_nat i))));
      simpl; lia.
Qed.

Lemma habit_loop_read (tz : TimeZone) (now : Z) (goal : JsObject) (d : Z) :
  habit_loop tz now goal 0 (Z.to_nat d) 0 = read_count tz now goal d.
Proof.
  change 0 with (Z.of_nat 0) at 1. rewrite habit_loop_count. reflexivity.
Qed.

Lemma read_count_bounds (tz : TimeZone) (now : Z) (goal : JsObject) (d : Z) :
  0 <= d -> 0 <= read_count tz now goal d <= d.
Proof.
  intros Hd. unfold read_count.
  pose proof (filter_length_le (read_marked tz now goal) (seq 0 (Z.to_nat d))) as H.
  rewrite length_seq in H. lia.
Qed.

Lemma window_count_bounds (now : Z) (goal : JsObject) (d : Z) :
  0 <= d -> 0 <= window_count now goal d <= d.
Proof.
  intros Hd. unfold window_count.
  pose proof (filter_length_le (marked now goal) (seq 0 (Z.to_nat d))) as H.
  rewrite length_seq in H. lia.
Qed.

(** Where the offset does not change, a step back on the local calendar
    is a step of 24 hours. *)
Lemma steady_back (tz : TimeZone) (now d i : Z) :
  steady tz now d -> 0 <= i < d -> setDate_back tz now i = now - i * DAY.
Proof.
  intros Hs Hi. unfold setDate_back, UTC. rewrite (Hs i Hi).
  unfold LocalTime. lia.
Qed.

(** The keys read are then the consecutive UTC days that end with the day
    of [now]. *)
Lemma steady_window (tz : TimeZone) (now : Z) (goal : JsObject) (d : Z) :
  steady tz now d -> read_count tz now goal d = window_count now goal d.
Proof.
  intros Hs. unfold read_count, window_count. do 2 f_equal.
  apply filter_ext_in. intros j Hj. apply in_seq in Hj.
  unfold read_marked, read_key, marked.
  rewrite (steady_back tz now d) by (assumption || lia). reflexivity.
Qed.

Lemma steady_less (tz : TimeZone) (now d d' : Z) :
  d' <= d -> steady tz now d -> steady tz now d'.
Proof. intros Hd Hs i Hi. apply Hs. lia. Qed.

Lemma fixed_zone_steady (offset now d : Z) : steady (fixed_zone offset) now d.
Proof. intros i _. reflexivity. Qed.

Section WithPlatform.

Variable tz : TimeZone.
Variable Date_parse : string -> option Z.

(** The two clients compute the same statistics. *)
Lemma getHabitStats_agree (now : Z) (goal : JsObject) :
  LegacyClient.getHabitStats tz Date_parse now goal
  = Client.getHabitStats tz Date_parse now goal.
Proof.
  unfold LegacyClient.getHabitStats, Client.getHabitStats.
  destruct (negb _ || negb _); [reflexivity|].
  destruct (match get "createdAt" goal with
            | Some c => new_Date Date_parse c | None => None end)
    as [start|]; [|reflexivity].
  change (1000 * 60 * 60 * 24) with 86400000.
  pose proof (ceil_div_nonneg (Z.abs (now - start)) 86400000 ltac:(lia) ltac:(lia))
    as Hc.
  set (c := ceil_div (Z.abs (now - start)) 86400000) in *.
  assert (E : (if 30 <? (if c =? 0 then 1 else c) then 30
               else if c =? 0 then 1 else c) = Z.max 1 (Z.min 30 c)).
  { destruct (Z.eqb_spec c 0) as [->|Hn]; [reflexivity|].
    destruct (Z.ltb_spec 30 c); lia. }
  cbv zeta. rewrite E. reflexivity.
Qed.

(** The statistics of a habit, by the keys the loop reads. *)
Lemma getHabitStats_read (now : Z) (goal : JsObject) (c : JSON) (start : Z) :
  is_habit goal = true ->
  get "createdAt" goal = Some c -> truthy (Some c) = true ->
  new_Date Date_parse c = Some start ->
  let d := clamp_1_30 (ceil_div (Z.abs (now - start)) DAY) in
  Client.getHabitStats tz Date_parse now goal
  = mkStats (Int (round_percent (read_count tz now goal d) d)) (Int d)
      (read_count tz now goal d).
Proof.
  intros Hh Hc Ht Hd d. unfold Client.getHabitStats.
  unfold is_habit in Hh. rewrite Hh, Hc, Ht, Hd. simpl negb. simpl orb. cbv iota.
  fold DAY. fold (clamp_1_30 (ceil_div (Z.abs (now - start)) DAY)). fold d.
  cbv zeta. rewrite habit_loop_read.
  assert (Hd1 : 1 <= d <= 30) by (unfold d, clamp_1_30; lia).
  rewrite percent_exact; [reflexivity | exact Hd1 |].
  pose proof (read_count_bounds tz now goal d ltac:(lia)). lia.
Qed.

(** The same where the offset of the zone does not change in the window:
    by the consecutive UTC days. *)
Lemma getHabitStats_habit (now : Z) (goal : JsObject) (c : JSON) (start : Z) :
  is_habit goal = true ->
  get "createdAt" goal = Some c -> truthy (Some c) = true ->
  new_Date Date_parse c = Some start ->
  let d := clamp_1_30 (ceil_div (Z.abs (now - start)) DAY) in
  steady tz now d ->
  Client.getHabitStats tz Date_parse now goal
  = mkStats (Int (round_percent (window_count now goal d) d)) (Int d)
      (window_count now goal d).
Proof.
  intros Hh Hc Ht Hd d Hs.
  rewrite (getHabitStats_read now goal c start Hh Hc Ht Hd). fold d.
  now rewrite (steady_window tz now goal d Hs).
Qed.

Lemma getHabitStats_other (now : Z) (goal : JsObject) :
  is_habit goal = false \/ truthy (get "createdAt" goal) = false ->
  Client.getHabitStats tz Date_parse now goal = mkStats (Int 0) (Int 0) 0.
Proof.
  intros H. unfold Client.getHabitStats. unfold is_habit in H.
  destruct H as [-> | ->]; simpl; [reflexivity|].
  now rewrite orb_true_r.
Qed.

Lemma getHabitStats_invalid (now : Z) (goal : JsObject) (c : JSON) :
  is_habit goal = true ->
  get "createdAt" goal = Some c -> truthy (Some c) = true ->
  new_Date Date_parse c = None ->
  Client.getHabitStats tz Date_parse now goal = mkStats NaN NaN 0.
Proof.
  intros Hh Hc Ht Hd. unfold Client.getHabitStats.
  unfold is_habit in Hh. rewrite Hh, Hc, Ht, Hd. reflexivity.
Qed.


Lemma isoDate_back (now : Z) (j : Z) :
  isoDate (now - j * DAY) = isoDay (now / DAY - j).
Proof.
  unfold isoDate. f_equal.
  replace (now - j * DAY) with (now + (- j) * DAY) by lia.
  rewrite Z.div_add by (unfold DAY; lia). lia.
Qed.

(** C4 (amended). In a time zone whose offset does not change in the
    three days: for a HABIT goal created at [start] on the UTC day T whose
    history has truthy entries for the days T, T+1 and T+2,
    [getHabitStats] at an instant [now] of day T+2 returns
    [{daysElapsed: 3, count: 3, rate: 100}] when [now] is more than 48
    hours after [start], and [{daysElapsed: 2, count: 2, rate: 100}] when
    it is at most 48 hours after it; in both clients. *)
Theorem C4_three_days (now : Z) (goal : JsObject) (c : JSON) (start : Z) :
  is_habit goal = true ->
  get "createdAt" goal = Some c -> truthy (Some c) = true ->
  new_Date Date_parse c = Some start ->
  now / DAY = start / DAY + 2 ->
  steady tz now 3 ->
  history_has goal (isoDay (start / DAY)) = true ->
  history_has goal (isoDay (start / DAY + 1)) = true ->
  history_has goal (isoDay (start / DAY + 2)) = true ->
  (2 * DAY < now - start ->
   Client.getHabitStats tz Date_parse now goal = mkStats (Int 100) (Int 3) 3
   /\ LegacyClient.getHabitStats tz Date_parse now goal
      = mkStats (Int 100) (Int 3) 3)
  /\ (now - start <= 2 * DAY ->
      Client.getHabitStats tz Date_parse now goal = mkStats (Int 100) (Int 2) 2
      /\ LegacyClient.getHabitStats tz Date_parse now goal
         = mkStats (Int 100) (Int 2) 2).
Proof.
  intros Hh Hc Ht Hd Hday Hs H0 H1 H2.
  pose proof (ceil_div_spec (Z.abs (now - start)) DAY eq_refl) as Hq.
  pose proof (Z.div_mod now DAY ltac:(unfold DAY; lia)) as En.
  pose proof (Z.mod_pos_bound now DAY eq_refl) as Bn.
  pose proof (Z.div_mod start DAY ltac:(unfold DAY; lia)) as Es.
  pose proof (Z.mod_pos_bound start DAY eq_refl) as Bs.
  assert (Hm : forall j, marked now goal j
                         = history_has goal (isoDay (start / DAY + 2 - Z.of_nat j))).
  { intros j. unfold marked. now rewrite isoDate_back, Hday. }
  rewrite getHabitStats_agree. split; intros Hlate.
  - assert (E : ceil_div (Z.abs (now - start)) DAY = 3)
      by (unfold DAY in *; lia).
    rewrite (getHabitStats_habit now goal c start Hh Hc Ht Hd);
      rewrite E; change (clamp_1_30 3) with 3; [|exact Hs].
    assert (Hn : window_count now goal 3 = 3).
    { unfold window_count. change (Z.to_nat 3) with 3%nat. cbn [seq filter].
      rewrite !Hm.
      change (Z.of_nat 0) with 0. change (Z.of_nat 1) with 1.
      change (Z.of_nat 2) with 2.
      replace (start / DAY + 2 - 0) with (start / DAY + 2) by lia.
      replace (start / DAY + 2 - 1) with (start / DAY + 1) by lia.
      replace (start / DAY + 2 - 2) with (start / DAY) by lia.
      rewrite H0, H1, H2. reflexivity. }
    rewrite Hn. split; reflexivity.
  - assert (E : ceil_div (Z.abs (now - start)) DAY = 2)
      by (unfold DAY in *; lia).
    rewrite (getHabitStats_habit now goal c start Hh Hc Ht Hd);
      rewrite E; change (clamp_1_30 2) with 2;
      [|apply (steady_less tz now 3); [lia | exact Hs]].
    assert (Hn : window_count now goal 2 = 2).
    { unfold window_count. change (Z.to_nat 2) with 2%nat. cbn [seq filter].
      rewrite !Hm.
      change (Z.of_nat 0) with 0. change (Z.of_nat 1) with 1.
      replace (start / DAY + 2 - 0) with (start / DAY + 2) by lia.
      replace (start / DAY + 2 - 1) with (start / DAY + 1) by lia.
      rewrite H1, H2. reflexivity. }
    rewrite Hn. split; reflexivity.
Qed.

End WithPlatform.



Lemma C4_three_days_witness :
  Client.getHabitStats tokyo iso_parse (c4_start + 2 * DAY + 3600000) c4_goal
  = mkStats (Int 100) (Int 3) 3
  /\ LegacyClient.getHabitStats tokyo iso_parse (c4_start + 2 * DAY + 3600000)
       c4_goal
     = mkStats (Int 100) (Int 3) 3.
Proof.
  apply (C4_three_days tokyo iso_parse (c4_start + 2 * DAY + 3600000) c4_goal
           (JStr "2026-01-01T12:00:00.000Z") c4_start);
    try reflexivity.
  apply fixed_zone_steady.
Defined.

(** C4 as stated fails: created on 2026-01-01 at 12:00, marked on the
    three days, and looked at on 2026-01-03 at 06:00 (42 hours later), the
    goal has 2 days elapsed and count 2. It also fails across the end of
    summer time: created on 2026-10-31 at 00:10 UTC, marked on the three
    days, and looked at on 2026-11-02 at 00:30 UTC in New York, the goal has
    3 days elapsed and count 2. *)
Lemma C4_counterexample :
  new_Date iso_parse (JStr "2026-01-01T12:00:00.000Z") = Some c4_start
  /\ isoDate c4_start = "2026-01-01"
  /\ isoDate (c4_start + 42 * 3600000) = "2026-01-03"
  /\ Client.getHabitStats utc iso_parse (c4_start + 42 * 3600000) c4_goal
     = mkStats (Int 100) (Int 2) 2
  /\ LegacyClient.getHabitStats utc iso_parse (c4_start + 42 * 3600000) c4_goal
     = mkStats (Int 100) (Int 2) 2
  /\ new_Date iso_parse (JStr "2026-10-31T00:10:00.000Z") = Some 1793405400000
  /\ isoDate 1793405400000 = "2026-10-31"
  /\ isoDate dst_now = "2026-11-02"
  /\ Client.getHabitStats new_york iso_parse dst_now dst_goal3
     = mkStats (Int 67) (Int 3) 2
  /\ LegacyClient.getHabitStats new_york iso_parse dst_now dst_goal3
     = mkStats (Int 67) (Int 3) 2.
Proof. repeat split; vm_compute; reflexivity. Qed.

End HabitFacts.
Module StoreFacts.
Import ClientCommon Db ScopedServer StoreSpec Examples.

(** ** Sorting *)

Lemma col_le_total (nl : bool) (a b : JSON) :
  col_le nl a b = true \/ col_le nl b a = true.
Proof.
  destruct a, b; simpl;
    try (destruct nl; simpl; auto; fail);
    try (left; reflexivity); try (right; reflexivity).
  - destruct (Z.leb_spec n n0); [auto|]. right. apply Z.leb_le. lia.
  - apply String.leb_total.
Qed.

Lemma insert_desc_perm (nl : bool) (r : GoalRow) (l : list GoalRow) :
  Permutation (insert_desc nl r l) (r :: l).
Proof.
  induction l as [|x l IH]; simpl; [reflexivity|].
  destruct (col_le nl _ _); [reflexivity|].
  rewrite IH. apply perm_swap.
Qed.

Lemma order_by_perm (nl : bool) (l : list GoalRow) :
  Permutation (order_by_created_at_desc nl l) l.
Proof.
  induction l as [|x l IH]; simpl; [reflexivity|].
  rewrite insert_desc_perm. now constructor.
Qed.

Lemma insert_desc_sorted (nl : bool) (r : GoalRow) (l : list GoalRow) :
  Sorted (row_not_older nl) l -> Sorted (row_not_older nl) (insert_desc nl r l).
Proof.
  induction 1 as [|x l Hs IH Hh]; simpl.
  - repeat constructor.
  - destruct (col_le nl (row_created_at x) (row_created_at r)) eqn:E.
    + constructor; [constructor; assumption|]. constructor. exact E.
    + constructor; [exact IH|].
      destruct l as [|y l']; simpl.
      * constructor. unfold row_not_older.
        destruct (col_le_total nl (row_created_at x) (row_created_at r)); congruence.
      * destruct (col_le nl (row_created_at y) (row_created_at r)).
        -- constructor. unfold row_not_older.
           destruct (col_le_total nl (row_created_at x) (row_created_at r));
             congruence.
        -- inversion Hh; subst. constructor. assumption.
Qed.

Lemma order_by_sorted (nl : bool) (l : list GoalRow) :
  Sorted (row_not_older nl) (order_by_created_at_desc nl l).
Proof.
  induction l as [|x l IH]; simpl; [constructor|].
  now apply insert_desc_sorted.
Qed.

Lemma order_by_id (nl : bool) (l : list GoalRow) :
  Sorted (row_not_older nl) l -> order_by_created_at_desc nl l = l.
Proof.
  induction 1 as [|x l Hs IH Hh]; simpl; [reflexivity|].
  rewrite IH. destruct Hh as [|y l' Hxy]; simpl; [reflexivity|].
  unfold row_not_older in Hxy. now rewrite Hxy.
Qed.

(** ** Rows of one user and of the others *)

Lemma rows_of_app (u : string) (a b : list GoalRow) :
  rows_of u (a ++ b) = (rows_of u a ++ rows_of u b)%list.
Proof. apply filter_app. Qed.

Lemma rows_of_delete_other (u u2 : string) (t : list GoalRow) :
  u2 <> u -> rows_of u2 (delete_of u t) = rows_of u2 t.
Proof.
  intros Hne. unfold rows_of, delete_of.
  induction t as [|r t IH]; simpl; [reflexivity|].
  destruct (String.eqb_spec (row_username r) u) as [E|E]; simpl.
  - destruct (String.eqb_spec (row_username r) u2) as [E2|E2]; [congruence|].
    exact IH.
  - destruct (String.eqb (row_username r) u2); [now rewrite IH | exact IH].
Qed.

Lemma rows_of_delete_same (u : string) (t : list GoalRow) :
  rows_of u (delete_of u t) = [].
Proof.
  unfold rows_of, delete_of.
  induction t as [|r t IH]; simpl; [reflexivity|].
  destruct (String.eqb (row_username r) u) eqn:E; simpl; [exact IH|].
  now rewrite E.
Qed.

Lemma rows_of_all (u : string) (rows : list GoalRow) :
  Forall (fun r => row_username r = u) rows -> rows_of u rows = rows.
Proof.
  induction 1 as [|r rows Hr _ IH]; simpl; [reflexivity|].
  rewrite Hr, String.eqb_refl. now rewrite IH.
Qed.

Lemma rows_of_none (u u2 : string) (rows : list GoalRow) :
  u2 <> u -> Forall (fun r => row_username r = u) rows -> rows_of u2 rows = [].
Proof.
  intros Hne. induction 1 as [|r rows Hr _ IH]; simpl; [reflexivity|].
  rewrite Hr. destruct (String.eqb_spec u u2); [congruence | exact IH].
Qed.

Lemma sqlite_insert_each_frame (u u2 : string) (rows t : list GoalRow) :
  u2 <> u -> Forall (fun r => row_username r = u) rows ->
  rows_of u2 (sqlite_insert_each rows t) = rows_of u2 t.
Proof.
  intros Hne H. revert t.
  induction H as [|r rows Hr Hrs IH]; intros t; simpl; [reflexivity|].
  destruct (has_id (row_id r) t); [apply IH|].
  rewrite IH, rows_of_app. simpl. rewrite Hr.
  destruct (String.eqb_spec u u2); [congruence|]. apply List.app_nil_r.
Qed.

Lemma supabase_rows_owner (u : string) (l : list JSON) (rows : list GoalRow) :
  map_result (supabase_row u) l = Ok rows ->
  Forall (fun r => row_username r = u) rows.
Proof.
  revert rows. induction l as [|g l IH]; simpl; intros rows H.
  - injection H as <-. constructor.
  - unfold supabase_row at 1 in H. destruct (destructure g); simpl in H;
      [|discriminate].
    destruct (map_result (supabase_row u) l); simpl in H; [|discriminate].
    injection H as <-. constructor; [reflexivity | now apply IH].
Qed.

Lemma queued_owner (u : string) (l : list JSON) :
  Forall (fun r => row_username r = u) (fst (queued u l)).
Proof.
  induction l as [|g l IH]; simpl; [constructor|].
  unfold sqlite_row at 1. destruct (destructure g); simpl; [|constructor].
  destruct (queued u l) as [rs thrown]. simpl in *.
  constructor; [reflexivity | exact IH].
Qed.

(** ** The goals of the other users *)

Lemma postGoals_users (username : option string) (goals : value) (d d' : Database) :
  snd (postGoals username goals (Some d)) = Some d' ->
  users_table d' = users_table d /\ type d' = type d.
Proof.
  unfold postGoals. destruct (absent username); simpl.
  - intros [= <-]. auto.
  - destruct (type d) eqn:Et.
    + destruct (map_result _ _) as [[|r rows]|]; simpl;
        try (intros [= <-]; simpl; auto; fail).
      destruct (insert_all _ _); simpl; intros [= <-]; simpl; auto.
    + destruct (queued _ _). simpl. intros [= <-]. simpl. auto.
Qed.

Lemma postGoals_initialised (username : option string) (goals : value)
    (db : ServerState) :
  (snd (postGoals username goals db) = None <-> db = None).
Proof.
  unfold postGoals. destruct (absent username); simpl; [tauto|].
  destruct db as [d|]; [|tauto].
  split; [|discriminate].
  destruct (type d).
  - destruct (map_result _ _) as [[|r rows]|]; simpl; try discriminate.
    destruct (insert_all _ _); discriminate.
  - destruct (queued _ _). discriminate.
Qed.

Lemma postGoals_frame_rows (username : option string) (goals : value)
    (d d' : Database) (u2 : string) :
  username <> Some u2 ->
  snd (postGoals username goals (Some d)) = Some d' ->
  rows_of u2 (goals_table d') = rows_of u2 (goals_table d).
Proof.
  intros Hne. unfold postGoals.
  destruct (absent username) eqn:Ea; simpl; [now intros [= <-]|].
  assert (Hu : u2 <> user_name username).
  { destruct username as [u|]; simpl in *; [congruence | discriminate]. }
  set (u := user_name username) in *.
  destruct (type d).
  - destruct (map_result (supabase_row u) (goalList goals)) as [rows|] eqn:Em;
      simpl.
    + destruct rows as [|r rows].
      * intros [= <-]. simpl. now apply rows_of_delete_other.
      * unfold insert_all.
        destruct (nodupb _ && forallb _ _); simpl; intros [= <-]; simpl.
        -- rewrite rows_of_app, rows_of_delete_other by assumption.
           rewrite (rows_of_none u u2 (r :: rows)) by
             (first [assumption | eapply supabase_rows_owner; eassumption]).
           apply List.app_nil_r.
        -- now apply rows_of_delete_other.
    + intros [= <-]. simpl. now apply rows_of_delete_other.
  - pose proof (queued_owner u (goalList goals)) as Ho.
    destruct (queued u (goalList goals)) as [rows thrown]. simpl in *.
    intros [= <-]. simpl.
    rewrite (sqlite_insert_each_frame u u2) by assumption.
    now apply rows_of_delete_other.
Qed.

(** C2 (amended). In the servers that scope goals by user name (the server
    with accounts and the Supabase/SQLite server), for every request body
    and every state of the server, [POST /api/goals] for [username] leaves
    the rows stored for every other user [u2], and what [GET /api/goals]
    answers for [u2], as they were. (The first server has no user names:
    there the request replaces the one table.) *)
Theorem C2_frame (username : option string) (goals : value) (db : ServerState)
    (u2 : string) :
  username <> Some u2 ->
  let db' := snd (postGoals username goals db) in
  (forall d, db = Some d ->
     exists d', db' = Some d'
       /\ rows_of u2 (goals_table d') = rows_of u2 (goals_table d))
  /\ getGoals (Some u2) db' = getGoals (Some u2) db.
Proof.
  intros Hne db'. subst db'.
  destruct db as [d|].
  - destruct (snd (postGoals username goals (Some d))) as [d'|] eqn:E.
    + pose proof (postGoals_frame_rows username goals d d' u2 Hne E) as Hr.
      pose proof (postGoals_users username goals d d' E) as [_ Ht].
      split.
      * intros d0 [= <-]. exists d'. auto.
      * unfold getGoals. destruct (absent (Some u2)); [reflexivity|].
        simpl user_name. now rewrite Ht, Hr.
    + apply postGoals_initialised in E. discriminate.
  - split; [discriminate|].
    replace (snd (postGoals username goals None)) with (@None Database);
      [reflexivity|].
    symmetry. now apply postGoals_initialised.
Qed.

Lemma C2_frame_witness :
  (forall d, Some (db_of_bob sqlite) = Some d ->
     exists d',
       snd (postGoals (Some "alice") (Some (JArr [JObj goal_read; JObj goal_run]))
              (Some (db_of_bob sqlite))) = Some d'
       /\ rows_of "bob" (goals_table d') = rows_of "bob" (goals_table d))
  /\ getGoals (Some "bob")
       (snd (postGoals (Some "alice") (Some (JArr [JObj goal_read; JObj goal_run]))
               (Some (db_of_bob sqlite))))
     = getGoals (Some "bob") (Some (db_of_bob sqlite)).
Proof.
  apply (C2_frame (Some "alice") (Some (JArr [JObj goal_read; JObj goal_run]))
           (Some (db_of_bob sqlite)) "bob").
  discriminate.
Defined.

(** C2 as stated fails in the first server, which has no user names: after
    bob has saved his goal, alice saves hers, and the one stored collection
    is hers; on both of its backends. *)
Lemma C2_counterexample :
  (let db1 := snd (LegacyServer.postGoals (JArr [JObj goal_of_bob])
                     (LegacyServer.mkDb LegacyServer.postgres [])) in
   let db2 := snd (LegacyServer.postGoals (JArr [JObj goal_run_s]) db1) in
   LegacyServer.getGoals db1 = ok (JArr [JObj goal_of_bob_pg])
   /\ LegacyServer.getGoals db2 = ok (JArr [JObj goal_run_pg]))
  /\
  (let db1 := snd (LegacyServer.postGoals (JArr [JObj goal_of_bob])
                     (LegacyServer.mkDb LegacyServer.sqlite [])) in
   let db2 := snd (LegacyServer.postGoals (JArr [JObj goal_run_s]) db1) in
   LegacyServer.getGoals db1 = ok (JArr [JObj (stored_form goal_of_bob)])
   /\ LegacyServer.getGoals db2 = ok (JArr [JObj (stored_form goal_run_s)])).
Proof. repeat split; vm_compute; reflexivity. Qed.

(** C7 (amended). In the servers that scope goals by user name, [GET
    /api/goals] without a user name answers the empty list, whatever the
    state of the server (also before the database is set up), and so it
    does for a user name with no stored goal once the database is set up.
    (The first server has no user names: it answers every stored goal.) *)
Theorem C7_no_user_no_goals (username : option string) (db : ServerState) :
  (absent username = true -> getGoals username db = ok (JArr []))
  /\ (forall d, db = Some d ->
       rows_of (user_name username) (goals_table d) = [] ->
       getGoals username db = ok (JArr [])).
Proof.
  split.
  - intros Ha. unfold getGoals. now rewrite Ha.
  - intros d -> Hr. unfold getGoals.
    destruct (absent username); [reflexivity|].
    rewrite Hr. destruct (type d); reflexivity.
Qed.

Lemma C7_no_user_no_goals_witness :
  (getGoals None (Some (db_of_bob supabase)) = ok (JArr [])
   /\ getGoals (Some "") None = ok (JArr []))
  /\ getGoals (Some "alice") (Some (db_of_bob sqlite)) = ok (JArr []).
Proof.
  split; [split|].
  - apply (proj1 (C7_no_user_no_goals None (Some (db_of_bob supabase)))).
    reflexivity.
  - apply (proj1 (C7_no_user_no_goals (Some "") None)). reflexivity.
  - apply (proj2 (C7_no_user_no_goals (Some "alice") (Some (db_of_bob sqlite)))
             (db_of_bob sqlite)); reflexivity.
Defined.

(** C7 as stated fails in the first server, which does not read the user
    name: a request without one is answered with every stored goal. *)
Lemma C7_counterexample :
  LegacyServer.getGoals
    (snd (LegacyServer.postGoals (JArr [JObj goal_of_bob])
            (LegacyServer.mkDb LegacyServer.postgres [])))
  = ok (JArr [JObj goal_of_bob_pg])
  /\ LegacyServer.getGoals
       (snd (LegacyServer.postGoals (JArr [JObj goal_of_bob])
               (LegacyServer.mkDb LegacyServer.sqlite [])))
     = ok (JArr [JObj (stored_form goal_of_bob)]).
Proof. split; vm_compute; reflexivity. Qed.

(** C10 (amended). In the servers that scope goals by user name, a
    request to [POST /api/goals] whose [goals] is present but is not an
    array: with a user name that is not empty and the database set up, it is
    handled as the empty list: every goal stored for that user name is
    deleted, nothing is inserted, the rows of the other users stay, and the
    answer is success. Without a user name (absent or empty) the answer is
    400 and nothing changes; with one, before the database is set up, the
    answer is 500. *)
Theorem C10_not_an_array (username : option string) (v : JSON) (db : ServerState) :
  isArray (Some v) = false ->
  (absent username = true ->
   postGoals username (Some v) db
   = (Sent 400 (error_body "Username is required"), db))
  /\ (absent username = false -> db = None ->
      postGoals username (Some v) db
      = (Sent 500 (error_body "Database not initialized"), None))
  /\ (absent username = false -> forall d, db = Some d ->
      let u := user_name username in
      postGoals username (Some v) db
      = (ok success, Some (with_goals d (delete_of u (goals_table d))))
      /\ rows_of u (delete_of u (goals_table d)) = []
      /\ forall u2, u2 <> u ->
           rows_of u2 (delete_of u (goals_table d)) = rows_of u2 (goals_table d)).
Proof.
  intros Hv. split; [|split].
  - intros Ha. unfold postGoals. now rewrite Ha.
  - intros Ha ->. unfold postGoals. now rewrite Ha.
  - intros Ha d -> u. split; [|split].
    + unfold postGoals. rewrite Ha.
      assert (Hl : goalList (Some v) = [])
        by (destruct v; try reflexivity; discriminate).
      rewrite Hl. simpl. destruct (type d); reflexivity.
    + apply rows_of_delete_same.
    + intros u2 Hne. now apply rows_of_delete_other.
Qed.

(** A single goal, not in an array, sent by alice who has two goals
    stored, beside bob's one. *)
Lemma C10_not_an_array_witness :
  let d := mkDb sqlite (stored_row sqlite "bob" goal_of_bob
                        :: map (stored_row sqlite "alice") [goal_read; goal_run]) [] in
  postGoals (Some "alice") (Some (JObj goal_run)) (Some d)
  = (ok success, Some (with_goals d (delete_of "alice" (goals_table d))))
  /\ rows_of "alice" (delete_of "alice" (goals_table d)) = []
  /\ forall u2, u2 <> "alice" ->
       rows_of u2 (delete_of "alice" (goals_table d)) = rows_of u2 (goals_table d).
Proof.
  intros d.
  apply (proj2 (proj2 (C10_not_an_array (Some "alice") (JObj goal_run) (Some d)
                         eq_refl)));
    reflexivity.
Defined.

(** C10 as stated fails for a request without a user name: the single
    goal sent in place of the list is answered with status 400, and the
    goals that are stored stay; and before the database is set up the
    answer is 500. *)
Lemma C10_counterexample :
  let d := mkDb sqlite (stored_row sqlite "bob" goal_of_bob
                        :: map (stored_row sqlite "alice") [goal_read; goal_run]) [] in
  isArray (Some (JObj goal_run)) = false
  /\ postGoals None (Some (JObj goal_run)) (Some d)
     = (Sent 400 (error_body "Username is required"), Some d)
  /\ postGoals (Some "") (Some (JObj goal_run)) (Some d)
     = (Sent 400 (error_body "Username is required"), Some d)
  /\ postGoals (Some "alice") (Some (JObj goal_run)) None
     = (Sent 500 (error_body "Database not initialized"), None).
Proof. repeat split. Qed.

End StoreFacts.

Module RoundTrip.
Import ClientCommon Db ScopedServer StoreSpec StoreFacts JsonFacts Examples.
Local Open Scope list_scope.

(** ** The fields of a goal *)

Lemma get_filter (p : string -> bool) (k : string) (o : JsObject) :
  get k (filter (fun kv => p (fst kv)) o) = if p k then get k o else None.
Proof.
  induction o as [|[k' v] o IH]; simpl.
  - now destruct (p k).
  - destruct (p k') eqn:Ep; simpl.
    + destruct (String.eqb_spec k k') as [->|Hne].
      * now rewrite Ep.
      * exact IH.
    + destruct (String.eqb_spec k k') as [->|Hne].
      * rewrite Ep in IH |- *. exact IH.
      * exact IH.
Qed.

Lemma get_rest_of (k : string) (g : JsObject) :
  get k (rest_of g) = if is_fixed k then None else get k g.
Proof.
  unfold rest_of.
  rewrite (get_filter (fun k => negb (existsb (String.eqb k) fixed_keys))).
  unfold is_fixed. now destruct (existsb (String.eqb k) fixed_keys).
Qed.

Lemma get_app (k : string) (a b : JsObject) :
  get k (a ++ b) = match get k a with Some v => Some v | None => get k b end.
Proof.
  induction a as [|[k' v] a IH]; simpl; [reflexivity|].
  now destruct (String.eqb k k').
Qed.

Lemma get_stored_form (g : JsObject) (k : string) :
  is_goal g ->
  get k (stored_form g)
  = if String.eqb k "id" then Some (JStr (stored_id g)) else get k g.
Proof.
  intros (_ & [s1 H1] & [s2 H2] & [b H3] & [s4 H4]).
  unfold stored_form. rewrite get_app, get_rest_of.
  unfold field. rewrite H1, H2, H3, H4.
  cbn [get]. unfold is_fixed, fixed_keys. cbn [existsb].
  destruct (String.eqb_spec k "id"); [reflexivity|].
  destruct (String.eqb_spec k "text") as [->|]; [now rewrite H1|].
  destruct (String.eqb_spec k "category") as [->|]; [now rewrite H2|].
  destruct (String.eqb_spec k "completed") as [->|]; [now rewrite H3|].
  destruct (String.eqb_spec k "createdAt") as [->|]; [now rewrite H4|].
  simpl. now destruct (get k g).
Qed.

Lemma NoDup_filter_keys (p : string * JSON -> bool) (o : JsObject) :
  NoDup (keys o) -> NoDup (keys (filter p o)).
Proof.
  unfold keys. induction o as [|kv o IH]; simpl; intros H; [constructor|].
  inversion H as [|? ? Hn Hd]; subst.
  destruct (p kv); simpl; [|now apply IH].
  constructor; [|now apply IH].
  intros Hin. apply Hn. apply in_map_iff in Hin as [x [Hx Hin]].
  apply filter_In in Hin as [Hin _]. apply in_map_iff. now exists x.
Qed.

Lemma wf_rest_of (g : JsObject) : wf (JObj g) = true -> wf (JObj (rest_of g)) = true.
Proof.
  simpl. rewrite !andb_true_iff. intros [Hn Hw]. split.
  - apply nodupb_NoDup. apply nodupb_NoDup in Hn.
    now apply (NoDup_filter_keys _ g).
  - rewrite forallb_forall in Hw |- *. intros x Hx.
    apply Hw. unfold rest_of in Hx. now apply filter_In in Hx as [Hx _].
Qed.

Lemma spread_rest_of (fixed : JsObject) (g : JsObject) :
  wf (JObj g) = true ->
  (forall k, In k (keys fixed) -> is_fixed k = true) ->
  spread fixed (rest_of g) = (fixed ++ rest_of g)%list.
Proof.
  intros Hw Hf. apply spread_fresh.
  - apply wf_rest_of in Hw. simpl in Hw. apply andb_true_iff in Hw as [Hn _].
    now apply nodupb_NoDup.
  - intros k Hin Hin'. apply Hf in Hin'.
    unfold keys in Hin. apply in_map_iff in Hin as [[k' v] [Hk Hin]].
    simpl in Hk. subst k'. unfold rest_of in Hin.
    apply filter_In in Hin as [_ Hp]. cbn [fst] in Hp. unfold is_fixed in Hin'.
    rewrite Hin' in Hp. discriminate.
Qed.

(** ** The rows of a list of goals *)

Lemma supabase_rows (u : string) (gs : list JsObject) :
  map_result (supabase_row u) (map JObj gs) = Ok (map (stored_row supabase u) gs).
Proof.
  induction gs as [|g gs IH]; simpl; [reflexivity|]. now rewrite IH.
Qed.

Lemma sqlite_rows (u : string) (gs : list JsObject) :
  queued u (map JObj gs) = (map (stored_row sqlite u) gs, false).
Proof.
  induction gs as [|g gs IH]; simpl; [reflexivity|]. now rewrite IH.
Qed.

Lemma stored_row_id (t : DbType) (u : string) (g : JsObject) :
  row_id (stored_row t u g) = stored_id g.
Proof. now destruct t. Qed.

Lemma stored_row_owner (t : DbType) (u : string) (gs : list JsObject) :
  Forall (fun r => row_username r = u) (map (stored_row t u) gs).
Proof.
  apply Forall_forall. intros r Hin. apply in_map_iff in Hin as [g [<- _]].
  now destruct t.
Qed.

Lemma stringify_object_nonempty (o : JsObject) :
  String.eqb (Json.stringify (JObj o)) "" = false.
Proof. reflexivity. Qed.

Lemma loaded_stored_row (t : DbType) (u : string) (g : JsObject) :
  is_goal g -> loaded t (stored_row t u g) = Ok (JObj (stored_form g)).
Proof.
  intros Hg. pose proof Hg as (Hw & [s1 H1] & [s2 H2] & [b H3] & [s4 H4]).
  assert (Hf : forall k, In k (keys [("id", JStr (stored_id g));
                 ("text", field "text" g); ("category", field "category" g);
                 ("completed", field "completed" g);
                 ("createdAt", field "createdAt" g)]) -> is_fixed k = true).
  { simpl. intuition (subst; reflexivity). }
  destruct t; unfold loaded, stored_row.
  - unfold supabase_goal, goal_of_row.
    cbn [row_id row_text row_category row_completed row_created_at row_data].
    cbn [truthy own_props]. unfold pg_store. fold (field "text" g).
    fold (field "category" g). fold (field "completed" g).
    fold (field "createdAt" g).
    rewrite spread_rest_of by assumption. reflexivity.
  - unfold sqlite_goal, goal_of_row.
    cbn [row_id row_text row_category row_completed row_created_at row_data].
    change (truthy (Some (JStr (Json.stringify (JObj (rest_of g)))))) with true.
    cbv iota. unfold JSON_parse. cbn [String_ String_json].
    rewrite parse_stringify by now apply wf_rest_of.
    cbn [bind own_props]. rewrite H1, H2, H3, H4. cbn [sqlite_bind].
    replace (JBool (truthy (Some (JNum (if b then 1 else 0))))) with (JBool b)
      by now destruct b.
    replace (JStr s1) with (field "text" g) by (unfold field; now rewrite H1).
    replace (JStr s2) with (field "category" g) by (unfold field; now rewrite H2).
    replace (JBool b) with (field "completed" g) by (unfold field; now rewrite H3).
    replace (JStr s4) with (field "createdAt" g) by (unfold field; now rewrite H4).
    rewrite spread_rest_of by assumption. reflexivity.
Qed.

Lemma loaded_obj_stored_row (t : DbType) (u : string) (g : JsObject) :
  is_goal g -> loaded_obj t (stored_row t u g) = stored_form g.
Proof.
  intros Hg. unfold loaded_obj. now rewrite loaded_stored_row.
Qed.

(** ** Inserting rows with fresh ids *)

Lemma has_id_false (id : string) (t : list GoalRow) :
  has_id id t = false <-> forall r, In r t -> row_id r <> id.
Proof.
  unfold has_id. split.
  - intros H r Hin E.
    assert (existsb (fun r => String.eqb (row_id r) id) t = true).
    { apply existsb_exists. exists r. split; [assumption|].
      now apply String.eqb_eq. }
    congruence.
  - intros H. destruct (existsb _ t) eqn:E; [|reflexivity].
    apply existsb_exists in E as [r [Hin He]]. apply String.eqb_eq in He.
    exfalso. now apply (H r).
Qed.

Lemma has_id_app (id : string) (a b : list GoalRow) :
  has_id id (a ++ b) = has_id id a || has_id id b.
Proof. unfold has_id. apply existsb_app. Qed.

Lemma deleted_free (u : string) (ids : list string) (t : list GoalRow) (id : string) :
  ids_free u ids t -> In id ids -> has_id id (delete_of u t) = false.
Proof.
  intros Hf Hin. apply has_id_false. intros r Hr E. subst id.
  unfold delete_of in Hr. apply filter_In in Hr as [Hr Hu].
  apply (Hf r Hr); [|assumption].
  intros Eu. rewrite Eu, String.eqb_refl in Hu. discriminate.
Qed.

Lemma sqlite_insert_each_fresh (rows t : list GoalRow) :
  NoDup (map row_id rows) ->
  (forall r, In r rows -> has_id (row_id r) t = false) ->
  sqlite_insert_each rows t = t ++ rows.
Proof.
  revert t. induction rows as [|r rows IH]; intros t Hd Hf; simpl.
  - now rewrite List.app_nil_r.
  - inversion Hd as [|? ? Hn Hd']; subst.
    rewrite (Hf r) by now left.
    rewrite IH; [now rewrite <- List.app_assoc | assumption |].
    intros r' Hin. rewrite has_id_app, (Hf r') by now right.
    simpl. rewrite orb_false_r.
    destruct (String.eqb_spec (row_id r) (row_id r')) as [E|E]; [|reflexivity].
    exfalso. apply Hn. rewrite E. now apply in_map.
Qed.

Lemma insert_all_fresh (rows t : list GoalRow) :
  NoDup (map row_id rows) ->
  (forall r, In r rows -> has_id (row_id r) t = false) ->
  insert_all rows t = Some (t ++ rows).
Proof.
  intros Hd Hf. unfold insert_all.
  replace (nodupb (map row_id rows)) with true
    by (symmetry; now apply nodupb_NoDup).
  replace (forallb (fun r => negb (has_id (row_id r) t)) rows) with true;
    [reflexivity|].
  symmetry. apply forallb_forall. intros r Hin. now rewrite (Hf r Hin).
Qed.

(** ** The order of the goals that come back *)

Lemma Sorted_map {A B} (R : A -> A -> Prop) (R' : B -> B -> Prop) (f : A -> B)
    (P : A -> Prop) (l : list A) :
  (forall a b, P a -> P b -> R a b -> R' (f a) (f b)) ->
  Forall P l -> Sorted R l -> Sorted R' (map f l).
Proof.
  intros HR HP Hs. induction Hs as [|a l Hs IH Hh]; simpl; [constructor|].
  inversion HP as [|? ? Pa Pl]; subst.
  constructor; [now apply IH|].
  destruct Hh as [|b l' Hab]; simpl; constructor.
  inversion Pl; subst. now apply HR.
Qed.

Lemma map_result_ok {A B} (f : A -> result B) (g : A -> B) (l : list A) :
  Forall (fun x => f x = Ok (g x)) l -> map_result f l = Ok (map g l).
Proof.
  induction 1 as [|x l Hx _ IH]; simpl; [reflexivity|]. now rewrite Hx, IH.
Qed.

Lemma holds_goal_created (t : DbType) (u : string) (g : JsObject) :
  is_goal g ->
  row_created_at (stored_row t u g) = JStr (created g)
  /\ created (stored_form g) = created g.
Proof.
  intros Hg. pose proof Hg as (Hw & _ & _ & _ & [s H]).
  split.
  - unfold created. rewrite H. destruct t; simpl; now rewrite H.
  - unfold created at 1. rewrite (get_stored_form g "createdAt" Hg).
    simpl. unfold created. now rewrite H.
Qed.

Lemma getGoals_rows (t : DbType) (u : string) (d : Database) (rows : list GoalRow) :
  u <> "" -> type d = t ->
  Forall (holds_goal t u) rows ->
  rows_of u (goals_table d) = rows ->
  let sorted := order_by_created_at_desc (nulls_last t) rows in
  getGoals (Some u) (Some d) = ok (JArr (map JObj (map (loaded_obj t) sorted)))
  /\ Permutation sorted rows
  /\ Sorted not_older (map (loaded_obj t) sorted).
Proof.
  intros Hu Ht Hrows Er sorted.
  assert (Hp : Permutation sorted rows) by apply order_by_perm.
  assert (Hall : Forall (holds_goal t u) sorted).
  { rewrite Forall_forall in *. intros r Hr. apply Hrows.
    now apply (Permutation_in _ Hp). }
  assert (Hload : Forall (fun r => loaded t r = Ok (JObj (loaded_obj t r))) sorted).
  { rewrite Forall_forall in *. intros r Hr.
    destruct (Hall r Hr) as [g [Hg ->]].
    rewrite loaded_obj_stored_row, loaded_stored_row by assumption. reflexivity. }
  split; [|split; [exact Hp|]].
  - unfold getGoals. simpl absent.
    destruct (String.eqb_spec u ""); [contradiction|].
    simpl user_name. rewrite Er, Ht. destruct t; simpl nulls_last in *; fold sorted.
    + f_equal. f_equal. rewrite map_map.
      apply map_ext_in. intros r Hr. rewrite Forall_forall in Hload.
      specialize (Hload r Hr). unfold loaded at 1 in Hload. congruence.
    + rewrite (map_result_ok sqlite_goal (fun r => JObj (loaded_obj sqlite r)))
        by exact Hload.
      now rewrite map_map.
  - apply (Sorted_map (row_not_older (nulls_last t)) not_older (loaded_obj t)
             (holds_goal t u)); [|exact Hall|apply order_by_sorted].
    intros a b [ga [Hga ->]] [gb [Hgb ->]] Hab.
    unfold row_not_older in Hab. unfold not_older.
    rewrite !loaded_obj_stored_row by assumption.
    destruct (holds_goal_created t u ga Hga) as [Ea ->].
    destruct (holds_goal_created t u gb Hgb) as [Eb ->].
    rewrite Ea, Eb in Hab. exact Hab.
Qed.

Lemma postGoals_rows (d : Database) (u : string) (gs : list JsObject) :
  u <> "" ->
  NoDup (map stored_id gs) ->
  ids_free u (map stored_id gs) (goals_table d) ->
  postGoals (Some u) (Some (JArr (map JObj gs))) (Some d)
  = (ok success,
     Some (with_goals d (delete_of u (goals_table d)
                         ++ map (stored_row (type d) u) gs))).
Proof.
  intros Hu Hd Hf. unfold postGoals. simpl absent.
  destruct (String.eqb_spec u ""); [contradiction|].
  cbn [goalList user_name].
  set (rows := map (stored_row (type d) u) gs).
  assert (Hids : map row_id rows = map stored_id gs).
  { subst rows. rewrite map_map. apply map_ext. intros g. apply stored_row_id. }
  assert (Hfresh : forall r, In r rows ->
                     has_id (row_id r) (delete_of u (goals_table d)) = false).
  { intros r Hin. apply (deleted_free u (map stored_id gs)); [assumption|].
    rewrite <- Hids. now apply in_map. }
  assert (Hnd : NoDup (map row_id rows)) by now rewrite Hids.
  subst rows. destruct (type d).
  - rewrite supabase_rows.
    rewrite insert_all_fresh by assumption.
    destruct gs; simpl; [now rewrite List.app_nil_r | reflexivity].
  - rewrite sqlite_rows.
    rewrite sqlite_insert_each_fresh by assumption. reflexivity.
Qed.

(** C1 (amended). In the servers that scope goals by user name, on either
    backend: when the goals [gs] sent for [u] have ids with distinct
    [String(id)] that no goal of another user has, [POST /api/goals]
    succeeds and the following [GET /api/goals] for [u] answers the goals of
    [gs] ordered by [createdAt], newest first (in the order of [gs] when
    [gs] is in that order already), each with every field unchanged except
    [id], which comes back as the string [String(id)]. *)
Theorem C1_round_trip (d : Database) (u : string) (gs : list JsObject) :
  u <> "" ->
  Forall is_goal gs ->
  NoDup (map stored_id gs) ->
  ids_free u (map stored_id gs) (goals_table d) ->
  exists (d' : Database) (L : list JsObject),
    postGoals (Some u) (Some (JArr (map JObj gs))) (Some d) = (ok success, Some d')
    /\ getGoals (Some u) (Some d') = ok (JArr (map JObj L))
    /\ Permutation L (map stored_form gs)
    /\ Sorted not_older L
    /\ (Sorted not_older gs -> L = map stored_form gs)
    /\ Forall (fun g => forall k,
                  get k (stored_form g)
                  = if String.eqb k "id" then Some (JStr (stored_id g))
                    else get k g) gs.
Proof.
  intros Hu Hg Hd Hf.
  set (t := type d).
  set (rows := map (stored_row t u) gs).
  set (d' := with_goals d (delete_of u (goals_table d) ++ rows)).
  assert (Hrows : rows_of u (goals_table d') = rows).
  { unfold d'. simpl. rewrite rows_of_app, rows_of_delete_same.
    simpl. apply rows_of_all. apply stored_row_owner. }
  assert (Hhold : Forall (holds_goal t u) rows).
  { apply Forall_forall. intros r Hin. apply in_map_iff in Hin as [g [<- Hin]].
    exists g. split; [|reflexivity]. rewrite Forall_forall in Hg. now apply Hg. }
  assert (Hobj : map (loaded_obj t) rows = map stored_form gs).
  { unfold rows. rewrite map_map. apply map_ext_in. intros g Hin.
    apply loaded_obj_stored_row. rewrite Forall_forall in Hg. now apply Hg. }
  destruct (getGoals_rows t u d' rows Hu eq_refl Hhold Hrows) as (Hget & Hperm & Hsort).
  exists d', (map (loaded_obj t) (order_by_created_at_desc (nulls_last t) rows)).
  split; [now apply postGoals_rows|].
  split; [exact Hget|].
  split; [rewrite <- Hobj; now apply Permutation_map|].
  split; [exact Hsort|].
  split.
  - intros Hs. rewrite order_by_id; [exact Hobj|].
    unfold rows.
    apply (Sorted_map not_older (row_not_older (nulls_last t)) (stored_row t u)
             is_goal); [|exact Hg|exact Hs].
    intros a b Ha Hb Hab. unfold row_not_older.
    destruct (holds_goal_created t u a Ha) as [-> _].
    destruct (holds_goal_created t u b Hb) as [-> _].
    exact Hab.
  - apply Forall_forall. intros g Hin k. apply get_stored_form.
    rewrite Forall_forall in Hg. now apply Hg.
Qed.

Lemma is_goal_examples :
  Forall is_goal [goal_read; goal_run; goal_read_s; goal_run_s; goal_of_bob].
Proof.
  repeat constructor; try reflexivity; eexists; reflexivity.
Qed.

Lemma C1_round_trip_witness :
  exists (d' : Database) (L : list JsObject),
    postGoals (Some "alice") (Some (JArr (map JObj [goal_read; goal_run])))
      (Some (db_of_bob sqlite)) = (ok success, Some d')
    /\ getGoals (Some "alice") (Some d') = ok (JArr (map JObj L))
    /\ Permutation L (map stored_form [goal_read; goal_run])
    /\ Sorted not_older L
    /\ (Sorted not_older [goal_read; goal_run]
        -> L = map stored_form [goal_read; goal_run])
    /\ Forall (fun g => forall k,
                  get k (stored_form g)
                  = if String.eqb k "id" then Some (JStr (stored_id g))
                    else get k g) [goal_read; goal_run].
Proof.
  apply (C1_round_trip (db_of_bob sqlite) "alice" [goal_read; goal_run]).
  - discriminate.
  - repeat constructor; try reflexivity; eexists; reflexivity.
  - apply nodupb_NoDup. vm_compute. reflexivity.
  - intros r [<-|[]] _. vm_compute.
    intros [H|[H|[]]]; discriminate H.
Defined.

(** C1 as stated fails. A goal whose id is the number [Date.now()] gave
    comes back with the id as a string, on both backends; and goals sent
    oldest first come back newest first. *)
Lemma C1_counterexample :
  (let db' := snd (postGoals (Some "alice") (Some (JArr [JObj goal_run]))
                     (Some (mkDb supabase [] []))) in
   getGoals (Some "alice") db' = ok (JArr [JObj (stored_form goal_run)]))
  /\ (let db' := snd (postGoals (Some "alice") (Some (JArr [JObj goal_run]))
                        (Some (mkDb sqlite [] []))) in
      getGoals (Some "alice") db' = ok (JArr [JObj (stored_form goal_run)]))
  /\ json_equiv (JArr [JObj (stored_form goal_run)]) (JArr [JObj goal_run]) = false
  /\ get "id" goal_run = Some (JNum 1767261600000)
  /\ get "id" (stored_form goal_run) = Some (JStr "1767261600000")
  /\ (let db' := snd (postGoals (Some "alice")
                        (Some (JArr [JObj goal_run_s; JObj goal_read_s]))
                        (Some (mkDb supabase [] []))) in
      getGoals (Some "alice") db'
      = ok (JArr [JObj (stored_form goal_read_s); JObj (stored_form goal_run_s)]))
  /\ json_equiv (JArr [JObj (stored_form goal_read_s); JObj (stored_form goal_run_s)])
       (JArr [JObj goal_run_s; JObj goal_read_s]) = false.
Proof. repeat split; vm_compute; reflexivity. Qed.

End RoundTrip.

(* ================================================================== *)
(** * The analysis of a goal *)

Module AnalysisFacts.
Import ClientCommon AnalysisSpec GrammarFacts Examples.

(** What the whole chain [result.candidates?.[0]?.content?.parts?.[0]?.text]
    reads in a response that has no [candidates]. *)
Lemma candidate_text_missing (result_ : JSON) :
  result_ <> JNull ->
  get "candidates" (own_props result_) = None ->
  candidate_text result_ = Ok None.
Proof.
  intros Hn Hc. unfold candidate_text. rewrite Hc.
  destruct result_; try reflexivity. contradiction.
Qed.

Lemma JSON_eq_null (v : JSON) : v = JNull \/ v <> JNull.
Proof. destruct v; [now left | right; discriminate ..]. Qed.

Lemma client_fallback_fields :
  get "category" (own_props Client.fallback) = Some (JStr "NONE")
  /\ get "roadmap" (own_props Client.fallback) = Some (JArr [])
  /\ get "subTasks" (own_props Client.fallback) = Some (JArr [])
  /\ exists msg, get "advice" (own_props Client.fallback) = Some (JStr msg).
Proof. repeat split. now eexists. Qed.

Lemma legacy_fallback_fields :
  get "category" (own_props LegacyClient.fallback) = Some (JStr "NONE")
  /\ get "roadmap" (own_props LegacyClient.fallback) = Some (JArr [])
  /\ get "subTasks" (own_props LegacyClient.fallback) = Some (JArr [])
  /\ exists msg, get "advice" (own_props LegacyClient.fallback) = Some (JStr msg).
Proof. repeat split. now eexists. Qed.

(** With the fallback the new goal is patched without an error. *)
Lemma legacy_patched_fallback (tempId : Z) (g : JsObject) :
  exists g', LegacyClient.patched tempId LegacyClient.fallback g = Ok g'
             /\ get "category" g' = Some (JStr "NONE").
Proof.
  eexists. split; [reflexivity|].
  unfold assign. cbn [get own_props LegacyClient.fallback String.eqb Ascii.eqb
                       Bool.eqb].
  assert (Hs : forall k k' v o, String.eqb k k' = false ->
                 get k (set k' v o) = get k o).
  { intros k k' v o Hk. induction o as [|[k2 v2] o IH]; simpl.
    - now rewrite Hk.
    - destruct (String.eqb_spec k' k2) as [->|Hne]; simpl.
      + now rewrite Hk.
      + now rewrite IH. }
  assert (Hr : forall k k' o, String.eqb k k' = false ->
                 get k (remove k' o) = get k o).
  { intros k k' o Hk. induction o as [|[k2 v2] o IH]; simpl; [reflexivity|].
    destruct (String.eqb_spec k' k2) as [->|Hne]; simpl.
    - now rewrite Hk.
    - now rewrite IH. }
  assert (Hg : forall k v o, get k (set k v o) = Some v).
  { intros k v o. induction o as [|[k2 v2] o IH]; simpl.
    - now rewrite String.eqb_refl.
    - destruct (String.eqb_spec k k2) as [->|Hne]; simpl.
      + now rewrite String.eqb_refl.
      + destruct (String.eqb_spec k k2); [contradiction | exact IH]. }
  rewrite Hr by reflexivity. rewrite !Hs by reflexivity.
  rewrite !Hr by reflexivity. apply Hg.
Qed.

Lemma legacy_patch_fallback (tempId : Z) (prev : list JsObject) :
  exists goals, LegacyClient.patch tempId LegacyClient.fallback prev = Ok goals
                /\ List.length goals = List.length prev.
Proof.
  induction prev as [|g prev [goals [IH Hl]]]; cbn [LegacyClient.patch].
  - now exists [].
  - destruct (strict_eq (get "id" g) (Some (JNum tempId))).
    + destruct (legacy_patched_fallback tempId g) as [g' [-> _]].
      rewrite IH. cbn [bind]. exists (g' :: goals). simpl. now rewrite Hl.
    + rewrite IH. cbn [bind]. exists (g :: goals). simpl. now rewrite Hl.
Qed.

Lemma patch_untouched (tempId : Z) (analysis : JSON) (goals : list JsObject) :
  (forall g, In g goals -> strict_eq (get "id" g) (Some (JNum tempId)) = false) ->
  LegacyClient.patch tempId analysis goals = Ok goals.
Proof.
  induction goals as [|g goals IH]; intros H; [reflexivity|].
  cbn [LegacyClient.patch]. rewrite (H g) by now left.
  rewrite IH by (intros x Hx; apply H; now right). reflexivity.
Qed.

Lemma client_patch_untouched (tempId : Z) (analysis : JSON)
    (goals : list JsObject) :
  (forall g, In g goals -> strict_eq (get "id" g) (Some (JNum tempId)) = false) ->
  Client.patch tempId analysis goals = goals.
Proof.
  intros H. unfold Client.patch. rewrite <- (map_id goals) at 2.
  apply map_ext_in. intros g Hg. now rewrite (H g Hg).
Qed.

(** A failed analysis, in the client with log-in: its [try] block throws. *)
Lemma client_fails_throws (o : FetchOutcome) :
  analysis_fails (fun s => Client.strip_close (Client.strip_open s)) o ->
  exists e, Client.analyzeGoal_try o = Throw e.
Proof.
  intros H. unfold Client.analyzeGoal_try.
  destruct H as [|body Hb|body r Hp Hc|body r Hp Hc|body r s Hp Hc Hs];
    cbn [response_json].
  - now eexists.
  - rewrite (not_json_not_parsed body Hb). now eexists.
  - rewrite Hp. cbn [bind].
    destruct (JSON_eq_null r) as [->|Hn]; [now eexists|].
    rewrite (candidate_text_missing r Hn Hc). cbn [bind truthy negb].
    now eexists.
  - rewrite Hp. cbn [bind]. rewrite Hc. cbn [bind truthy negb]. now eexists.
  - rewrite Hp. cbn [bind]. rewrite Hc. cbn [bind].
    destruct (negb (truthy (Some (JStr s)))); [now eexists|].
    unfold JSON_parse. cbn [String_ String_json].
    rewrite (not_json_not_parsed _ Hs). now eexists.
Qed.

(** The same in the client without log-in, which parses the text as it
    is. *)
Lemma legacy_fails_throws (o : FetchOutcome) :
  analysis_fails (fun s => s) o ->
  exists e, LegacyClient.analyzeGoal_try o = Throw e.
Proof.
  intros H. unfold LegacyClient.analyzeGoal_try.
  destruct H as [|body Hb|body r Hp Hc|body r Hp Hc|body r s Hp Hc Hs];
    cbn [response_json].
  - now eexists.
  - rewrite (not_json_not_parsed body Hb). now eexists.
  - rewrite Hp. cbn [bind].
    destruct (JSON_eq_null r) as [->|Hn]; [now eexists|].
    rewrite (candidate_text_missing r Hn Hc). cbn [bind]. now eexists.
  - rewrite Hp. cbn [bind]. rewrite Hc. cbn [bind]. now eexists.
  - rewrite Hp. cbn [bind]. rewrite Hc. cbn [bind].
    unfold JSON_parse. cbn [String_ String_json].
    rewrite (not_json_not_parsed _ Hs). now eexists.
Qed.

(** The goal that is created with the fallback. *)
Lemma client_created (tempId : Z) (inputValue createdAt : string)
    (goals : list JsObject) :
  Client.drop_spaces inputValue <> ""%string ->
  (List.length goals < 100)%nat ->
  (forall g, In g goals -> strict_eq (get "id" g) (Some (JNum tempId)) = false) ->
  forall o e, Client.analyzeGoal_try o = Throw e ->
  Client.handleAddGoal tempId inputValue createdAt o goals
  = created_goal tempId inputValue createdAt "分析失敗" :: goals.
Proof.
  intros Hi Hl Hf o e He. unfold Client.handleAddGoal, Client.analyzeGoal.
  rewrite He.
  destruct (String.eqb_spec (Client.drop_spaces inputValue) ""); [contradiction|].
  destruct (Nat.leb_spec 100 (List.length goals)); [lia|].
  cbn [orb Client.patch map]. fold (Client.patch tempId Client.fallback goals).
  rewrite (client_patch_untouched tempId Client.fallback goals Hf).
  unfold Client.newGoal. cbn [get String.eqb Ascii.eqb Bool.eqb strict_eq].
  rewrite Z.eqb_refl. reflexivity.
Qed.

Lemma legacy_created (tempId : Z) (inputValue createdAt : string)
    (goals : list JsObject) :
  Client.drop_spaces inputValue <> ""%string ->
  (List.length goals < 100)%nat ->
  (forall g, In g goals -> strict_eq (get "id" g) (Some (JNum tempId)) = false) ->
  forall o e, LegacyClient.analyzeGoal_try o = Throw e ->
  LegacyClient.handleAddGoal tempId inputValue createdAt o goals
  = Ok (created_goal tempId inputValue createdAt "分析に失敗しました。" :: goals).
Proof.
  intros Hi Hl Hf o e He.
  unfold LegacyClient.handleAddGoal, LegacyClient.analyzeGoal.
  rewrite He.
  destruct (String.eqb_spec (Client.drop_spaces inputValue) ""); [contradiction|].
  destruct (Nat.leb_spec 100 (List.length goals)); [lia|].
  cbn [orb LegacyClient.patch].
  rewrite (patch_untouched tempId LegacyClient.fallback goals Hf).
  unfold LegacyClient.newGoal, Client.newGoal.
  cbn [get String.eqb Ascii.eqb Bool.eqb strict_eq].
  rewrite Z.eqb_refl. reflexivity.
Qed.


(** C8 at the failing input. The text of an analysis inside a code fence:
    the client with log-in strips the fence and returns the analysis, as for
    the bare text; the client without log-in hands the fenced text to
    [JSON.parse], which throws, and returns the fallback. *)
Theorem C8_fenced_text :
  Json.parse analysis_text
  = Some (JObj [("category", JStr "HABIT");
                ("subTasks", JArr [JStr "Shoes by the door"]);
                ("advice", JStr "Start small")])
  /\ Client.strip_close (Client.strip_open fenced_text) = analysis_text
  /\ Client.analyzeGoal (upstream fenced_text)
     = Client.analyzeGoal (upstream analysis_text)
  /\ Client.analyzeGoal (upstream analysis_text)
     = JObj [("category", JStr "HABIT");
             ("subTasks", JArr [JStr "Shoes by the door"]);
             ("advice", JStr "Start small")]
  /\ LegacyClient.analyzeGoal (upstream analysis_text)
     = JObj [("category", JStr "HABIT");
             ("subTasks", JArr [JStr "Shoes by the door"]);
             ("advice", JStr "Start small")]
  /\ LegacyClient.analyzeGoal (upstream fenced_text) = LegacyClient.fallback.
Proof. repeat split; vm_compute; reflexivity. Qed.

End AnalysisFacts.

(* ================================================================== *)
(** * Saving the goals *)

Module SaveFacts.
Import ClientCommon Client ScopedServer System Examples.

Lemma ticks_idle (n : nat) (st : AppState) (db : ServerState) :
  timer st = None ->
  ticks n (st, db) = (mkApp (goals st) (currentUser st) None, db)
  \/ ticks n (st, db) = (st, db).
Proof.
  intros Ht. destruct n as [|n]; [now right|]. left.
  revert st Ht. induction n as [|n IH]; intros st Ht.
  - simpl. unfold tick, timeout. simpl. now rewrite Ht.
  - change (ticks (S (S n)) (st, db)) with (ticks (S n) (tick (st, db))).
    unfold tick at 1, timeout. simpl fst. simpl snd. rewrite Ht. simpl deliver.
    rewrite IH by reflexivity. reflexivity.
Qed.

(** C9. The save effect sends nothing for an empty list, in both clients.
    So when the last goal is deleted the pending save is dropped and no new
    one is set: however long the client stays that way, the server receives
    no request, and its store (with the goals saved before) is as it was. *)
Theorem C9_empty_list_not_saved :
  (forall cu, Client.saveEffect cu [] = None)
  /\ LegacyClient.saveEffect [] = None
  /\ (forall (st : AppState) (id : value) (db : ServerState) (n : nat),
        goals (deleteGoal id st) = [] ->
        timer (deleteGoal id st) = None
        /\ snd (ticks n (deleteGoal id st, db)) = db
        /\ goals (fst (ticks n (deleteGoal id st, db))) = []).
Proof.
  split; [intros [u|]; reflexivity|]. split; [reflexivity|].
  intros st id db n Hg.
  assert (Ht : timer (deleteGoal id st) = None).
  { unfold deleteGoal, setGoals in *. simpl in *. rewrite Hg.
    now destruct (currentUser st). }
  split; [exact Ht|].
  destruct (ticks_idle n (deleteGoal id st) db Ht) as [-> | ->]; simpl; auto.
Qed.

End SaveFacts.


(* ================================================================== *)
(** * Code fences around the analysis *)

Module FenceFacts.
Import ClientCommon Client FenceSpec JsonFacts Examples.

Lemma visible_not_space (c : ascii) :
  visible c = true ->
  is_space1 c = false
  /\ (forall c2, is_space2 c c2 = false)
  /\ (forall c2 c3, is_space3 c c2 c3 = false)
  /\ (forall x, is_space2 x c = false)
  /\ (forall x y, is_space3 x c y = false)
  /\ (forall x y, is_space3 x y c = false).
Proof.
  unfold visible. intros H. apply andb_true_iff in H as [Hn Hs].
  apply negb_true_iff in Hs. apply N.ltb_lt in Hn.
  assert (Heq : forall k, (128 <= k)%N -> (N_of_ascii c =? k)%N = false)
    by (intros k Hk; apply N.eqb_neq; lia).
  assert (Hle : forall k, (128 <= k)%N -> (k <=? N_of_ascii c)%N = false)
    by (intros k Hk; apply N.leb_gt; lia).
  repeat split; try assumption; intros;
    unfold is_space2, is_space3; cbv zeta;
    rewrite ?Heq, ?Hle by lia;
    cbn [andb orb]; rewrite ?andb_false_r; reflexivity.
Qed.

Lemma drop_spaces_visible (c : ascii) (r : string) :
  visible c = true -> drop_spaces (String c r) = String c r.
Proof.
  intros H. destruct (visible_not_space c H) as (H1 & H2 & H3 & _).
  simpl. rewrite H1. destruct r as [|c2 r2]; [reflexivity|].
  rewrite H2. destruct r2 as [|c3 r3]; [reflexivity|]. now rewrite H3.
Qed.

(** White space is never dropped past a visible character. *)
Lemma drop_spaces_keeps (n : nat) :
  forall (a : string) (c : ascii) (r : string),
    (String.length a <= n)%nat -> visible c = true ->
    exists a', drop_spaces (a ++ String c r) = (a' ++ String c r)%string.
Proof.
  induction n as [|n IH]; intros a c r Hl Hc.
  - destruct a; [|simpl in Hl; lia]. exists ""%string.
    now apply drop_spaces_visible.
  - destruct (visible_not_space c Hc) as (H1 & H2 & H3 & H4 & H5 & H6).
    destruct a as [|x a1]; [exists ""%string; now apply drop_spaces_visible|].
    simpl in Hl. cbn [append drop_spaces].
    destruct (is_space1 x); [apply IH; [lia | assumption]|].
    destruct a1 as [|y a2]; cbn [append].
    + rewrite H4. destruct r as [|z r']; [now exists (String x "")|].
      rewrite H5. now exists (String x "").
    + simpl in Hl. destruct (is_space2 x y); [apply IH; [lia | assumption]|].
      destruct a2 as [|z a3]; cbn [append].
      * rewrite H6. now exists (String x (String y "")).
      * simpl in Hl. destruct (is_space3 x y z); [apply IH; [lia | assumption]|].
        now exists (String x (String y (String z a3))).
Qed.

(** White space before a visible character is dropped whole. *)
Lemma drop_spaces_blank (n : nat) :
  forall (ws : string) (c : ascii) (r : string),
    (String.length ws <= n)%nat -> blank ws -> visible c = true ->
    drop_spaces (ws ++ String c r) = String c r.
Proof.
  unfold blank.
  induction n as [|n IH]; intros ws c r Hl Hb Hc.
  - destruct ws; [|simpl in Hl; lia]. now apply drop_spaces_visible.
  - destruct (visible_not_space c Hc) as (H1 & H2 & H3 & H4 & H5 & H6).
    destruct ws as [|x w1]; [now apply drop_spaces_visible|].
    simpl in Hl. cbn [append drop_spaces] in *.
    destruct (is_space1 x); [apply IH; [lia | assumption..]|].
    destruct w1 as [|y w2]; [discriminate|]. cbn [append].
    simpl in Hl. destruct (is_space2 x y); [apply IH; [lia | assumption..]|].
    destruct w2 as [|z w3]; [discriminate|]. cbn [append].
    simpl in Hl. destruct (is_space3 x y z); [apply IH; [lia | assumption..]|].
    discriminate.
Qed.

Lemma ends_with_split (p : ascii -> bool) (t : string) :
  ends_with p t = true ->
  exists a c, t = (a ++ String c "")%string /\ p c = true.
Proof.
  induction t as [|x t IH]; simpl; [discriminate|].
  destruct t as [|y t'].
  - intros H. now exists ""%string, x.
  - intros H. destruct (IH H) as [a [c [E Hc]]].
    exists (String x a), c. simpl. now rewrite <- E.
Qed.

Lemma ends_with_tail (p : ascii -> bool) (x y : ascii) (t : string) :
  ends_with p (String x (String y t)) = ends_with p (String y t).
Proof. reflexivity. Qed.

Lemma length_not_fence (a : string) (c : ascii) (r : string) :
  (1 <= String.length r)%nat ->
  String.eqb (a ++ String c (r ++ "```")) "```" = false.
Proof.
  intros Hr. apply String.eqb_neq. intros E.
  apply (f_equal String.length) in E.
  rewrite length_append in E. simpl in E. rewrite length_append in E.
  simpl in E. lia.
Qed.

(** The closing fence, and the white space before it, is removed after a
    text that ends with a visible character. *)
Lemma strip_close_fence (t ws2 : string) :
  ends_with visible t = true -> blank ws2 ->
  strip_close (t ++ ws2 ++ "```") = t.
Proof.
  intros He Hb.
  assert (Hend : strip_close (ws2 ++ "```") = ""%string).
  { assert (E : drop_spaces (ws2 ++ "```") = "```"%string)
      by (apply (drop_spaces_blank (String.length ws2)); auto).
    destruct (ws2 ++ "```")%string; simpl; [reflexivity|].
    simpl in E. now rewrite E. }
  induction t as [|x t IH]; [discriminate|].
  assert (Hn : String.eqb (drop_spaces (String x t ++ ws2 ++ "```")) "```" = false).
  { destruct (ends_with_split visible _ He) as [a [c [E Hc]]].
    rewrite E, append_assoc. cbn [append].
    destruct (drop_spaces_keeps (String.length a) a c (ws2 ++ "```") (le_n _) Hc)
      as [a' ->].
    apply String.eqb_neq. intros E'.
    apply (f_equal String.length) in E'.
    rewrite length_append in E'. simpl in E'. rewrite length_append in E'.
    simpl in E'. lia. }
  cbn [append] in *. cbn [strip_close]. rewrite Hn. f_equal.
  destruct t as [|y t'].
  - exact Hend.
  - apply IH. exact He.
Qed.

(** A text that ends with a plain character has no closing fence. *)
Lemma strip_close_plain (t : string) :
  ends_with plain t = true -> strip_close t = t.
Proof.
  induction t as [|x t IH]; [discriminate|]. intros He.
  assert (Hn : String.eqb (drop_spaces (String x t)) "```" = false).
  { destruct (ends_with_split plain _ He) as [a [c [E Hc]]].
    unfold plain in Hc. apply andb_true_iff in Hc as [Hv Hq].
    rewrite E.
    destruct (drop_spaces_keeps (String.length a) a c "" (le_n _) Hv) as [a' ->].
    apply String.eqb_neq. intros E'.
    assert (Hlast : forall s, (s ++ String c "")%string = "```"%string -> c = "`"%char).
    { intros s. destruct s as [|s1 [|s2 [|s3 [|s4 s']]]]; simpl; intros [=]; auto. }
    apply Hlast in E'. subst c. discriminate Hq. }
  cbn [strip_close]. rewrite Hn. f_equal.
  destruct t as [|y t']; [reflexivity|]. apply IH. exact He.
Qed.

(** The client with log-in reads a fenced text as the bare text: for a
    text that starts and ends with a plain character (as the text of a JSON
    object, array, string or literal does), whatever white space stands
    between the fences and the text. *)
Theorem fence_stripped (ws1 t ws2 : string) :
  blank ws1 -> blank ws2 ->
  starts_plain t = true -> ends_with plain t = true ->
  strip_close (strip_open (fence ws1 t ws2)) = t
  /\ strip_close (strip_open t) = t.
Proof.
  intros H1 H2 Hs He.
  destruct t as [|c t']; [discriminate|]. simpl in Hs.
  pose proof Hs as Hp. unfold plain in Hp. apply andb_true_iff in Hp as [Hv Hq].
  assert (Hev : ends_with visible (String c t') = true).
  { destruct (ends_with_split plain _ He) as [a [c' [E Hc']]].
    rewrite E. clear -Hc'. unfold plain in Hc'.
    apply andb_true_iff in Hc' as [Hc' _].
    induction a as [|x a IH]; simpl; [exact Hc'|].
    destruct a; simpl in *; exact IH. }
  split.
  - unfold fence, strip_open. cbn [append Json.expect Ascii.eqb Bool.eqb].
    cbn [append].
    rewrite (drop_spaces_blank (String.length ws1)) by auto.
    now apply (strip_close_fence (String c t')).
  - unfold strip_open.
    replace (Json.expect "```json" (String c t')) with (@None string).
    + now apply strip_close_plain.
    + cbn [Json.expect]. apply negb_true_iff in Hq.
      now rewrite Ascii.eqb_sym, Hq.
Qed.

Lemma analyzeGoal_upstream (text : string) :
  text <> ""%string ->
  Client.analyzeGoal (upstream text)
  = match Json.parse (strip_close (strip_open text)) with
    | Some content => content
    | None => Client.fallback
    end.
Proof.
  intros Hn. unfold Client.analyzeGoal, Client.analyzeGoal_try, upstream,
    response_json.
  rewrite parse_stringify by reflexivity.
  cbn [bind]. change (candidate_text _) with (@Ok value (Some (JStr text))).
  cbn [bind truthy].
  destruct (String.eqb_spec text ""); [contradiction|]. cbn [negb].
  unfold JSON_parse. cbn [String_ String_json].
  now destruct (Json.parse _).
Qed.

(** In the client with log-in a fenced analysis and the bare one give the
    same result: what [JSON.parse] makes of the bare text, or the fallback
    when it is not JSON. *)
Theorem fenced_analysis (ws1 t ws2 : string) :
  blank ws1 -> blank ws2 ->
  starts_plain t = true -> ends_with plain t = true ->
  Client.analyzeGoal (upstream (fence ws1 t ws2))
  = Client.analyzeGoal (upstream t)
  /\ Client.analyzeGoal (upstream t)
     = match Json.parse t with
       | Some content => content
       | None => Client.fallback
       end.
Proof.
  intros H1 H2 Hs He.
  destruct (fence_stripped ws1 t ws2 H1 H2 Hs He) as [Ef Et].
  assert (Ht : t <> ""%string) by (destruct t; discriminate).
  assert (Hf : fence ws1 t ws2 <> ""%string) by (unfold fence; discriminate).
  rewrite (analyzeGoal_upstream _ Hf), (analyzeGoal_upstream _ Ht).
  now rewrite Ef, Et.
Qed.

End FenceFacts.
(* ================================================================== *)
(** * Accounts *)

Module AuthFacts.
Import ClientCommon Db ScopedServer AuthServer AuthSpec Examples.

Section WithScrypt.

Variable scrypt : string -> string -> string.

Lemma find_user_new (d : Database) (r : UserRow) :
  (forall x, In x (users_table d) -> user_username x <> user_username r) ->
  find_user (mkDb (type d) (goals_table d) (users_table d ++ [r])%list)
    (user_username r) = Some r.
Proof.
  intros Hf. unfold find_user. simpl users_table.
  rewrite filter_app. simpl. rewrite String.eqb_refl.
  replace (filter (fun x => String.eqb (user_username x) (user_username r))
             (users_table d)) with (@nil UserRow); [reflexivity|].
  symmetry. induction (users_table d) as [|x t IH]; simpl; [reflexivity|].
  destruct (String.eqb_spec (user_username x) (user_username r)) as [E|E].
  - exfalso. apply (Hf x); [now left | exact E].
  - apply IH. intros y Hy. apply Hf. now right.
Qed.

Lemma insert_user_fresh (r : UserRow) (t : list UserRow) :
  (forall x, In x t -> user_username x <> user_username r /\ user_id x <> user_id r) ->
  insert_user r t = Some (t ++ [r])%list.
Proof.
  intros Hf. unfold insert_user.
  replace (existsb _ t) with false; [reflexivity|].
  symmetry. induction t as [|x t IH]; simpl; [reflexivity|].
  destruct (Hf x ltac:(now left)) as [Hu Hi].
  destruct (String.eqb_spec (user_id x) (user_id r)); [contradiction|].
  destruct (String.eqb_spec (user_username x) (user_username r)); [contradiction|].
  simpl. apply IH. intros y Hy. apply Hf. now right.
Qed.

Lemma find_user_name (d : Database) (u : string) (x : UserRow) :
  find_user d u = Some x -> user_username x = u.
Proof.
  unfold find_user. intros H.
  assert (Hin : In x (filter (fun x => String.eqb (user_username x) u)
                        (users_table d))).
  { destruct (filter _ (users_table d)) as [|y [|z l]]; [discriminate| |].
    - injection H as <-. now left.
    - destruct (type d); [discriminate|]. injection H as <-. now left. }
  apply filter_In in Hin as [_ E]. now apply String.eqb_eq.
Qed.

(** What [/api/login] answers is the user name that was asked for, or a
    fixed error. *)
Lemma login_answer (username password : option string) (db : ServerState) :
  login_answers username (login scrypt username password db).
Proof.
  unfold login, login_answers.
  destruct (absent username || absent password); [tauto|].
  destruct db as [d|]; [|tauto].
  destruct (find_user d (user_name username)) as [user|] eqn:Ef; [|tauto].
  destruct (verifyPassword scrypt _ _ _) as [[|]|]; [|tauto..].
  left. now rewrite (find_user_name d _ user Ef).
Qed.

(** Both handlers refuse a request without a user name or a password. *)
Lemma required (salt id now : string) (username password : option string)
    (db : ServerState) :
  absent username = true \/ absent password = true ->
  register scrypt salt id now username password db
  = (Sent 400 (error_body "Username and password required"), db)
  /\ login scrypt username password db
     = Sent 400 (error_body "Username and password required").
Proof.
  intros H. unfold register, login.
  assert (E : absent username || absent password = true)
    by (destruct H as [-> | ->]; [reflexivity | apply orb_true_r]).
  now rewrite E.
Qed.

(** C5 (amended). For a user name [u] and a password [p] that are not
    empty, when no account has the name [u] (nor the id drawn for the new
    one), [register] succeeds, and then [login] with [u] and [p] succeeds.
    With another password [s] it succeeds when scrypt derives, with the
    stored salt, the key it derived from [p]; when the key differs it is
    refused with status 401 and [Invalid credentials] (the keys of scrypt
    have one length; were the lengths to differ the comparison would throw
    and the answer be 500). A request without a user name or without a
    password (absent or empty) is refused by both handlers with status 400,
    and [register] then stores nothing. Whatever it is asked, [login]
    answers success with the user name of the request or one of three fixed
    errors: nothing else of the stored row, so never the stored hash. *)
Theorem C5_register_then_login (d : Database) (u p salt id now : string) :
  u <> "" -> p <> "" ->
  (forall x, In x (users_table d) -> user_username x <> u /\ user_id x <> id) ->
  exists d',
    register scrypt salt id now (Some u) (Some p) (Some d)
    = (ok (registered u), Some d')
    /\ login scrypt (Some u) (Some p) (Some d') = ok (registered u)
    /\ (forall s, s <> "" -> scrypt s salt = scrypt p salt ->
          login scrypt (Some u) (Some s) (Some d') = ok (registered u))
    /\ (forall s, s <> "" -> scrypt s salt <> scrypt p salt ->
          login scrypt (Some u) (Some s) (Some d')
          = refused (scrypt p salt) (scrypt s salt))
    /\ (forall p2 : option string,
          login scrypt (Some u) p2 (Some d') = ok (registered u)
          <-> exists s, p2 = Some s /\ s <> ""
                        /\ scrypt s salt = scrypt p salt)
    /\ (forall salt' id' now' username password db,
          absent username = true \/ absent password = true ->
          register scrypt salt' id' now' username password db
          = (Sent 400 (error_body "Username and password required"), db)
          /\ login scrypt username password db
             = Sent 400 (error_body "Username and password required"))
    /\ (forall username password db,
          login_answers username (login scrypt username password db)).
Proof.
  intros Hu Hp Hf.
  set (r := mkUser id u (scrypt p salt) salt now).
  set (d' := mkDb (type d) (goals_table d) (users_table d ++ [r])%list).
  assert (Hfind : find_user d' u = Some r).
  { apply (find_user_new d r). intros x Hx. now apply Hf. }
  assert (Hlogin : forall s, s <> "" ->
            login scrypt (Some u) (Some s) (Some d')
            = if (String.length (scrypt p salt) =? String.length (scrypt s salt))%nat
              then if String.eqb (scrypt p salt) (scrypt s salt)
                   then ok (registered u) else invalid_credentials
              else Sent 500 (error_body "Login failed")).
  { intros s Hs. unfold login. simpl absent.
    destruct (String.eqb_spec u ""); [contradiction|].
    destruct (String.eqb_spec s ""); [contradiction|].
    simpl orb. cbv iota. simpl user_name. rewrite Hfind.
    unfold verifyPassword. simpl password_hash. simpl Db.salt.
    destruct (_ =? _)%nat; [|reflexivity].
    destruct (String.eqb _ _); reflexivity. }
  exists d'. split; [|split; [|split; [|split; [|split; [|split]]]]].
  - unfold register. simpl absent.
    destruct (String.eqb_spec u ""); [contradiction|].
    destruct (String.eqb_spec p ""); [contradiction|].
    simpl orb. cbv iota. unfold hashPassword. simpl user_name.
    rewrite (insert_user_fresh r) by (intros x Hx; now apply Hf).
    reflexivity.
  - rewrite (Hlogin p Hp), Nat.eqb_refl, String.eqb_refl. reflexivity.
  - intros s Hs E. rewrite (Hlogin s Hs), E, Nat.eqb_refl, String.eqb_refl.
    reflexivity.
  - intros s Hs E. rewrite (Hlogin s Hs). unfold refused.
    destruct (_ =? _)%nat; [|reflexivity].
    destruct (String.eqb_spec (scrypt p salt) (scrypt s salt));
      [congruence | reflexivity].
  - intros p2. split.
    + intros H. destruct p2 as [s|].
      * destruct (String.eqb_spec s "") as [->|Hs].
        -- unfold login in H. simpl in H. rewrite orb_true_r in H. discriminate.
        -- exists s. split; [reflexivity|]. split; [assumption|].
           rewrite (Hlogin s Hs) in H.
           destruct (_ =? _)%nat; [|discriminate].
           destruct (String.eqb_spec (scrypt p salt) (scrypt s salt));
             [congruence | discriminate].
      * unfold login in H. simpl in H. rewrite orb_true_r in H. discriminate.
    + intros [s [-> [Hs E]]]. rewrite (Hlogin s Hs), E, Nat.eqb_refl, String.eqb_refl.
      reflexivity.
  - intros. now apply required.
  - intros. apply login_answer.
Qed.

End WithScrypt.

Lemma C5_register_then_login_witness :
  exists d',
    register demo_kdf "5f1d" "a1b2c3d4" "2026-01-01T10:00:00.000Z"
      (Some "alice") (Some "correct horse") (Some (db_of_bob sqlite))
    = (ok (registered "alice"), Some d')
    /\ login demo_kdf (Some "alice") (Some "correct horse") (Some d')
       = ok (registered "alice")
    /\ (forall s, s <> "" -> demo_kdf s "5f1d" = demo_kdf "correct horse" "5f1d" ->
          login demo_kdf (Some "alice") (Some s) (Some d')
          = ok (registered "alice"))
    /\ (forall s, s <> "" -> demo_kdf s "5f1d" <> demo_kdf "correct horse" "5f1d" ->
          login demo_kdf (Some "alice") (Some s) (Some d')
          = refused (demo_kdf "correct horse" "5f1d") (demo_kdf s "5f1d"))
    /\ (forall p2 : option string,
          login demo_kdf (Some "alice") p2 (Some d') = ok (registered "alice")
          <-> exists s, p2 = Some s /\ s <> ""
                        /\ demo_kdf s "5f1d" = demo_kdf "correct horse" "5f1d")
    /\ (forall salt' id' now' username password db,
          absent username = true \/ absent password = true ->
          register demo_kdf salt' id' now' username password db
          = (Sent 400 (error_body "Username and password required"), db)
          /\ login demo_kdf username password db
             = Sent 400 (error_body "Username and password required"))
    /\ (forall username password db,
          login_answers username (login demo_kdf username password db)).
Proof.
  apply (C5_register_then_login demo_kdf (db_of_bob sqlite) "alice"
           "correct horse" "5f1d" "a1b2c3d4" "2026-01-01T10:00:00.000Z").
  - discriminate.
  - discriminate.
  - intros x [].
Defined.

(** C5 as stated fails for the empty password: [register] refuses it
    (status 400, nothing stored), and so does [login]. *)
Lemma C5_counterexample :
  register demo_kdf "5f1d" "a1b2c3d4" "2026-01-01T10:00:00.000Z"
    (Some "alice") (Some "") (Some (db_of_bob sqlite))
  = (Sent 400 (error_body "Username and password required"),
     Some (db_of_bob sqlite))
  /\ login demo_kdf (Some "alice") (Some "") (Some (db_of_bob sqlite))
     = Sent 400 (error_body "Username and password required").
Proof. split; reflexivity. Qed.

End AuthFacts.
(* ================================================================== *)
(** * More on the goal store and the accounts *)

Module ServerMore.
Import ClientCommon Db ScopedServer AuthServer StoreSpec MoreSpec StoreFacts
  RoundTrip AuthFacts Examples.
Local Open Scope list_scope.

Lemma delete_of_idem (u : string) (t : list GoalRow) :
  delete_of u (delete_of u t) = delete_of u t.
Proof.
  unfold delete_of. induction t as [|r t IH]; simpl; [reflexivity|].
  destruct (String.eqb (row_username r) u) eqn:E; simpl; [exact IH|].
  now rewrite E, IH.
Qed.

Lemma delete_of_own (u : string) (rows : list GoalRow) :
  Forall (fun r => row_username r = u) rows -> delete_of u rows = [].
Proof.
  induction 1 as [|r rows Hr _ IH]; simpl; [reflexivity|].
  now rewrite Hr, String.eqb_refl.
Qed.

Lemma delete_of_app (u : string) (a b : list GoalRow) :
  delete_of u (a ++ b) = delete_of u a ++ delete_of u b.
Proof. apply filter_app. Qed.

(** What SQLite has stored after the queued [INSERT]s: the table, then
    those of the rows that did not break the primary key. *)
Lemma sqlite_insert_each_prefix (rows t : list GoalRow) :
  exists rows', sqlite_insert_each rows t = t ++ rows' /\ incl rows' rows.
Proof.
  revert t. induction rows as [|r rows IH]; intros t; simpl.
  - exists []. split; [now rewrite List.app_nil_r | apply incl_refl].
  - destruct (has_id (row_id r) t).
    + destruct (IH t) as [rows' [E Hi]].
      exists rows'. split; [exact E | intros x Hx; right; now apply Hi].
    + destruct (IH (t ++ [r])) as [rows' [E Hi]].
      exists (r :: rows'). split.
      * now rewrite E, <- List.app_assoc.
      * intros x [<-|Hx]; [now left | right; now apply Hi].
Qed.

(** After a request for [u], the rows of the other users are the rows that
    were there, in their order: whatever was stored for [u] goes with the
    next [DELETE]. *)
Lemma postGoals_others (username : option string) (goals : value) (d : Database) :
  exists t,
    snd (postGoals username goals (Some d)) = Some (with_goals d t)
    /\ delete_of (user_name username) t
       = delete_of (user_name username) (goals_table d).
Proof.
  unfold postGoals. destruct (absent username).
  - exists (goals_table d). split; [now destruct d | reflexivity].
  - set (u := user_name username).
    destruct (type d).
    + destruct (map_result (supabase_row u) (goalList goals)) as [rows|] eqn:Em.
      * destruct rows as [|r rows].
        -- eexists. split; [reflexivity | apply delete_of_idem].
        -- unfold insert_all. destruct (nodupb _ && forallb _ _).
           ++ eexists. split; [reflexivity|].
              rewrite delete_of_app, delete_of_idem.
              rewrite (delete_of_own u (r :: rows))
                by (eapply supabase_rows_owner; eassumption).
              apply List.app_nil_r.
           ++ eexists. split; [reflexivity | apply delete_of_idem].
      * eexists. split; [reflexivity | apply delete_of_idem].
    + pose proof (queued_owner u (goalList goals)) as Ho.
      destruct (queued u (goalList goals)) as [rows thrown]. simpl in Ho.
      destruct (sqlite_insert_each_prefix rows (delete_of u (goals_table d)))
        as [rows' [E Hi]].
      eexists. split; [reflexivity|].
      rewrite E, delete_of_app, delete_of_idem.
      rewrite (delete_of_own u rows'); [apply List.app_nil_r|].
      rewrite Forall_forall in *. intros x Hx. apply Ho. now apply Hi.
Qed.

(** The request for [u] looks at the table only through the rows of the
    other users. *)
Lemma postGoals_reads_others (username : option string) (goals : value)
    (ty : DbType) (t1 t2 : list GoalRow) (users : list UserRow) :
  absent username = false ->
  delete_of (user_name username) t1 = delete_of (user_name username) t2 ->
  postGoals username goals (Some (mkDb ty t1 users))
  = postGoals username goals (Some (mkDb ty t2 users)).
Proof.
  intros Ha E. unfold postGoals. rewrite Ha. cbn [goals_table type with_goals users_table].
  rewrite E. reflexivity.
Qed.

(** X1. The last save wins, as long as the process is there: when the
    first of two requests to [POST /api/goals] of one user does not end
    the process -- on Supabase it never does, also when it fails half way,
    after its delete; on SQLite it does not when none of its [INSERT]s
    breaks the primary key -- the second one answers, and leaves the store,
    as if the first had not been made, whatever the two bodies are. *)
Theorem last_save_wins (username : option string) (goals1 goals2 : value)
    (db : ServerState) :
  ends_process username goals1 db = false ->
  postGoals username goals2 (snd (postGoals username goals1 db))
  = postGoals username goals2 db.
Proof.
  intros _. destruct (absent username) eqn:Ha.
  - unfold postGoals. rewrite Ha. reflexivity.
  - destruct db as [d|].
    + destruct (postGoals_others username goals1 d) as [t [-> E]].
      unfold with_goals.
      rewrite (postGoals_reads_others username goals2 (type d) t (goals_table d))
        by assumption.
      now destruct d.
    + unfold postGoals. rewrite Ha. reflexivity.
Qed.

(** On Supabase alice sends the same goal twice: the insert fails after the
    delete; her next save is as if that one had not been made. *)
Lemma last_save_wins_witness :
  fst (postGoals (Some "alice") (Some (JArr [JObj goal_run; JObj goal_run]))
         (Some (db_of_bob supabase)))
  = Sent 500 (error_body msg_duplicate_key)
  /\ postGoals (Some "alice") (Some (JArr [JObj goal_read]))
       (snd (postGoals (Some "alice") (Some (JArr [JObj goal_run; JObj goal_run]))
               (Some (db_of_bob supabase))))
     = postGoals (Some "alice") (Some (JArr [JObj goal_read]))
         (Some (db_of_bob supabase)).
Proof.
  split; [reflexivity|].
  apply (last_save_wins (Some "alice") (Some (JArr [JObj goal_run; JObj goal_run]))
           (Some (JArr [JObj goal_read])) (Some (db_of_bob supabase))).
  reflexivity.
Defined.

Lemma insert_all_clash (u : string) (gs : list JsObject) (t : list GoalRow) :
  id_clash u gs t ->
  insert_all (map (stored_row supabase u) gs) (delete_of u t) = None.
Proof.
  intros H. unfold insert_all.
  assert (Hids : map row_id (map (stored_row supabase u) gs) = map stored_id gs).
  { rewrite map_map. apply map_ext. intros g. reflexivity. }
  rewrite Hids.
  destruct (nodupb (map stored_id gs)) eqn:En; [|reflexivity].
  destruct H as [H | [g [r [Hg [Hr [Hu Hid]]]]]].
  - exfalso. apply H. now apply JsonFacts.nodupb_NoDup.
  - simpl. destruct (forallb _ _) eqn:Ef; [|reflexivity].
    rewrite forallb_forall in Ef.
    specialize (Ef (stored_row supabase u g) (in_map _ _ _ Hg)).
    apply negb_true_iff in Ef. rewrite has_id_false in Ef.
    exfalso. apply (Ef r); [|exact Hid].
    unfold delete_of. apply filter_In. split; [exact Hr|].
    apply negb_true_iff. now apply String.eqb_neq.
Qed.

(** X2. On Supabase the delete of a save is not undone when its insert
    fails: when two goals of the list have the same [String(id)], or one
    has the id of a goal of another user (the id is the primary key of the
    one table), the answer is an error of status 500 and the goals that
    were stored for the user are gone -- the next [GET] answers the empty
    list. The rows of the other users stay. *)
Theorem failed_insert_loses_goals (d : Database) (u : string) (gs : list JsObject) :
  type d = supabase -> u <> "" -> gs <> [] ->
  id_clash u gs (goals_table d) ->
  let after := postGoals (Some u) (Some (JArr (map JObj gs))) (Some d) in
  (exists msg, fst after = Sent 500 (error_body msg))
  /\ snd after = Some (with_goals d (delete_of u (goals_table d)))
  /\ getGoals (Some u) (snd after) = ok (JArr [])
  /\ forall u2, u2 <> u -> getGoals (Some u2) (snd after) = getGoals (Some u2) (Some d).
Proof.
  intros Ht Hu Hgs Hc after.
  assert (E : after = (Sent 500 (error_body msg_duplicate_key),
                       Some (with_goals d (delete_of u (goals_table d))))).
  { subst after. unfold postGoals. simpl absent.
    destruct (String.eqb_spec u ""); [contradiction|].
    cbn [goalList user_name]. rewrite Ht, supabase_rows.
    rewrite (insert_all_clash u gs (goals_table d) Hc).
    destruct gs; [contradiction | reflexivity]. }
  rewrite E. cbn [fst snd]. split; [now eexists|]. repeat split.
  - unfold getGoals. simpl absent.
    destruct (String.eqb_spec u ""); [contradiction|].
    cbn [user_name with_goals goals_table type]. rewrite rows_of_delete_same, Ht.
    reflexivity.
  - intros u2 Hne. unfold getGoals. destruct (absent (Some u2)); [reflexivity|].
    cbn [user_name with_goals goals_table type].
    now rewrite rows_of_delete_other.
Qed.

(** Two goals with the same id, sent by alice who has a goal stored. *)
Lemma failed_insert_loses_goals_witness :
  let d := mkDb supabase [stored_row supabase "alice" goal_read;
                          stored_row supabase "bob" goal_of_bob] [] in
  let after := postGoals (Some "alice")
                 (Some (JArr (map JObj [goal_run; goal_run]))) (Some d) in
  (exists msg, fst after = Sent 500 (error_body msg))
  /\ snd after = Some (with_goals d (delete_of "alice" (goals_table d)))
  /\ getGoals (Some "alice") (snd after) = ok (JArr [])
  /\ forall u2, u2 <> "alice" ->
       getGoals (Some u2) (snd after) = getGoals (Some u2) (Some d).
Proof.
  apply (failed_insert_loses_goals
           (mkDb supabase [stored_row supabase "alice" goal_read;
                           stored_row supabase "bob" goal_of_bob] [])
           "alice" [goal_run; goal_run]).
  - reflexivity.
  - discriminate.
  - discriminate.
  - left. intros H. inversion H as [|? ? Hn _]. apply Hn. now left.
Defined.

Section Accounts.

Variable scrypt : string -> string -> string.

Lemma find_user_other (ty : DbType) (rows : list GoalRow) (t : list UserRow)
    (r : UserRow) (u : string) :
  user_username r <> u ->
  find_user (mkDb ty rows (t ++ [r])) u = find_user (mkDb ty rows t) u.
Proof.
  intros Hne. unfold find_user. cbn [users_table type].
  rewrite filter_app. simpl.
  destruct (String.eqb_spec (user_username r) u); [contradiction|].
  now rewrite List.app_nil_r.
Qed.

Lemma login_reads (username password : option string) (d1 d2 : Database) :
  type d1 = type d2 -> users_table d1 = users_table d2 ->
  login scrypt username password (Some d1) = login scrypt username password (Some d2).
Proof.
  intros Ht Hu. unfold login, find_user. now rewrite Ht, Hu.
Qed.

(** X3. Goals and accounts do not meet. The two requests on goals answer,
    and store, the same whatever accounts exist: no account is needed for
    reading or replacing the goals stored under a user name. Registering
    changes no answer of [GET /api/goals], and saving goals changes no
    answer of [/api/login]. *)
Theorem goals_ignore_accounts (username : option string) (goals : value) :
  (forall ty rows users1 users2,
     getGoals username (Some (mkDb ty rows users1))
     = getGoals username (Some (mkDb ty rows users2))
     /\ fst (postGoals username goals (Some (mkDb ty rows users1)))
        = fst (postGoals username goals (Some (mkDb ty rows users2)))
     /\ option_map goals_table (snd (postGoals username goals (Some (mkDb ty rows users1))))
        = option_map goals_table (snd (postGoals username goals (Some (mkDb ty rows users2)))))
  /\ (forall salt id now name password db,
        getGoals username (snd (register scrypt salt id now name password db))
        = getGoals username db)
  /\ (forall name password db,
        login scrypt name password (snd (postGoals username goals db))
        = login scrypt name password db).
Proof.
  split; [|split].
  - intros ty rows users1 users2. split; [reflexivity|].
    unfold postGoals. destruct (absent username); [split; reflexivity|].
    cbn [type goals_table]. destruct ty.
    + destruct (map_result _ _) as [[|r l]|]; [split; reflexivity| |split; reflexivity].
      destruct (insert_all _ _); split; reflexivity.
    + destruct (queued _ _). split; reflexivity.
  - intros salt id now name password db. unfold register.
    destruct (absent name || absent password); [reflexivity|].
    unfold hashPassword. destruct db as [d|]; [|reflexivity].
    destruct (insert_user _ _); reflexivity.
  - intros name password db. destruct db as [d|].
    + destruct (postGoals_others username goals d) as [t [-> _]].
      apply login_reads; reflexivity.
    + replace (snd (postGoals username goals None)) with (@None Database);
        [reflexivity|].
      symmetry. now apply postGoals_initialised.
Qed.

Lemma insert_user_taken (r x : UserRow) (t : list UserRow) :
  In x t -> user_username x = user_username r -> insert_user r t = None.
Proof.
  intros Hin E. unfold insert_user.
  replace (existsb _ t) with true; [reflexivity|].
  symmetry. apply existsb_exists. exists x. split; [exact Hin|].
  rewrite E, String.eqb_refl. apply orb_true_r.
Qed.

(** X4. An account is never overwritten. Once [u] is registered with the
    password [p], a second registration of [u], with whatever password,
    salt and id, is refused with status 500 and changes nothing, and [p]
    still logs in. *)
Theorem registered_name_is_kept (d : Database) (u p p2 salt id now salt2 id2 now2 : string) :
  u <> "" -> p <> "" -> p2 <> "" ->
  (forall x, In x (users_table d) -> user_username x <> u /\ user_id x <> id) ->
  let db1 := snd (register scrypt salt id now (Some u) (Some p) (Some d)) in
  register scrypt salt2 id2 now2 (Some u) (Some p2) db1
  = (Sent 500 (error_body "Registration failed or username exists"), db1)
  /\ login scrypt (Some u) (Some p) db1 = ok (registered u).
Proof.
  intros Hu Hp Hp2 Hf db1.
  set (r := mkUser id u (scrypt p salt) salt now).
  assert (E1 : db1 = Some (mkDb (type d) (goals_table d) (users_table d ++ [r]))).
  { subst db1. unfold register. simpl absent.
    destruct (String.eqb_spec u ""); [contradiction|].
    destruct (String.eqb_spec p ""); [contradiction|].
    simpl orb. cbv iota. unfold hashPassword. simpl user_name.
    rewrite (insert_user_fresh r) by (intros x Hx; now apply Hf).
    reflexivity. }
  rewrite E1. split.
  - unfold register. simpl absent.
    destruct (String.eqb_spec u ""); [contradiction|].
    destruct (String.eqb_spec p2 ""); [contradiction|].
    simpl orb. cbv iota. unfold hashPassword. simpl user_name.
    cbn [users_table].
    rewrite (insert_user_taken _ r); [reflexivity | | reflexivity].
    apply in_or_app. right. now left.
  - unfold login. simpl absent.
    destruct (String.eqb_spec u ""); [contradiction|].
    destruct (String.eqb_spec p ""); [contradiction|].
    simpl orb. cbv iota. simpl user_name.
    assert (Hfind : find_user (mkDb (type d) (goals_table d) (users_table d ++ [r])) u
                    = Some r).
    { apply (find_user_new d r). intros x Hx. now apply Hf. }
    rewrite Hfind. unfold verifyPassword. simpl password_hash. simpl Db.salt.
    now rewrite Nat.eqb_refl, String.eqb_refl.
Qed.

(** X5. Registering one name leaves the log-in of every other name as it
    was: the answer of [/api/login] for [name] is the same before and after
    a registration under another name, whether that registration succeeds
    or not. *)
Theorem register_leaves_others (salt id now : string)
    (username password name pw : option string) (db : ServerState) :
  user_name username <> user_name name ->
  login scrypt name pw (snd (register scrypt salt id now username password db))
  = login scrypt name pw db.
Proof.
  intros Hne. unfold register.
  destruct (absent username || absent password); [reflexivity|].
  unfold hashPassword. destruct db as [d|]; [|reflexivity].
  unfold insert_user. destruct (existsb _ _); [reflexivity|].
  cbn [snd]. unfold login.
  destruct (absent name || absent pw); [reflexivity|].
  rewrite find_user_other by exact Hne.
  now destruct d.
Qed.

End Accounts.

Lemma registered_name_is_kept_witness :
  let db1 := snd (register demo_kdf "5f1d" "a1b2c3d4" "2026-01-01T10:00:00.000Z"
                    (Some "alice") (Some "correct horse")
                    (Some (db_of_bob sqlite))) in
  register demo_kdf "77aa" "e5f6a7b8" "2026-01-02T10:00:00.000Z"
    (Some "alice") (Some "another") db1
  = (Sent 500 (error_body "Registration failed or username exists"), db1)
  /\ login demo_kdf (Some "alice") (Some "correct horse") db1
     = ok (registered "alice").
Proof.
  apply (registered_name_is_kept demo_kdf (db_of_bob sqlite) "alice"
           "correct horse" "another" "5f1d" "a1b2c3d4"
           "2026-01-01T10:00:00.000Z" "77aa" "e5f6a7b8"
           "2026-01-02T10:00:00.000Z").
  - discriminate.
  - discriminate.
  - discriminate.
  - intros x [].
Defined.

Lemma register_leaves_others_witness :
  login demo_kdf (Some "alice") (Some "correct horse")
    (snd (register demo_kdf "77aa" "e5f6a7b8" "2026-01-02T10:00:00.000Z"
            (Some "carol") (Some "tr0ub4dor")
            (snd (register demo_kdf "5f1d" "a1b2c3d4" "2026-01-01T10:00:00.000Z"
                    (Some "alice") (Some "correct horse")
                    (Some (db_of_bob sqlite))))))
  = login demo_kdf (Some "alice") (Some "correct horse")
      (snd (register demo_kdf "5f1d" "a1b2c3d4" "2026-01-01T10:00:00.000Z"
              (Some "alice") (Some "correct horse")
              (Some (db_of_bob sqlite)))).
Proof.
  apply (register_leaves_others demo_kdf "77aa" "e5f6a7b8"
           "2026-01-02T10:00:00.000Z" (Some "carol") (Some "tr0ub4dor")
           (Some "alice") (Some "correct horse")).
  discriminate.
Defined.

End ServerMore.

(* ================================================================== *)
(** * The requests to the model service *)

Module ProxyFacts.
Import Json ClientCommon Db ScopedServer Proxy MoreSpec JsonFacts Examples.

Lemma keys_set (k : string) (v : JSON) (o : JsObject) :
  keys (set k v o)
  = if existsb (String.eqb k) (keys o) then keys o else (keys o ++ [k])%list.
Proof.
  induction o as [|[k' v'] o IH]; simpl; [reflexivity|].
  destruct (String.eqb k k'); simpl; [reflexivity|].
  unfold keys in *. rewrite IH. now destruct (existsb _ _).
Qed.

Lemma set_wf (k : string) (v : JSON) (o : JsObject) :
  wf v = true -> wf (JObj o) = true -> wf (JObj (set k v o)) = true.
Proof.
  intros Hv Ho. simpl in *. apply andb_true_iff in Ho as [Hk Hs].
  apply andb_true_iff. split.
  - fold (keys (set k v o)). rewrite keys_set. fold (keys o) in Hk.
    destruct (existsb (String.eqb k) (keys o)) eqn:E; [exact Hk|].
    apply nodupb_NoDup. apply nodupb_NoDup in Hk.
    apply NoDup_app; [exact Hk | repeat constructor; intros [] |].
    intros x Hx [<-|[]].
    apply existsb_eqb_In in Hx. congruence.
  - clear Hk. induction o as [|[k' v'] o IH]; simpl in *.
    + now rewrite Hv.
    + apply andb_true_iff in Hs as [H1 H2].
      destruct (String.eqb k k'); simpl; [now rewrite Hv | now rewrite H1, IH].
Qed.

Lemma spread_wf (p o : JsObject) :
  forallb (fun kv => wf (snd kv)) p = true ->
  wf (JObj o) = true -> wf (JObj (spread o p)) = true.
Proof.
  revert o. unfold spread. induction p as [|[k v] p IH]; simpl; intros o Hp Ho.
  - exact Ho.
  - apply andb_true_iff in Hp as [Hv Hp]. apply IH; [exact Hp|].
    now apply set_wf.
Qed.

Lemma parse_number_wf (s : string) (v : JSON) (r : string) :
  parse_number s = Some (v, r) -> wf v = true.
Proof.
  unfold parse_number.
  destruct (match s with String "-" r0 => (true, r0) | _ => (false, s) end) as [neg s1].
  destruct (span_digits s1) as [d r0].
  destruct (_ && _); [|discriminate].
  destruct (NilZero.uint_of_string d); [|discriminate].
  now intros [= <- _].
Qed.

Lemma parse_wf_fuel (fuel : nat) :
  (forall s v r, parse_value fuel s = Some (v, r) -> wf v = true)
  /\ (forall s l r, parse_elements fuel s = Some (l, r) -> forallb wf l = true)
  /\ (forall s o r, parse_members fuel s = Some (o, r) ->
        forallb (fun kv => wf (snd kv)) o = true).
Proof.
  induction fuel as [|fuel [IHv [IHe IHm]]]; [repeat split; discriminate|].
  split; [|split].
  - intros s v r. cbn [parse_value].
    destruct (skip_ws s) as [|c r0]; [discriminate|].
    destruct (Ascii.eqb c "n").
    { destruct (expect _ _); [|discriminate]. now intros [= <- _]. }
    destruct (Ascii.eqb c "t").
    { destruct (expect _ _); [|discriminate]. now intros [= <- _]. }
    destruct (Ascii.eqb c "f").
    { destruct (expect _ _); [|discriminate]. now intros [= <- _]. }
    destruct (Ascii.eqb c "034").
    { destruct (parse_string_body _) as [[str r']|]; [|discriminate].
      now intros [= <- _]. }
    destruct (Ascii.eqb c "[").
    { destruct (skip_ws r0) as [|c' r']; [discriminate|].
      destruct (Ascii.eqb c' "]"); [now intros [= <- _]|].
      destruct (parse_elements fuel r0) as [[l r'']|] eqn:E; [|discriminate].
      intros [= <- _]. simpl. now apply (IHe r0 l r''). }
    destruct (Ascii.eqb c "{").
    { destruct (skip_ws r0) as [|c' r']; [discriminate|].
      destruct (Ascii.eqb c' "}"); [now intros [= <- _]|].
      destruct (parse_members fuel r0) as [[o r'']|] eqn:E; [|discriminate].
      intros [= <- _]. apply spread_wf; [|reflexivity].
      now apply (IHm r0 o r''). }
    apply parse_number_wf.
  - intros s l r. cbn [parse_elements].
    destruct (parse_value fuel s) as [[v r0]|] eqn:Ev; [|discriminate].
    destruct (skip_ws r0) as [|c r']; [discriminate|].
    destruct (Ascii.eqb c ",").
    { destruct (parse_elements fuel r') as [[l' r'']|] eqn:E; [|discriminate].
      intros [= <- _]. simpl. rewrite (IHv s v r0 Ev). now apply (IHe r' l' r''). }
    destruct (Ascii.eqb c "]"); [|discriminate].
    intros [= <- _]. simpl. now rewrite (IHv s v r0 Ev).
  - intros s o r. cbn [parse_members].
    destruct (skip_ws s) as [|q r0]; [discriminate|].
    destruct (Ascii.eqb q "034"); [|discriminate].
    destruct (parse_string_body r0) as [[k r1]|]; [|discriminate].
    destruct (skip_ws r1) as [|c r2]; [discriminate|].
    destruct (Ascii.eqb c ":"); [|discriminate].
    destruct (parse_value fuel r2) as [[v r3]|] eqn:Ev; [|discriminate].
    destruct (skip_ws r3) as [|c' r4]; [discriminate|].
    destruct (Ascii.eqb c' ",").
    { destruct (parse_members fuel r4) as [[o' r5]|] eqn:E; [|discriminate].
      intros [= <- _]. simpl. rewrite (IHv r2 v r3 Ev). now apply (IHm r4 o' r5). }
    destruct (Ascii.eqb c' "}"); [|discriminate].
    intros [= <- _]. simpl. now rewrite (IHv r2 v r3 Ev).
Qed.

(** What [JSON.parse] gives is a value: no object has a key twice. *)
Lemma parse_wf (s : string) (v : JSON) : parse s = Some v -> wf v = true.
Proof.
  unfold parse.
  destruct (parse_value _ s) as [[v' r]|] eqn:E; [|discriminate].
  destruct (skip_ws r); [|discriminate]. intros [= <-].
  eapply (proj1 (parse_wf_fuel _)); eassumption.
Qed.

Lemma response_json_again (body : string) (data : JSON) :
  parse body = Some data ->
  response_json (Responded (stringify data)) = response_json (Responded body).
Proof.
  intros H. unfold response_json.
  now rewrite (parse_stringify data (parse_wf body data H)), H.
Qed.



End ProxyFacts.

Module ChatFacts.
Import Json ClientCommon Db ScopedServer Proxy MoreSpec JsonFacts Examples.

Lemma candidate_text_clean (reply : JSON) :
  candidate_text (clean_reply reply) = Ok (Some reply).
Proof. reflexivity. Qed.

Lemma chat_reply_truthy (upstream : FetchOutcome) (reply : JSON) :
  chat_reply upstream = Ok reply ->
  truthy (Some reply) = true
  /\ exists data, response_json upstream = Ok data
       /\ data <> JNull
       /\ truthy (get "error" (own_props data)) = false
       /\ candidate_text data = Ok (Some reply).
Proof.
  unfold chat_reply. destruct (response_json upstream) as [data|]; [|discriminate].
  cbn [bind].
  assert (Hn : data = JNull \/ data <> JNull)
    by (destruct data; first [now left | right; discriminate]).
  destruct Hn as [->|Hn]; [discriminate|].
  replace (match data with JNull => Throw TypeError | _ =>
             if truthy (get "error" (own_props data))
             then Throw (Error (match opt_get "message" (get "error" (own_props data)) with
                                | Some m => String_json m | None => ""%string end))
             else bind (candidate_text data) (fun reply0 =>
                  match reply0 with
                  | Some r => if truthy reply0 then Ok r
                              else Throw (Error "No response from AI")
                  | None => Throw (Error "No response from AI")
                  end) end)
    with (if truthy (get "error" (own_props data))
          then Throw (Error (match opt_get "message" (get "error" (own_props data)) with
                             | Some m => String_json m | None => ""%string end))
          else bind (candidate_text data) (fun reply0 =>
               match reply0 with
               | Some r => if truthy reply0 then Ok r
                           else Throw (Error "No response from AI")
               | None => Throw (Error "No response from AI")
               end))
    by (destruct data; first [contradiction | reflexivity]).
  destruct (truthy (get "error" (own_props data))) eqn:Ee; [discriminate|].
  destruct (candidate_text data) as [[r|]|] eqn:Ec; cbn [bind]; try discriminate.
  destruct (truthy (Some r)) eqn:Et; [|discriminate].
  intros [= <-]. split; [exact Et|].
  exists data. repeat split; auto.
Qed.

(** X7. [/api/chat] always answers, with one of two things: the error
    [{error: 'Chat failed'}] with status 500, or status 200 with exactly
    one candidate that holds one part whose text is the (truthy) text of
    the first part of the first candidate of the model service -- so that
    the path [candidates?.[0]?.content?.parts?.[0]?.text] reads in the
    answer what it read in the service's; nothing else of the service's
    answer is passed on. It is the error whenever the request has no goal
    (no request is then made to the service), and whenever the service's
    answer has a truthy [error], even beside candidates. *)
Theorem chat_answers (body : JSON) (service : JSON -> FetchOutcome) :
  (chat body service = chat_failed
   \/ exists request data reply,
        chat_request body = Ok request
        /\ response_json (service request) = Ok data
        /\ candidate_text data = Ok (Some reply)
        /\ truthy (Some reply) = true
        /\ chat body service = ok (clean_reply reply)
        /\ candidate_text (clean_reply reply) = Ok (Some reply))
  /\ (get "goal" (own_props body) = None \/ get "goal" (own_props body) = Some JNull ->
      chat_request body = Throw TypeError /\ chat body service = chat_failed)
  /\ (forall request data,
        chat_request body = Ok request ->
        response_json (service request) = Ok data ->
        truthy (opt_get "error" (Some data)) = true ->
        chat body service = chat_failed).
Proof.
  split; [|split].
  - unfold chat. destruct (chat_request body) as [request|]; cbn [bind]; [|now left].
    destruct (chat_reply (service request)) as [reply|] eqn:E; [|now left].
    right. destruct (chat_reply_truthy _ _ E) as [Ht [data [Hd [_ [_ Hc]]]]].
    exists request, data, reply. repeat split; auto.
  - intros H. unfold chat, chat_request.
    destruct H as [-> | ->]; cbn [systemPrompt bind]; split; reflexivity.
  - intros request data Hr Hd He. unfold chat. rewrite Hr. cbn [bind].
    unfold chat_reply. rewrite Hd. cbn [bind].
    unfold opt_get in He. destruct data; try (rewrite He); reflexivity.
Qed.

End ChatFacts.
(* ================================================================== *)
(** * The connection check *)

Module DbCheckFacts.
Import DbCheck MoreSpec JsonFacts.

Lemma mask_eq (s : string) :
  mask s = match match_here s with
           | Some rest => (":****@" ++ rest)%string
           | None =>
               match s with
               | EmptyString => ""%string
               | String c r => String c (mask r)
               end
           end.
Proof. destruct s; reflexivity. Qed.

Lemma no_at_app (a b : string) :
  no_at (a ++ b) = no_at a && no_at b.
Proof.
  unfold no_at. induction a as [|c a IH]; simpl; [reflexivity|].
  now rewrite IH, andb_assoc.
Qed.

Lemma span_class_run (run rest : string) :
  all_chars in_class run = true ->
  match rest with String c _ => in_class c = false | EmptyString => True end ->
  span_class (run ++ rest) = (run, rest).
Proof.
  intros Hr Hc. induction run as [|c run IH]; simpl in *.
  - destruct rest as [|c r]; [reflexivity|]. simpl. now rewrite Hc.
  - apply andb_true_iff in Hr as [H1 H2]. now rewrite H1, IH.
Qed.

(** In a text without [@], the run of the class is not followed by [@]. *)
Lemma span_class_no_at (a rest : string) (c : ascii) :
  no_at a = true -> in_class c = false -> Ascii.eqb c "@" = false ->
  exists run c2 rest2,
    span_class (a ++ String c rest) = (run, String c2 rest2)
    /\ Ascii.eqb c2 "@" = false.
Proof.
  intros Ha Hc Hn. induction a as [|d a IH]; simpl in *.
  - rewrite Hc. now exists ""%string, c, rest.
  - apply andb_true_iff in Ha as [Hd Ha]. apply negb_true_iff in Hd.
    destruct (in_class d) eqn:Ed.
    + destruct (IH Ha) as [run [c2 [rest2 [E H2]]]]. rewrite E.
      now exists (String d run), c2, rest2.
    + now exists ""%string, d, (a ++ String c rest)%string.
Qed.

Lemma match_here_no_at (a rest : string) (c : ascii) :
  no_at a = true -> in_class c = false -> Ascii.eqb c "@" = false ->
  a <> ""%string ->
  match_here (a ++ String c rest) = None.
Proof.
  intros Ha Hc Hn Hne. destruct a as [|d a]; [contradiction|].
  simpl in Ha. apply andb_true_iff in Ha as [_ Ha].
  cbn [append match_here]. destruct (Ascii.eqb d ":"); [|reflexivity].
  destruct (span_class_no_at a rest c Ha Hc Hn) as [run [c2 [rest2 [E H2]]]].
  rewrite E. destruct run; [reflexivity|]. now rewrite H2.
Qed.

Lemma mask_prefix (a rest : string) (c : ascii) :
  no_at a = true -> in_class c = false -> Ascii.eqb c "@" = false ->
  mask (a ++ String c rest) = (a ++ mask (String c rest))%string.
Proof.
  intros Ha Hc Hn. induction a as [|d a IH]; [reflexivity|].
  rewrite (mask_eq (String d a ++ String c rest)).
  rewrite (match_here_no_at (String d a) rest c Ha Hc Hn) by discriminate.
  simpl in Ha. apply andb_true_iff in Ha as [_ Ha].
  cbn [append]. now rewrite IH.
Qed.

Lemma span_class_rest (s : string) :
  no_at s = true -> no_at (snd (span_class s)) = true.
Proof.
  induction s as [|c s IH]; simpl; [reflexivity|]. intros H.
  destruct (in_class c).
  - apply andb_true_iff in H as [_ H]. specialize (IH H).
    now destruct (span_class s).
  - exact H.
Qed.

(** A text without [@] is printed as it is. *)
Lemma mask_no_at (s : string) : no_at s = true -> mask s = s.
Proof.
  induction s as [|c s IH]; [reflexivity|]. intros H.
  rewrite mask_eq.
  assert (Hm : match_here (String c s) = None).
  { cbn [match_here]. destruct (Ascii.eqb c ":"); [|reflexivity].
    simpl in H. apply andb_true_iff in H as [_ H].
    pose proof (span_class_rest s H) as Hr.
    destruct (span_class s) as [run rest]. simpl in Hr.
    destruct run; [reflexivity|]. destruct rest as [|c2 rest]; [reflexivity|].
    simpl in Hr. apply andb_true_iff in Hr as [Hr _].
    apply negb_true_iff in Hr. now rewrite Hr. }
  rewrite Hm. simpl in H. apply andb_true_iff in H as [_ H]. now rewrite IH.
Qed.

Lemma mask_class (p rest : string) (c : ascii) :
  all_chars in_class p = true -> Ascii.eqb c ":" = false ->
  mask (p ++ String c rest) = (p ++ String c (mask rest))%string.
Proof.
  intros Hp Hc. induction p as [|d p IH].
  - cbn [append]. rewrite mask_eq. cbn [match_here]. now rewrite Hc.
  - simpl in Hp. apply andb_true_iff in Hp as [Hd Hp].
    cbn [append]. rewrite mask_eq. cbn [match_here].
    assert (Ascii.eqb d ":" = false) as ->.
    { unfold in_class in Hd. apply negb_true_iff in Hd.
      now destruct (Ascii.eqb d ":"). }
    now rewrite IH.
Qed.

(** X8. The connection check hides the password of the usual connection
    string: for [a:pw@b] where [a] (the scheme and the user, as in
    [postgres://user]) has no [@] and the password [pw] is not empty and
    has none of [:], [/] and [@], the first line printed shows [a:****@b];
    so it is the same line for any two such passwords. *)
Theorem mask_hides_password (a pw b : string) :
  no_at a = true -> pw <> ""%string -> all_chars in_class pw = true ->
  mask (a ++ ":" ++ pw ++ "@" ++ b) = (a ++ ":****@" ++ b)%string
  /\ checking_line (a ++ ":" ++ pw ++ "@" ++ b)
     = ("Checking connection to: " ++ a ++ ":****@" ++ b)%string.
Proof.
  intros Ha Hne Hpw.
  assert (E : mask (a ++ ":" ++ pw ++ "@" ++ b) = (a ++ ":****@" ++ b)%string).
  { cbn [append]. rewrite mask_prefix by (assumption || reflexivity).
    f_equal. rewrite mask_eq. cbn [match_here]. cbv beta iota.
    change (Ascii.eqb ":" ":") with true. cbv iota.
    rewrite (span_class_run pw (String "@" b)) by (assumption || reflexivity).
    destruct pw; [contradiction | reflexivity]. }
  split; [exact E|]. unfold checking_line. now rewrite E.
Qed.

Lemma mask_hides_password_witness :
  mask ("postgres://user" ++ ":" ++ "s3cret" ++ "@" ++ "db.example.com:5432/app")
  = ("postgres://user" ++ ":****@" ++ "db.example.com:5432/app")%string
  /\ checking_line ("postgres://user" ++ ":" ++ "s3cret" ++ "@"
                    ++ "db.example.com:5432/app")
     = ("Checking connection to: " ++ "postgres://user" ++ ":****@"
        ++ "db.example.com:5432/app")%string.
Proof.
  apply (mask_hides_password "postgres://user" "s3cret" "db.example.com:5432/app").
  - reflexivity.
  - discriminate.
  - reflexivity.
Defined.

(** X9. A password with a slash is printed in full: for [a:p1/p2@b] where
    [a], [p1] and [b] have no [@] and [p2] has none of [:], [/] and [@]
    (the password is [p1/p2]), nothing matches and the first line shows the
    connection string as it is. *)
Theorem mask_misses_slash (a p1 p2 b : string) :
  no_at a = true -> no_at p1 = true -> all_chars in_class p2 = true ->
  no_at b = true ->
  mask (a ++ ":" ++ p1 ++ "/" ++ p2 ++ "@" ++ b)
  = (a ++ ":" ++ p1 ++ "/" ++ p2 ++ "@" ++ b)%string.
Proof.
  intros Ha H1 H2 Hb.
  replace (a ++ ":" ++ p1 ++ "/" ++ p2 ++ "@" ++ b)%string
    with ((a ++ ":" ++ p1) ++ String "/" (p2 ++ String "@" b))%string
    by (rewrite !append_assoc; reflexivity).
  rewrite mask_prefix; [|now rewrite !no_at_app, Ha, H1 | reflexivity..].
  f_equal. rewrite mask_eq. cbn [match_here]. change (Ascii.eqb "/" ":") with false.
  cbv iota. f_equal. rewrite mask_class by (assumption || reflexivity).
  now rewrite mask_no_at.
Qed.

Lemma mask_misses_slash_witness :
  mask ("postgres://user" ++ ":" ++ "pass" ++ "/" ++ "word" ++ "@" ++ "host/db")
  = ("postgres://user" ++ ":" ++ "pass" ++ "/" ++ "word" ++ "@" ++ "host/db")%string.
Proof.
  apply (mask_misses_slash "postgres://user" "pass" "word" "host/db"); reflexivity.
Defined.

End DbCheckFacts.

(* ================================================================== *)
(** * The handlers of the goal list *)

Module ObjectFacts.

Lemma get_set_same (k : string) (v : JSON) (o : JsObject) :
  get k (set k v o) = Some v.
Proof.
  induction o as [|[k' v'] o IH]; simpl.
  - now rewrite String.eqb_refl.
  - destruct (String.eqb k k') eqn:E; simpl; rewrite E; [reflexivity | exact IH].
Qed.

Lemma get_set_other (k k2 : string) (v : JSON) (o : JsObject) :
  k2 <> k -> get k2 (set k v o) = get k2 o.
Proof.
  intros Hne. induction o as [|[k' v'] o IH]; simpl.
  - destruct (String.eqb_spec k2 k); [contradiction | reflexivity].
  - destruct (String.eqb_spec k k') as [<-|E]; simpl.
    + destruct (String.eqb_spec k2 k); [contradiction | reflexivity].
    + now rewrite IH.
Qed.

Lemma get_remove_same (k : string) (o : JsObject) : get k (remove k o) = None.
Proof.
  unfold remove. induction o as [|[k' v'] o IH]; simpl; [reflexivity|].
  destruct (String.eqb k k') eqn:E; simpl; [exact IH | now rewrite E].
Qed.

Lemma get_remove_other (k k2 : string) (o : JsObject) :
  k2 <> k -> get k2 (remove k o) = get k2 o.
Proof.
  intros Hne. unfold remove. induction o as [|[k' v'] o IH]; simpl; [reflexivity|].
  destruct (String.eqb_spec k k') as [<-|E]; simpl.
  - destruct (String.eqb_spec k2 k); [contradiction | exact IH].
  - now rewrite IH.
Qed.

Lemma get_assign_other (k k2 : string) (v : value) (o : JsObject) :
  k2 <> k -> get k2 (ClientCommon.assign k v o) = get k2 o.
Proof.
  intros Hne. destruct v; simpl; [now apply get_set_other | now apply get_remove_other].
Qed.

Lemma set_set (k : string) (v v2 : JSON) (o : JsObject) :
  set k v (set k v2 o) = set k v o.
Proof.
  induction o as [|[k' v'] o IH]; simpl.
  - now rewrite String.eqb_refl.
  - destruct (String.eqb k k') eqn:E; simpl; rewrite E; [reflexivity | now rewrite IH].
Qed.

Lemma set_same (k : string) (v : JSON) (o : JsObject) :
  get k o = Some v -> set k v o = o.
Proof.
  induction o as [|[k' v'] o IH]; simpl; [discriminate|].
  destruct (String.eqb_spec k k') as [<-|E].
  - now intros [= ->].
  - intros H. now rewrite IH.
Qed.

(** [===] holds between equal values only. *)
Lemma strict_eq_eq (a b : value) : ClientCommon.strict_eq a b = true -> a = b.
Proof.
  destruct a as [[]|], b as [[]|]; simpl; try discriminate; try reflexivity.
  - intros H. apply Bool.eqb_prop in H. now subst.
  - intros H. apply Z.eqb_eq in H. now subst.
  - intros H. apply String.eqb_eq in H. now subst.
Qed.

Lemma strict_eq_sym (a b : value) :
  ClientCommon.strict_eq a b = ClientCommon.strict_eq b a.
Proof.
  destruct a as [[]|], b as [[]|]; simpl; try reflexivity.
  - now destruct b, b0.
  - apply Z.eqb_sym.
  - apply String.eqb_sym.
Qed.

Lemma strict_eq_refl (v : JSON) :
  MoreSpec.is_primitive v = true ->
  ClientCommon.strict_eq (Some v) (Some v) = true.
Proof.
  destruct v; simpl; try discriminate; intros _; try reflexivity.
  - now destruct b.
  - apply Z.eqb_refl.
  - apply String.eqb_refl.
Qed.

Lemma Forall2_map {A} (R : A -> A -> Prop) (f : A -> A) (l : list A) :
  (forall x, R x (f x)) -> Forall2 R l (map f l).
Proof. intros H. induction l; simpl; constructor; auto. Qed.

End ObjectFacts.

Module ToggleFacts.
Import ClientCommon ObjectFacts MoreSpec Examples.

Lemma flip_completed_twice (g : JsObject) (b : bool) :
  get "completed" g = Some (JBool b) ->
  Toggles.flip_completed (Toggles.flip_completed g) = g.
Proof.
  intros H. unfold Toggles.flip_completed.
  rewrite get_set_same, set_set, H. simpl. rewrite negb_involutive.
  now apply set_same.
Qed.

(** X10. [toggleGoal(id)], the same in both clients, keeps the length and
    the order of the list; a goal whose [id] is not [id] is left as it is;
    in a goal whose [id] is [id], [completed] becomes the negation of its
    truth value and every other field stays (so its [id] too). When the
    [completed] of the goals with that id is a boolean, toggling twice
    gives back the list. *)
Theorem toggleGoal_flips (id : value) (goals : list JsObject) :
  LegacyToggles.toggleGoal id goals = Toggles.toggleGoal id goals
  /\ Forall2 (fun g g' =>
                (strict_eq (get "id" g) id = false -> g' = g)
                /\ (strict_eq (get "id" g) id = true ->
                    get "completed" g'
                    = Some (JBool (negb (truthy (get "completed" g)))))
                /\ forall k, k <> "completed"%string -> get k g' = get k g)
       goals (Toggles.toggleGoal id goals)
  /\ ((forall g, In g goals -> strict_eq (get "id" g) id = true ->
                 exists b, get "completed" g = Some (JBool b)) ->
      Toggles.toggleGoal id (Toggles.toggleGoal id goals) = goals).
Proof.
  split; [reflexivity|]. split.
  - apply Forall2_map. intros g.
    destruct (strict_eq (get "id" g) id); repeat split; try discriminate; auto.
    + intros _. apply get_set_same.
    + intros k Hk. now apply get_set_other.
  - intros Hb. unfold Toggles.toggleGoal. rewrite map_map.
    rewrite <- (map_id goals) at 2. apply map_ext_in. intros g Hin.
    destruct (strict_eq (get "id" g) id) eqn:E.
    + assert (Hid : get "id" (Toggles.flip_completed g) = get "id" g)
        by (apply get_set_other; discriminate).
      rewrite Hid, E. destruct (Hb g Hin E) as [b Hc].
      now apply (flip_completed_twice g b).
    + now rewrite E.
Qed.

Lemma history_has_copy (g : JsObject) (day : string) :
  history_has g day = truthy (get day (Toggles.history_copy g)).
Proof.
  unfold history_has, Toggles.history_copy, opt_get.
  destruct (get "history" g) as [h|]; [|reflexivity].
  destruct h as [|[]|n|s|l|o]; try reflexivity.
  - simpl. destruct (n =? 0); reflexivity.
  - destruct s; reflexivity.
Qed.

Lemma history_has_set (g : JsObject) (h : JsObject) (day : string) :
  history_has (set "history" (JObj h) g) day = truthy (get day h).
Proof.
  unfold history_has. rewrite get_set_same. reflexivity.
Qed.

(** The goal after the click, in either client. *)
Lemma toggle_today_marks (todayStr : string) (g g' : JsObject) :
  g' = Toggles.toggle_today todayStr g
  \/ g' = LegacyToggles.toggle_today todayStr g ->
  history_has g' todayStr = negb (history_has g todayStr)
  /\ (forall day, day <> todayStr -> history_has g' day = history_has g day)
  /\ (forall k, k <> "history"%string -> get k g' = get k g).
Proof.
  intros [-> | ->].
  - unfold Toggles.toggle_today. cbv zeta. split; [|split].
    + rewrite history_has_set, history_has_copy.
      destruct (truthy (get todayStr (Toggles.history_copy g))) eqn:E.
      * now rewrite get_remove_same.
      * now rewrite get_set_same.
    + intros day Hd. rewrite history_has_set, history_has_copy.
      destruct (truthy (get todayStr (Toggles.history_copy g))).
      * now rewrite get_remove_other.
      * now rewrite get_set_other.
    + intros k Hk. now apply get_set_other.
  - unfold LegacyToggles.toggle_today. cbv zeta. split; [|split].
    + rewrite history_has_set, history_has_copy, get_set_same. reflexivity.
    + intros day Hd. rewrite history_has_set, history_has_copy.
      now rewrite get_set_other.
    + intros k Hk. now apply get_set_other.
Qed.

(** X11. [toggleHabit(id)], in both clients: a goal with another id is
    left as it is; in a goal with that id the mark of today is turned over
    (marked becomes not marked, and the reverse), the marks of all other
    days stay, and so does every field but [history]. The client with
    log-in deletes the entry of today where the other one stores [false];
    the marks are the same. *)
Theorem toggleHabit_flips (todayStr : string) (id : value) (goals : list JsObject) :
  Forall2 (habit_toggled todayStr id) goals (Toggles.toggleHabit todayStr id goals)
  /\ Forall2 (habit_toggled todayStr id) goals
       (LegacyToggles.toggleHabit todayStr id goals).
Proof.
  split; apply Forall2_map; intros g; unfold habit_toggled;
    destruct (strict_eq (get "id" g) id); cbn [negb];
    try (repeat split; try discriminate; auto; fail).
  - destruct (toggle_today_marks todayStr g _ (or_introl eq_refl)) as [H1 [H2 H3]].
    split; [discriminate|]. split; [intros _; exact H1|]. split; assumption.
  - destruct (toggle_today_marks todayStr g _ (or_intror eq_refl)) as [H1 [H2 H3]].
    split; [discriminate|]. split; [intros _; exact H1|]. split; assumption.
Qed.

Lemma newDone_list (g : JsObject) (l : list JSON) (text : JSON) :
  done_list g = Some l ->
  Toggles.newDone (get "doneSubTasks" g) text
  = Ok (JArr (if Toggles.array_includes l text
              then filter (fun t => negb (strict_eq (Some t) (Some text))) l
              else (l ++ [text])%list)).
Proof.
  unfold done_list, Toggles.newDone.
  destruct (get "doneSubTasks" g) as [[|[]|n|s|l0|o]|]; simpl;
    try discriminate; try (intros [= <-]; reflexivity).
  - destruct (n =? 0); simpl; [intros [= <-]; reflexivity | discriminate].
  - destruct s; simpl; [intros [= <-]; reflexivity | discriminate].
  - intros [= <-]. now destruct (Toggles.array_includes l0 text).
Qed.

Lemma includes_filter_self (l : list JSON) (text : JSON) :
  Toggles.array_includes
    (filter (fun t => negb (strict_eq (Some t) (Some text))) l) text = false.
Proof.
  unfold Toggles.array_includes.
  induction l as [|x l IH]; cbn [filter existsb]; [reflexivity|].
  destruct (strict_eq (Some x) (Some text)) eqn:E; cbn [negb filter existsb];
    [exact IH|].
  now rewrite E.
Qed.

Lemma includes_filter_other (l : list JSON) (text t : JSON) :
  strict_eq (Some t) (Some text) = false ->
  Toggles.array_includes
    (filter (fun x => negb (strict_eq (Some x) (Some text))) l) t
  = Toggles.array_includes l t.
Proof.
  intros Hne. unfold Toggles.array_includes.
  induction l as [|x l IH]; cbn [filter existsb]; [reflexivity|].
  destruct (strict_eq (Some x) (Some text)) eqn:E; cbn [negb filter existsb].
  - destruct (strict_eq (Some x) (Some t)) eqn:E2; [|exact IH].
    apply strict_eq_eq in E2. injection E2 as ->. congruence.
  - now rewrite IH.
Qed.

Lemma includes_app (l : list JSON) (text t : JSON) :
  Toggles.array_includes (l ++ [text]) t
  = Toggles.array_includes l t || strict_eq (Some text) (Some t).
Proof.
  unfold Toggles.array_includes. rewrite existsb_app. cbn [existsb].
  now rewrite orb_false_r.
Qed.

Lemma done_list_set (g : JsObject) (l : list JSON) :
  done_list (set "doneSubTasks" (JArr l) g) = Some l.
Proof. unfold done_list. now rewrite get_set_same. Qed.

Lemma toggle_one (goalId : value) (text : JSON) (g : JsObject) (l : list JSON) :
  is_primitive text = true -> done_list g = Some l ->
  exists l',
    Toggles.newDone (get "doneSubTasks" g) text = Ok (JArr l')
    /\ (Toggles.array_includes l' text = negb (Toggles.array_includes l text))
    /\ (forall t, strict_eq (Some t) (Some text) = false ->
                  Toggles.array_includes l' t = Toggles.array_includes l t).
Proof.
  intros Hp Hl. rewrite (newDone_list g l text Hl).
  destruct (Toggles.array_includes l text) eqn:E; eexists; split; try reflexivity;
    split.
  - apply includes_filter_self.
  - intros t Ht. now apply includes_filter_other.
  - rewrite includes_app, E. simpl. now apply strict_eq_refl.
  - intros t Ht. rewrite includes_app. rewrite strict_eq_sym, Ht.
    apply orb_false_r.
Qed.

(** X12. [toggleSubTask(goalId, text)] of the client with log-in, for a
    [text] that is not an array or an object, on goals whose
    [doneSubTasks], where the id is [goalId], is a list or is missing: it
    does not throw; a goal with another id is left as it is; in a goal with
    that id, [text] is done afterwards exactly when it was not before,
    every other sub-task is done exactly when it was, and every field but
    [doneSubTasks] stays. *)
Theorem toggleSubTask_flips (goalId : value) (text : JSON) (goals : list JsObject) :
  is_primitive text = true ->
  (forall g, In g goals -> strict_eq (get "id" g) goalId = true ->
             done_list g <> None) ->
  exists goals',
    Toggles.toggleSubTask goalId text goals = Ok goals'
    /\ Forall2 (subtask_toggled goalId text) goals goals'.
Proof.
  intros Hp. unfold Toggles.toggleSubTask.
  induction goals as [|g goals IH]; intros Hd.
  - exists []. split; [reflexivity | constructor].
  - destruct IH as [goals' [E HF]]; [intros x Hx; apply Hd; now right|].
    cbn [ScopedServer.map_result]. rewrite E.
    destruct (strict_eq (get "id" g) goalId) eqn:Eid; cbn [negb bind].
    + destruct (done_list g) as [l|] eqn:El;
        [|exfalso; now apply (Hd g (or_introl eq_refl) Eid)].
      destruct (toggle_one goalId text g l Hp El) as [l' [En [H1 H2]]].
      rewrite En. cbn [bind]. eexists. split; [reflexivity|].
      constructor; [|exact HF]. unfold subtask_toggled, is_done.
      rewrite done_list_set, El, Eid.
      split; [discriminate|]. split; [intros _; exact H1|].
      split; [exact H2|]. intros k Hk. now apply get_set_other.
    + eexists. split; [reflexivity|]. constructor; [|exact HF].
      unfold subtask_toggled. rewrite Eid. repeat split; try discriminate; auto.
Qed.

Lemma toggleSubTask_flips_witness :
  exists goals',
    Toggles.toggleSubTask (Some (JNum 1767348000000)) (JStr "Read a chapter")
      [goal_read; goal_run] = Ok goals'
    /\ Forall2 (subtask_toggled (Some (JNum 1767348000000)) (JStr "Read a chapter"))
         [goal_read; goal_run] goals'.
Proof.
  apply (toggleSubTask_flips (Some (JNum 1767348000000)) (JStr "Read a chapter")
           [goal_read; goal_run]).
  - reflexivity.
  - intros g [<-|[<-|[]]]; discriminate.
Defined.

End ToggleFacts.

(* ================================================================== *)
(** * The warning of a habit *)

Module WarningFacts.
Import DateTime ClientCommon HabitSpec HabitFacts Examples.

Section WithPlatform.

Variable tz : TimeZone.
Variable Date_parse : string -> option Z.

(** X13. The warning of a habit, in both clients and in any time zone. For
    a HABIT goal created at [start], with [d] days elapsed and [n] of the
    [d] keys that [getHabitStats] reads marked, the goal is flagged exactly
    when more than 48 hours lie between [start] and [now] and
    [200 n < 159 d] (the rate, rounded, is below 80): never in the first 48
    hours, and never when every key read is marked. Where the offset of the
    zone does not change in the window, [n] is the number of marked days
    among the [d] consecutive UTC days that end with the day of [now]. *)
Theorem isWarning_spec (now : Z) (goal : JsObject) (c : JSON) (start : Z) :
  is_habit goal = true ->
  get "createdAt" goal = Some c -> truthy (Some c) = true ->
  new_Date Date_parse c = Some start ->
  let d := clamp_1_30 (ceil_div (Z.abs (now - start)) DAY) in
  let n := read_count tz now goal d in
  Toggles.isWarning tz Date_parse now goal
  = (2 * DAY <? Z.abs (now - start)) && (200 * n <? 159 * d)
  /\ LegacyToggles.isWarning tz Date_parse now goal
     = Toggles.isWarning tz Date_parse now goal
  /\ (Z.abs (now - start) <= 2 * DAY ->
      Toggles.isWarning tz Date_parse now goal = false)
  /\ (n = d -> Toggles.isWarning tz Date_parse now goal = false)
  /\ (steady tz now d -> n = window_count now goal d).
Proof.
  intros Hh Hc Ht Hd d n.
  assert (E : Toggles.isWarning tz Date_parse now goal
              = (2 * DAY <? Z.abs (now - start)) && (200 * n <? 159 * d)).
  { unfold Toggles.isWarning. unfold is_habit in Hh. rewrite Hh. cbv zeta.
    rewrite (getHabitStats_read tz Date_parse now goal c start Hh Hc Ht Hd).
    cbn [rate daysElapsed Toggles.lt_number Toggles.ge_number].
    fold d. fold n. rewrite andb_comm. f_equal.
    - pose proof (ceil_div_spec (Z.abs (now - start)) DAY eq_refl) as Hq.
      subst d. unfold clamp_1_30. unfold DAY in *.
      destruct (Z.leb_spec 3 (Z.max 1 (Z.min 30 (ceil_div (Z.abs (now - start)) 86400000))));
        destruct (Z.ltb_spec (2 * 86400000) (Z.abs (now - start))); try reflexivity; lia.
    - assert (Hd1 : 1 <= d) by (subst d; unfold clamp_1_30; lia).
      pose proof (round_percent_nearest n d ltac:(lia)) as Hr.
      destruct (Z.ltb_spec (round_percent n d) 80);
        destruct (Z.ltb_spec (200 * n) (159 * d)); try reflexivity; nia. }
  split; [exact E|]. split; [|split; [|split]].
  - unfold LegacyToggles.isWarning, Toggles.isWarning.
    now rewrite getHabitStats_agree.
  - intros Hle. rewrite E. destruct (Z.ltb_spec (2 * DAY) (Z.abs (now - start)));
      [lia | reflexivity].
  - intros Hn. rewrite E, Hn.
    assert (Hd1 : 1 <= d) by (subst d; unfold clamp_1_30; lia).
    destruct (Z.ltb_spec (200 * d) (159 * d)); [lia|]. apply andb_false_r.
  - apply steady_window.
Qed.

End WithPlatform.

(** In New York on the evening of the day summer time ends: the habit of
    three days, marked on 1 November only, has none of the three keys read
    marked and is flagged. *)
Lemma isWarning_spec_witness :
  let d := clamp_1_30 (ceil_div (Z.abs (dst_now - 1793405400000)) DAY) in
  let n := read_count new_york dst_now dst_goal d in
  Toggles.isWarning new_york iso_parse dst_now dst_goal
  = (2 * DAY <? Z.abs (dst_now - 1793405400000)) && (200 * n <? 159 * d)
  /\ LegacyToggles.isWarning new_york iso_parse dst_now dst_goal
     = Toggles.isWarning new_york iso_parse dst_now dst_goal
  /\ (Z.abs (dst_now - 1793405400000) <= 2 * DAY ->
      Toggles.isWarning new_york iso_parse dst_now dst_goal = false)
  /\ (n = d -> Toggles.isWarning new_york iso_parse dst_now dst_goal = false)
  /\ (steady new_york dst_now d -> n = window_count dst_now dst_goal d).
Proof.
  apply (isWarning_spec new_york iso_parse dst_now dst_goal
           (JStr "2026-10-31T00:10:00.000Z") 1793405400000); reflexivity.
Defined.

End WarningFacts.

(* ================================================================== *)
(** * Adding a goal *)

Module AddGoalFacts.
Import ClientCommon ObjectFacts MoreSpec JsonFacts AnalysisFacts Examples.

Lemma get_indexed_subTasks (l : list JSON) (i : nat) :
  get "subTasks" (indexed i l) = None.
Proof.
  revert i. induction l as [|x l IH]; intros i; [reflexivity|].
  cbn [indexed get]. unfold string_of_nat.
  destruct (string_of_Z_head (Z.of_nat i)) as [c [r [-> H]]].
  replace (String.eqb "subTasks" (String c r)) with false; [apply IH|].
  symmetry. cbn [String.eqb].
  destruct c as [[] [] [] [] [] [] [] []]; try discriminate H; reflexivity.
Qed.

Lemma get_own_props_subTasks (v : JSON) (st : JSON) :
  get "subTasks" (own_props v) = Some st -> exists o, v = JObj o.
Proof.
  destruct v; cbn [own_props]; try discriminate.
  - now rewrite get_indexed_subTasks.
  - now rewrite get_indexed_subTasks.
  - intros _. now eexists.
Qed.

(** The analysis of the client without log-in never has more than three
    sub-tasks. *)
Lemma analysis_subtasks_short (o : FetchOutcome) (lst : list JSON) :
  get "subTasks" (own_props (LegacyClient.analyzeGoal o)) = Some (JArr lst) ->
  (List.length lst <= 3)%nat.
Proof.
  unfold LegacyClient.analyzeGoal.
  destruct (LegacyClient.analyzeGoal_try o) as [content|] eqn:E;
    [|intros [= <-]; simpl; lia].
  intros H. destruct (get_own_props_subTasks _ _ H) as [c ->].
  cbn [own_props] in H.
  unfold LegacyClient.analyzeGoal_try in E.
  destruct (response_json o) as [result_|]; [|discriminate]. cbn [bind] in E.
  destruct (candidate_text result_) as [text|]; [|discriminate]. cbn [bind] in E.
  destruct (JSON_parse text) as [content|]; [|discriminate]. cbn [bind] in E.
  destruct content as [| | | | |c0]; try discriminate.
  destruct (get "subTasks" c0) as [st|] eqn:Es.
  - destruct (truthy (Some st) && LegacyClient.longer_than_3 st) eqn:Et.
    + destruct st; try discriminate E; cbn [LegacyClient.slice_0_3 bind] in E;
        injection E as <-; rewrite get_set_same in H; try discriminate.
      injection H as <-. destruct l as [|? [|? [|? [|? ?]]]]; simpl; lia.
    + injection E as <-. rewrite Es in H. injection H as ->.
      simpl in Et. destruct (Nat.ltb_spec 3 (List.length lst)); [discriminate | lia].
  - injection E as <-. congruence.
Qed.

Lemma deleteGoal_absent (id : value) (goals : list JsObject) :
  (forall g, In g goals -> strict_eq (get "id" g) id = false) ->
  LegacyClient.deleteGoal id goals = goals.
Proof.
  unfold LegacyClient.deleteGoal.
  induction goals as [|g goals IH]; intros H; [reflexivity|].
  cbn [filter]. rewrite (H g) by now left. cbn [negb].
  f_equal. apply IH. intros x Hx. apply H. now right.
Qed.

Lemma subTask_objects_tidy (tempId : Z) (l : list JSON) (i : nat) :
  Forall tidy_subtask (LegacyClient.subTask_objects tempId i l)
  /\ List.length (LegacyClient.subTask_objects tempId i l) = List.length l.
Proof.
  revert i. induction l as [|t l IH]; intros i; simpl.
  - split; [constructor | reflexivity].
  - destruct (IH (S i)) as [H1 H2]. split; [|now rewrite H2].
    constructor; [|exact H1]. eexists. exists false. split; reflexivity.
Qed.

(** The fields of the goal that [handleAddGoal] patches. *)
Lemma patched_fields (tempId : Z) (analysis : JSON) (g g' : JsObject) :
  LegacyClient.patched tempId analysis g = Ok g' ->
  (forall k, In k ["id"; "text"; "completed"; "history"; "createdAt"]%string ->
             get k g' = get k g)
  /\ exists subs,
       get "subTasks" g' = Some (JArr subs)
       /\ Forall tidy_subtask subs
       /\ (forall lst, get "subTasks" (own_props analysis) = Some (JArr lst) ->
                       List.length subs = List.length lst)
       /\ ((forall lst, get "subTasks" (own_props analysis) <> Some (JArr lst)) ->
           subs = []).
Proof.
  unfold LegacyClient.patched.
  assert (Hn : analysis = JNull \/ analysis <> JNull)
    by (destruct analysis; first [now left | right; discriminate]).
  destruct Hn as [->|Hn]; [discriminate|].
  replace (match analysis with JNull => Throw TypeError | _ =>
             bind (LegacyClient.subTasks_of tempId (get "subTasks" (own_props analysis)))
               (fun subTasks =>
                Ok (assign "rewardIdea" (get "rewardIdea" (own_props analysis))
                   (assign "advice" (get "advice" (own_props analysis))
                   (set "subTasks" subTasks
                   (set "roadmap" (LegacyClient.or_empty (get "roadmap" (own_props analysis)))
                   (assign "isExam" (get "isExam" (own_props analysis))
                   (assign "deadlineMonth" (get "deadlineMonth" (own_props analysis))
                   (assign "category" (get "category" (own_props analysis)) g)))))))) end)
    with (bind (LegacyClient.subTasks_of tempId (get "subTasks" (own_props analysis)))
               (fun subTasks =>
                Ok (assign "rewardIdea" (get "rewardIdea" (own_props analysis))
                   (assign "advice" (get "advice" (own_props analysis))
                   (set "subTasks" subTasks
                   (set "roadmap" (LegacyClient.or_empty (get "roadmap" (own_props analysis)))
                   (assign "isExam" (get "isExam" (own_props analysis))
                   (assign "deadlineMonth" (get "deadlineMonth" (own_props analysis))
                   (assign "category" (get "category" (own_props analysis)) g)))))))))
    by (destruct analysis; first [contradiction | reflexivity]).
  destruct (LegacyClient.subTasks_of tempId (get "subTasks" (own_props analysis)))
    as [subTasks|] eqn:Es; [|discriminate].
  cbn [bind]. intros [= <-]. split.
  - intros k Hk.
    assert (Hk' : k <> "rewardIdea" /\ k <> "advice" /\ k <> "subTasks"
                  /\ k <> "roadmap" /\ k <> "isExam" /\ k <> "deadlineMonth"
                  /\ k <> "category").
    { simpl in Hk. repeat (destruct Hk as [<-|Hk]; [repeat split; discriminate|]).
      contradiction. }
    destruct Hk' as (H1 & H2 & H3 & H4 & H5 & H6 & H7).
    rewrite !get_assign_other, !get_set_other, !get_assign_other by assumption.
    reflexivity.
  - rewrite !get_assign_other by discriminate. rewrite get_set_same.
    unfold LegacyClient.subTasks_of in Es.
    destruct (get "subTasks" (own_props analysis)) as [st|] eqn:Eg.
    + destruct (truthy (Some st)) eqn:Et.
      * destruct st; try discriminate. injection Es as <-.
        destruct (subTask_objects_tidy tempId l 0) as [H1 H2].
        eexists. split; [reflexivity|]. split; [exact H1|]. split.
        -- intros lst [= <-]. exact H2.
        -- intros H. exfalso. now apply (H l).
      * injection Es as <-. exists []. split; [reflexivity|].
        split; [constructor|]. split; [|reflexivity].
        intros lst [= ->]. discriminate.
    + cbn [truthy] in Es. injection Es as <-. exists [].
      split; [reflexivity|]. split; [constructor|]. split; [discriminate | reflexivity].
Qed.

(** X14. Adding a goal in the client without log-in. When the text is not
    blank, the list has fewer than 100 goals, none of them has the new id,
    and the handler does not throw: the new goal is put in front of the
    list, which is otherwise unchanged; it has the id, the text, and the
    creation time it was given, is not completed and has an empty history,
    whatever the analysis says; it has at most three sub-tasks, each an
    object that is not completed; and deleting it gives back the list. *)
Theorem legacy_add_goal (tempId : Z) (inputValue createdAt : string)
    (o : FetchOutcome) (goals l : list JsObject) :
  Client.drop_spaces inputValue <> ""%string ->
  (List.length goals < 100)%nat ->
  (forall g, In g goals -> strict_eq (get "id" g) (Some (JNum tempId)) = false) ->
  LegacyClient.handleAddGoal tempId inputValue createdAt o goals = Ok l ->
  exists g' subs,
    l = g' :: goals
    /\ get "id" g' = Some (JNum tempId)
    /\ get "text" g' = Some (JStr inputValue)
    /\ get "completed" g' = Some (JBool false)
    /\ get "history" g' = Some (JObj [])
    /\ get "createdAt" g' = Some (JStr createdAt)
    /\ get "subTasks" g' = Some (JArr subs)
    /\ (List.length subs <= 3)%nat
    /\ Forall tidy_subtask subs
    /\ LegacyClient.deleteGoal (Some (JNum tempId)) l = goals.
Proof.
  intros Hin Hlen Hid. unfold LegacyClient.handleAddGoal.
  destruct (String.eqb_spec (Client.drop_spaces inputValue) ""); [contradiction|].
  destruct (Nat.leb_spec 100 (List.length goals)); [lia|]. cbn [orb].
  cbn [LegacyClient.patch].
  assert (Hnew : strict_eq (get "id" (LegacyClient.newGoal tempId inputValue createdAt))
                   (Some (JNum tempId)) = true) by apply Z.eqb_refl.
  rewrite Hnew, (patch_untouched tempId _ goals Hid).
  destruct (LegacyClient.patched tempId (LegacyClient.analyzeGoal o)
              (LegacyClient.newGoal tempId inputValue createdAt)) as [g'|] eqn:Ep;
    [|discriminate].
  cbn [bind]. intros [= <-].
  destruct (patched_fields _ _ _ _ Ep) as [Hk [subs [Hs [Ht [Hl Hl0]]]]].
  exists g', subs.
  assert (Hgid : get "id" g' = Some (JNum tempId)) by (rewrite Hk; simpl; auto).
  repeat split; auto; try (rewrite Hk; [reflexivity | simpl; auto 10]).
  - destruct (get "subTasks" (own_props (LegacyClient.analyzeGoal o)))
      as [[| | | |lst|]|] eqn:Ea;
      try (rewrite Hl0 by (intros lst0; congruence); simpl; lia).
    rewrite (Hl lst eq_refl). now apply (analysis_subtasks_short o).
  - unfold LegacyClient.deleteGoal. cbn [filter]. rewrite Hgid.
    replace (strict_eq (Some (JNum tempId)) (Some (JNum tempId))) with true
      by (symmetry; apply Z.eqb_refl).
    cbn [negb]. now apply deleteGoal_absent.
Qed.

Lemma legacy_add_goal_witness :
  let l := match LegacyClient.handleAddGoal 1767434400000 "Walk every day"
                   "2026-01-03T10:00:00.000Z" (upstream analysis_text) [goal_read]
           with Ok l => l | Throw _ => [] end in
  exists g' subs,
    l = g' :: [goal_read]
    /\ get "id" g' = Some (JNum 1767434400000)
    /\ get "text" g' = Some (JStr "Walk every day")
    /\ get "completed" g' = Some (JBool false)
    /\ get "history" g' = Some (JObj [])
    /\ get "createdAt" g' = Some (JStr "2026-01-03T10:00:00.000Z")
    /\ get "subTasks" g' = Some (JArr subs)
    /\ (List.length subs <= 3)%nat
    /\ Forall tidy_subtask subs
    /\ LegacyClient.deleteGoal (Some (JNum 1767434400000)) l = [goal_read].
Proof.
  apply (legacy_add_goal 1767434400000 "Walk every day" "2026-01-03T10:00:00.000Z"
           (upstream analysis_text) [goal_read]).
  - discriminate.
  - simpl. lia.
  - intros g [<-|[]]. reflexivity.
  - reflexivity.
Defined.

Lemma legacy_patch_length (tempId : Z) (analysis : JSON) (goals l : list JsObject) :
  LegacyClient.patch tempId analysis goals = Ok l ->
  List.length l = List.length goals.
Proof.
  revert l. induction goals as [|g goals IH]; cbn [LegacyClient.patch]; intros l.
  - now intros [= <-].
  - destruct (if strict_eq (get "id" g) (Some (JNum tempId))
              then LegacyClient.patched tempId analysis g else Ok g) as [g'|];
      [|discriminate].
    cbn [bind]. destruct (LegacyClient.patch tempId analysis goals) as [rest|];
      [|discriminate].
    cbn [bind]. intros [= <-]. simpl. now rewrite (IH rest).
Qed.

(** X15. Adding never takes the list beyond 100 goals, in either client:
    [handleAddGoal] leaves a list of 100 goals or more as it is, and so it
    does when the text is blank; else it adds exactly one goal. *)
Theorem add_goal_cap (tempId : Z) (inputValue createdAt : string)
    (o : FetchOutcome) (goals : list JsObject) :
  let added := Client.handleAddGoal tempId inputValue createdAt o goals in
  ((100 <= List.length goals)%nat \/ Client.drop_spaces inputValue = ""%string ->
   added = goals
   /\ LegacyClient.handleAddGoal tempId inputValue createdAt o goals = Ok goals)
  /\ ((List.length goals < 100)%nat -> Client.drop_spaces inputValue <> ""%string ->
      List.length added = S (List.length goals)
      /\ forall l, LegacyClient.handleAddGoal tempId inputValue createdAt o goals = Ok l ->
                   List.length l = S (List.length goals))
  /\ (List.length added <= Nat.max 100 (List.length goals))%nat
  /\ (forall l, LegacyClient.handleAddGoal tempId inputValue createdAt o goals = Ok l ->
                (List.length l <= Nat.max 100 (List.length goals))%nat).
Proof.
  intros added. subst added.
  assert (Hfull : (100 <= List.length goals)%nat
                  \/ Client.drop_spaces inputValue = ""%string ->
            Client.handleAddGoal tempId inputValue createdAt o goals = goals
            /\ LegacyClient.handleAddGoal tempId inputValue createdAt o goals
               = Ok goals).
  { intros H. unfold Client.handleAddGoal, LegacyClient.handleAddGoal.
    replace (String.eqb (Client.drop_spaces inputValue) ""
             || (100 <=? List.length goals)%nat) with true; [now split|].
    symmetry. apply orb_true_iff. destruct H as [H|H].
    - right. now apply Nat.leb_le.
    - left. now apply String.eqb_eq. }
  assert (Hroom : (List.length goals < 100)%nat ->
            Client.drop_spaces inputValue <> ""%string ->
            List.length (Client.handleAddGoal tempId inputValue createdAt o goals)
            = S (List.length goals)
            /\ forall l,
                 LegacyClient.handleAddGoal tempId inputValue createdAt o goals = Ok l ->
                 List.length l = S (List.length goals)).
  { intros Hl Hb. unfold Client.handleAddGoal, LegacyClient.handleAddGoal.
    replace (String.eqb (Client.drop_spaces inputValue) ""
             || (100 <=? List.length goals)%nat) with false.
    - split.
      + unfold Client.patch. now rewrite length_map.
      + intros l H. now apply legacy_patch_length in H.
    - symmetry. apply orb_false_iff. split.
      + now apply String.eqb_neq.
      + apply Nat.leb_gt. exact Hl. }
  split; [exact Hfull|]. split; [exact Hroom|].
  destruct (Nat.le_gt_cases 100 (List.length goals)) as [Hl|Hl].
  - destruct (Hfull (or_introl Hl)) as [-> ->]. split; [lia|].
    intros l [= <-]. lia.
  - destruct (String.eqb_spec (Client.drop_spaces inputValue) "") as [Hb|Hb].
    + destruct (Hfull (or_intror Hb)) as [-> ->]. split; [lia|].
      intros l [= <-]. lia.
    + destruct (Hroom Hl Hb) as [H1 H2]. split; [lia|].
      intros l H. rewrite (H2 l H). lia.
Qed.

End AddGoalFacts.

(* ================================================================== *)
(** * The sub-tasks of the client without log-in *)

Module SubTaskFacts.
Import ClientCommon ObjectFacts MoreSpec RoundTrip AddGoalFacts Examples.

Lemma flip_subtask_tidy (subId : value) (st : JSON) :
  tidy_subtask st ->
  LegacyToggles.flip_subtask subId st = Ok (flipped subId st)
  /\ tidy_subtask (flipped subId st)
  /\ flipped subId (flipped subId st) = st
  /\ subtask_flipped subId st (flipped subId st).
Proof.
  intros [o [b [-> Hc]]]. unfold LegacyToggles.flip_subtask, flipped.
  cbn [own_props]. destruct (strict_eq (get "id" o) subId) eqn:E.
  - assert (Hid : get "id" (set "completed" (JBool (negb (truthy (get "completed" o)))) o)
                  = get "id" o) by (apply get_set_other; discriminate).
    split; [reflexivity|]. split; [|split].
    + eexists. eexists. split; [reflexivity|]. apply get_set_same.
    + rewrite Hid, E, get_set_same, set_set, Hc. simpl. rewrite negb_involutive.
      f_equal. now apply set_same.
    + eexists. eexists. split; [reflexivity|]. split; [reflexivity|].
      rewrite E. split; [discriminate|]. split.
      * intros _. apply get_set_same.
      * intros k Hk. now apply get_set_other.
  - split; [reflexivity|]. split; [|split].
    + now exists o, b.
    + now rewrite E.
    + exists o, o. rewrite E. repeat split; try discriminate; auto.
Qed.

Lemma flip_subtasks_tidy (subId : value) (l : list JSON) :
  Forall tidy_subtask l ->
  ScopedServer.map_result (LegacyToggles.flip_subtask subId) l
  = Ok (map (flipped subId) l)
  /\ Forall tidy_subtask (map (flipped subId) l)
  /\ map (flipped subId) (map (flipped subId) l) = l
  /\ Forall2 (subtask_flipped subId) l (map (flipped subId) l).
Proof.
  induction 1 as [|st l Hst Hl [IH1 [IH2 [IH3 IH4]]]]; cbn [map ScopedServer.map_result].
  - repeat split; constructor.
  - destruct (flip_subtask_tidy subId st Hst) as [H1 [H2 [H3 H4]]].
    rewrite H1, IH1. cbn [bind]. split; [reflexivity|].
    split; [now constructor|]. split; [now rewrite H3, IH3 | now constructor].
Qed.

Lemma flip_goal_tidy (subId : value) (g : JsObject) :
  tidy_goal g ->
  exists g',
    LegacyToggles.flip_subtasks subId g = Ok g'
    /\ tidy_goal g'
    /\ LegacyToggles.flip_subtasks subId g' = Ok g
    /\ (exists l l', get "subTasks" g = Some (JArr l)
                     /\ get "subTasks" g' = Some (JArr l')
                     /\ Forall2 (subtask_flipped subId) l l')
    /\ (forall k, k <> "subTasks" -> get k g' = get k g).
Proof.
  intros [l [Hg Hl]].
  destruct (flip_subtasks_tidy subId l Hl) as [H1 [H2 [H3 H4]]].
  exists (set "subTasks" (JArr (map (flipped subId) l)) g).
  unfold LegacyToggles.flip_subtasks. rewrite Hg, H1. cbn [bind].
  split; [reflexivity|]. split; [|split; [|split]].
  - eexists. split; [apply get_set_same | exact H2].
  - rewrite get_set_same.
    destruct (flip_subtasks_tidy subId _ H2) as [H1' _]. rewrite H1'. cbn [bind].
    rewrite H3, set_set. f_equal. now apply set_same.
  - exists l, (map (flipped subId) l). split; [reflexivity|].
    split; [apply get_set_same | exact H4].
  - intros k Hk. now apply get_set_other.
Qed.

(** X16. [toggleSubTask(goalId, subId)] of the client without log-in, on
    goals whose sub-tasks, where the id is [goalId], are objects with a
    boolean [completed] (as [handleAddGoal] makes them): it does not
    throw; a goal with another id is left as it is; in a goal with that id
    every sub-task whose id is [subId] has its [completed] negated and
    nothing else changed, the other sub-tasks and the other fields stay;
    and the same click again gives back the list. *)
Theorem legacy_toggleSubTask_flips (goalId subId : value) (goals : list JsObject) :
  (forall g, In g goals -> strict_eq (get "id" g) goalId = true -> tidy_goal g) ->
  exists goals',
    LegacyToggles.toggleSubTask goalId subId goals = Ok goals'
    /\ Forall2 (subtasks_toggled goalId subId) goals goals'
    /\ LegacyToggles.toggleSubTask goalId subId goals' = Ok goals.
Proof.
  unfold LegacyToggles.toggleSubTask.
  induction goals as [|g goals IH]; intros Ht.
  - exists []. repeat split. constructor.
  - destruct IH as [goals' [E [HF E']]]; [intros x Hx; apply Ht; now right|].
    cbn [ScopedServer.map_result]. rewrite E.
    destruct (strict_eq (get "id" g) goalId) eqn:Eid.
    + destruct (flip_goal_tidy subId g (Ht g (or_introl eq_refl) Eid))
        as [g' [H1 [H2 [H3 [H4 H5]]]]].
      rewrite H1. cbn [bind]. exists (g' :: goals'). split; [reflexivity|]. split.
      * constructor; [|exact HF]. unfold subtasks_toggled. rewrite Eid.
        split; [discriminate|]. split; [intros _; exact H4 | exact H5].
      * cbn [ScopedServer.map_result]. rewrite H5 by discriminate.
        rewrite Eid, H3, E'. reflexivity.
    + cbn [bind]. exists (g :: goals'). split; [reflexivity|]. split.
      * constructor; [|exact HF]. unfold subtasks_toggled. rewrite Eid.
        repeat split; try discriminate; auto.
      * cbn [ScopedServer.map_result]. rewrite Eid, E'. reflexivity.
Qed.

Lemma legacy_toggleSubTask_flips_witness :
  let goals := match LegacyClient.handleAddGoal 1767434400000 "Walk every day"
                       "2026-01-03T10:00:00.000Z" (upstream analysis_text) [goal_run]
               with Ok l => l | Throw _ => [] end in
  exists goals',
    LegacyToggles.toggleSubTask (Some (JNum 1767434400000))
      (Some (JStr "1767434400000_0")) goals = Ok goals'
    /\ Forall2 (subtasks_toggled (Some (JNum 1767434400000))
                  (Some (JStr "1767434400000_0"))) goals goals'
    /\ LegacyToggles.toggleSubTask (Some (JNum 1767434400000))
         (Some (JStr "1767434400000_0")) goals' = Ok goals.
Proof.
  apply (legacy_toggleSubTask_flips (Some (JNum 1767434400000))
           (Some (JStr "1767434400000_0"))).
  intros g [<-|[<-|[]]]; [intros _|discriminate].
  eexists. split; [reflexivity|].
  constructor; [|constructor]. eexists. exists false. split; reflexivity.
Defined.

End SubTaskFacts.

Module CalendarFacts.
Import DateTime ClientCommon HabitSpec MoreSpec JsonFacts HabitFacts ObjectFacts
  ToggleFacts Examples.

Lemma append_inj_length (a1 a2 t1 t2 : string) :
  String.length a1 = String.length a2 ->
  (a1 ++ t1 = a2 ++ t2)%string -> t1 = t2.
Proof.
  revert a2. induction a1 as [|c a1 IH]; intros [|c2 a2] Hl; try discriminate Hl.
  - intros H. exact H.
  - simpl. intros [= _ H]. apply (IH a2); [now injection Hl | exact H].
Qed.

Lemma append_tail_inj (a1 a2 t1 t2 : string) :
  String.length t1 = String.length t2 ->
  (a1 ++ t1 = a2 ++ t2)%string -> t1 = t2.
Proof.
  intros Hl H. apply (append_inj_length a1 a2); [|exact H].
  apply (f_equal String.length) in H. rewrite !length_append in H. lia.
Qed.

Lemma digit_inj (a b : Z) : digit a = digit b -> a mod 10 = b mod 10.
Proof.
  unfold digit. intros H.
  pose proof (Z.mod_pos_bound a 10 ltac:(lia)) as Ha.
  pose proof (Z.mod_pos_bound b 10 ltac:(lia)) as Hb.
  set (x := a mod 10) in *. set (y := b mod 10) in *. clearbody x y.
  apply (f_equal N_of_ascii) in H.
  assert (E1 : (48 + Z.to_N x < 256)%N) by lia.
  assert (E2 : (48 + Z.to_N y < 256)%N) by lia.
  rewrite (N_ascii_embedding _ E1), (N_ascii_embedding _ E2) in H.
  lia.
Qed.

Lemma pad2_inj (a b : Z) :
  0 <= a < 100 -> 0 <= b < 100 -> pad2 a = pad2 b -> a = b.
Proof.
  unfold pad2. intros Ha Hb [= H1 H2].
  apply digit_inj in H1. apply digit_inj in H2.
  rewrite (Z.mod_small (a / 10)) in H1
    by (split; [apply Z.div_pos | apply Z.div_lt_upper_bound]; lia).
  rewrite (Z.mod_small (b / 10)) in H1
    by (split; [apply Z.div_pos | apply Z.div_lt_upper_bound]; lia).
  pose proof (Z.div_mod a 10 ltac:(lia)). pose proof (Z.div_mod b 10 ltac:(lia)).
  lia.
Qed.

Lemma civil_shift (z k : Z) :
  civil_from_days (z + 146097 * k)
  = let '(y, m, d) := civil_from_days z in (y + 400 * k, m, d).
Proof.
  unfold civil_from_days.
  replace (z + 146097 * k + 719468) with (z + 719468 + k * 146097) by lia.
  rewrite Z.div_add by lia.
  set (era := (z + 719468) / 146097).
  replace (z + 719468 + k * 146097 - (era + k) * 146097)
    with (z + 719468 - era * 146097) by lia.
  set (doe := z + 719468 - era * 146097).
  set (yoe := (doe - doe / 1460 + doe / 36524 - doe / 146096) / 365).
  cbv zeta.
  destruct (_ <=? 2); f_equal; f_equal; lia.
Qed.

Lemma days_shift (y m d k : Z) :
  days_from_civil (y + 400 * k) m d = days_from_civil y m d + 146097 * k.
Proof.
  unfold days_from_civil.
  replace ((if m <=? 2 then y + 400 * k - 1 else y + 400 * k))
    with ((if m <=? 2 then y - 1 else y) + k * 400)
    by (destruct (m <=? 2); lia).
  set (y' := if m <=? 2 then y - 1 else y).
  rewrite Z.div_add by lia.
  replace (y' + k * 400 - (y' / 400 + k) * 400) with (y' - y' / 400 * 400) by lia.
  cbv zeta. lia.
Qed.

(** The 400 years of an era, year by year. *)
Lemma years_checked : years_agree 400 0 = true.
Proof. vm_compute. reflexivity. Qed.

Lemma years_agree_spec (n : nat) (y0 : Z) :
  years_agree n y0 = true ->
  forall y, y0 <= y < y0 + Z.of_nat n ->
    year_of_doe (year_start y) = y /\ year_of_doe (year_start (y + 1) - 1) = y.
Proof.
  revert y0. induction n as [|n IH]; intros y0 H y Hy; [lia|].
  cbn [years_agree] in H.
  apply andb_true_iff in H as [H H3]. apply andb_true_iff in H as [H1 H2].
  destruct (Z.eq_dec y y0) as [->|Hne].
  - split; now apply Z.eqb_eq.
  - apply (IH (y0 + 1)); [assumption | lia].
Qed.

Lemma year_of_doe_step (doe : Z) :
  0 <= doe -> doe + 1 < 146097 -> year_of_doe doe <= year_of_doe (doe + 1).
Proof.
  intros H0 H1. unfold year_of_doe. apply Z.div_le_mono; [lia|].
  pose proof (Z.div_mod doe 1460 ltac:(lia)).
  pose proof (Z.mod_pos_bound doe 1460 ltac:(lia)).
  pose proof (Z.div_mod (doe + 1) 1460 ltac:(lia)).
  pose proof (Z.mod_pos_bound (doe + 1) 1460 ltac:(lia)).
  pose proof (Z.div_mod doe 36524 ltac:(lia)).
  pose proof (Z.mod_pos_bound doe 36524 ltac:(lia)).
  pose proof (Z.div_mod (doe + 1) 36524 ltac:(lia)).
  pose proof (Z.mod_pos_bound (doe + 1) 36524 ltac:(lia)).
  pose proof (Z.div_mod doe 146096 ltac:(lia)).
  pose proof (Z.mod_pos_bound doe 146096 ltac:(lia)).
  pose proof (Z.div_mod (doe + 1) 146096 ltac:(lia)).
  pose proof (Z.mod_pos_bound (doe + 1) 146096 ltac:(lia)).
  lia.
Qed.

Lemma year_of_doe_mono (n : nat) (a : Z) :
  0 <= a -> a + Z.of_nat n < 146097 ->
  year_of_doe a <= year_of_doe (a + Z.of_nat n).
Proof.
  intros Ha. induction n as [|n IH]; intros Hb.
  - replace (a + Z.of_nat 0) with a by lia. lia.
  - pose proof (year_of_doe_step (a + Z.of_nat n) ltac:(lia) ltac:(lia)) as Hs.
    replace (a + Z.of_nat (S n)) with (a + Z.of_nat n + 1) by lia.
    specialize (IH ltac:(lia)). lia.
Qed.

Lemma year_start_step (y : Z) :
  365 <= year_start (y + 1) - year_start y <= 366.
Proof.
  unfold year_start.
  pose proof (Z.div_mod y 4 ltac:(lia)). pose proof (Z.mod_pos_bound y 4 ltac:(lia)).
  pose proof (Z.div_mod (y + 1) 4 ltac:(lia)).
  pose proof (Z.mod_pos_bound (y + 1) 4 ltac:(lia)).
  pose proof (Z.div_mod y 100 ltac:(lia)). pose proof (Z.mod_pos_bound y 100 ltac:(lia)).
  pose proof (Z.div_mod (y + 1) 100 ltac:(lia)).
  pose proof (Z.mod_pos_bound (y + 1) 100 ltac:(lia)).
  pose proof (Z.div_mod y 400 ltac:(lia)). pose proof (Z.mod_pos_bound y 400 ltac:(lia)).
  pose proof (Z.div_mod (y + 1) 400 ltac:(lia)).
  pose proof (Z.mod_pos_bound (y + 1) 400 ltac:(lia)).
  assert (y / 4 <= (y + 1) / 4 <= y / 4 + 1) by lia.
  assert (y / 100 <= (y + 1) / 100 <= y / 100 + 1) by lia.
  assert (y / 400 <= (y + 1) / 400 <= y / 400 + 1) by lia.
  assert ((y + 1) / 100 = y / 100 + 1 -> (y + 1) / 4 = y / 4 + 1) by lia.
  assert ((y + 1) / 400 = y / 400 + 1 -> (y + 1) / 100 = y / 100 + 1) by lia.
  lia.
Qed.

(** The year in which a day of the era lies. *)
Lemma year_located (n : nat) (doe : Z) :
  0 <= doe < year_start (Z.of_nat n) ->
  exists y, 0 <= y < Z.of_nat n
    /\ year_start y <= doe < year_start (y + 1)
    /\ year_start (y + 1) <= year_start (Z.of_nat n).
Proof.
  induction n as [|n IH]; intros H.
  - change (year_start (Z.of_nat 0)) with 0 in H. lia.
  - pose proof (year_start_step (Z.of_nat n)) as Hs.
    replace (Z.of_nat n + 1) with (Z.of_nat (S n)) in Hs by lia.
    destruct (Z.lt_ge_cases doe (year_start (Z.of_nat n))) as [Hlt|Hge].
    + destruct (IH ltac:(lia)) as [y [Hy [Hd Hle]]]. exists y.
      split; [lia | split; [exact Hd | lia]].
    + exists (Z.of_nat n).
      replace (Z.of_nat n + 1) with (Z.of_nat (S n)) by lia.
      split; [lia | split; lia].
Qed.

Lemma year_of_doe_spec (doe : Z) :
  0 <= doe < 146097 ->
  0 <= year_of_doe doe < 400
  /\ year_start (year_of_doe doe) <= doe < year_start (year_of_doe doe + 1).
Proof.
  intros H.
  destruct (year_located 400 doe) as [y [Hy [Hd Hle]]];
    [change (year_start (Z.of_nat 400)) with 146097; exact H|].
  change (year_start (Z.of_nat 400)) with 146097 in Hle.
  destruct (years_agree_spec 400 0 years_checked y ltac:(lia)) as [E1 E2].
  assert (H0 : 0 <= year_start y)
    by (unfold year_start; Z.div_mod_to_equations; lia).
  assert (Hlo : year_of_doe (year_start y) <= year_of_doe doe).
  { pose proof (year_of_doe_mono (Z.to_nat (doe - year_start y)) (year_start y)
                  H0 ltac:(lia)) as Hm.
    replace (year_start y + Z.of_nat (Z.to_nat (doe - year_start y)))
      with doe in Hm by lia.
    exact Hm. }
  assert (Hhi : year_of_doe doe <= year_of_doe (year_start (y + 1) - 1)).
  { pose proof (year_of_doe_mono (Z.to_nat (year_start (y + 1) - 1 - doe)) doe
                  ltac:(lia) ltac:(lia)) as Hm.
    replace (doe + Z.of_nat (Z.to_nat (year_start (y + 1) - 1 - doe)))
      with (year_start (y + 1) - 1) in Hm by lia.
    exact Hm. }
  assert (E : year_of_doe doe = y) by lia.
  rewrite E. split; [lia | exact Hd].
Qed.

(** The dates of the first era. *)
Lemma date_of_doe (doe : Z) : 0 <= doe < 146097 -> date_ok (doe - 719468).
Proof.
  intros H. destruct (year_of_doe_spec doe H) as [Hy Hd].
  pose proof (year_start_step (year_of_doe doe)) as Hs.
  unfold date_ok, civil_from_days.
  replace (doe - 719468 + 719468) with doe by lia.
  rewrite (Z.div_small doe 146097) by lia.
  replace (doe - 0 * 146097) with doe by lia.
  fold (year_of_doe doe). set (yoe := year_of_doe doe) in *.
  assert (Hdoy : 0 <= doe - (365 * yoe + yoe / 4 - yoe / 100) <= 365).
  { unfold year_start in Hd, Hs. rewrite (Z.div_small yoe 400) in Hd, Hs by lia. lia. }
  set (doy := doe - (365 * yoe + yoe / 4 - yoe / 100)) in *.
  cbv zeta.
  set (mp := (5 * doy + 2) / 153).
  assert (Hmp : 0 <= mp <= 11).
  { subst mp. split; [apply Z.div_pos; lia|].
    apply Z.lt_succ_r. apply Z.div_lt_upper_bound; lia. }
  assert (Hmp2 : 153 * mp <= 5 * doy + 2 < 153 * mp + 153).
  { subst mp. pose proof (Z.div_mod (5 * doy + 2) 153 ltac:(lia)).
    pose proof (Z.mod_pos_bound (5 * doy + 2) 153 ltac:(lia)). lia. }
  set (q := (153 * mp + 2) / 5).
  assert (Hq : 5 * q <= 153 * mp + 2 < 5 * q + 5).
  { subst q. pose proof (Z.div_mod (153 * mp + 2) 5 ltac:(lia)).
    pose proof (Z.mod_pos_bound (153 * mp + 2) 5 ltac:(lia)). lia. }
  set (m := if mp <? 10 then mp + 3 else mp - 9).
  assert (Hm : 1 <= m <= 12) by (subst m; destruct (Z.ltb_spec mp 10); lia).
  assert (Hback : (if 2 <? m then m - 3 else m + 9) = mp).
  { subst m. destruct (Z.ltb_spec mp 10).
    - destruct (Z.ltb_spec 2 (mp + 3)); lia.
    - destruct (Z.ltb_spec 2 (mp - 9)); lia. }
  split; [|split; [exact Hm | lia]].
  unfold days_from_civil. rewrite Hback. fold q.
  replace (if m <=? 2 then (if m <=? 2 then yoe + 0 * 400 + 1 else yoe + 0 * 400) - 1
           else if m <=? 2 then yoe + 0 * 400 + 1 else yoe + 0 * 400)
    with yoe by (destruct (m <=? 2); lia).
  cbv zeta. rewrite (Z.div_small yoe 400) by lia.
  replace (yoe - 0 * 400) with yoe by lia.
  subst doy. lia.
Qed.

(** Every day number has a date, which has that day number. *)
Lemma date_of_day (z : Z) : date_ok z.
Proof.
  set (k := (z + 719468) / 146097).
  set (z0 := z - 146097 * k).
  assert (Hz0 : 0 <= z0 + 719468 < 146097).
  { pose proof (Z.div_mod (z + 719468) 146097 ltac:(lia)) as E.
    pose proof (Z.mod_pos_bound (z + 719468) 146097 ltac:(lia)) as B.
    subst z0 k. lia. }
  pose proof (date_of_doe (z0 + 719468) Hz0) as H0.
  replace (z0 + 719468 - 719468) with z0 in H0 by lia.
  unfold date_ok in *.
  replace z with (z0 + 146097 * k) by (subst z0; lia).
  pose proof (civil_shift z0 k) as Es.
  destruct (civil_from_days z0) as [[y m] d]. rewrite Es.
  rewrite days_shift. destruct H0 as [H0 [Hm Hd]]. repeat split; lia.
Qed.

(** The days before the first of March of a year, counted by eras of 400
    years or by the rule of the leap years. *)
Lemma days_before_year (y : Z) :
  y / 400 * 146097 + ((y - y / 400 * 400) * 365 + (y - y / 400 * 400) / 4
                      - (y - y / 400 * 400) / 100)
  = 365 * y + y / 4 - y / 100 + y / 400.
Proof.
  set (e := y / 400). set (r := y - e * 400).
  assert (E : y = r + e * 400) by (subst r; lia).
  assert (H4 : y / 4 = r / 4 + e * 100).
  { rewrite E at 1. replace (e * 400) with (e * 100 * 4) by lia.
    now rewrite Z.div_add by lia. }
  assert (H100 : y / 100 = r / 100 + e * 4).
  { rewrite E at 1. replace (e * 400) with (e * 4 * 100) by lia.
    now rewrite Z.div_add by lia. }
  lia.
Qed.

(** The same day of the same month in two years: a year or more apart. *)
Lemma years_apart (y1 y2 m d : Z) :
  y2 < y1 -> 364 <= days_from_civil y1 m d - days_from_civil y2 m d.
Proof.
  intros H. unfold days_from_civil. cbv zeta.
  set (a := if m <=? 2 then y1 - 1 else y1).
  set (b := if m <=? 2 then y2 - 1 else y2).
  assert (Hab : b < a) by (subst a b; destruct (m <=? 2); lia).
  pose proof (days_before_year a) as Ha. pose proof (days_before_year b) as Hb.
  assert (H4 : b / 4 <= a / 4) by (apply Z.div_le_mono; lia).
  assert (H400 : b / 400 <= a / 400) by (apply Z.div_le_mono; lia).
  assert (H100 : a / 100 - b / 100 <= a - b).
  { pose proof (Z.div_mod a 100 ltac:(lia)). pose proof (Z.div_mod b 100 ltac:(lia)).
    pose proof (Z.mod_pos_bound a 100 ltac:(lia)).
    pose proof (Z.mod_pos_bound b 100 ltac:(lia)). lia. }
  set (fa := a / 400 * 146097 + ((a - a / 400 * 400) * 365 + (a - a / 400 * 400) / 4
                      - (a - a / 400 * 400) / 100)) in *.
  set (fb := b / 400 * 146097 + ((b - b / 400 * 400) * 365 + (b - b / 400 * 400) / 4
                      - (b - b / 400 * 400) / 100)) in *.
  replace (a / 400 * 146097
           + ((a - a / 400 * 400) * 365 + (a - a / 400 * 400) / 4
              - (a - a / 400 * 400) / 100
              + ((153 * (if 2 <? m then m - 3 else m + 9) + 2) / 5 + d - 1))
           - 719468)
    with (fa + ((153 * (if 2 <? m then m - 3 else m + 9) + 2) / 5 + d - 1) - 719468)
    by (subst fa; lia).
  replace (b / 400 * 146097
           + ((b - b / 400 * 400) * 365 + (b - b / 400 * 400) / 4
              - (b - b / 400 * 400) / 100
              + ((153 * (if 2 <? m then m - 3 else m + 9) + 2) / 5 + d - 1))
           - 719468)
    with (fb + ((153 * (if 2 <? m then m - 3 else m + 9) + 2) / 5 + d - 1) - 719468)
    by (subst fb; lia).
  set (doy := (153 * (if 2 <? m then m - 3 else m + 9) + 2) / 5 + d - 1).
  clearbody fa fb doy. clear - Ha Hb H4 H400 H100 Hab.
  set (a4 := a / 4) in *. set (b4 := b / 4) in *.
  set (a1 := a / 100) in *. set (b1 := b / 100) in *.
  set (a0 := a / 400) in *. set (b0 := b / 400) in *.
  clearbody a4 b4 a1 b1 a0 b0. lia.
Qed.

(** The text of a day, cut after the year. *)
Lemma isoDay_cut (z : Z) :
  exists year, isoDay z
               = (year ++ (let '(_, m, d) := civil_from_days z in
                           String "-" (pad2 m ++ String "-" (pad2 d))))%string.
Proof.
  unfold isoDay. destruct (civil_from_days z) as [[y m] d].
  eexists. reflexivity.
Qed.

(** Two days less than a year apart have different texts. *)
Lemma isoDay_near_inj (z1 z2 : Z) :
  Z.abs (z1 - z2) < 364 -> isoDay z1 = isoDay z2 -> z1 = z2.
Proof.
  intros Hn H.
  destruct (isoDay_cut z1) as [year1 E1]. destruct (isoDay_cut z2) as [year2 E2].
  rewrite E1, E2 in H.
  pose proof (date_of_day z1) as D1. pose proof (date_of_day z2) as D2.
  unfold date_ok in D1, D2.
  destruct (civil_from_days z1) as [[y1 m1] d1].
  destruct (civil_from_days z2) as [[y2 m2] d2].
  destruct D1 as [D1 [Hm1 Hd1]]. destruct D2 as [D2 [Hm2 Hd2]].
  apply append_tail_inj in H; [|reflexivity].
  injection H as Hm Hd.
  assert (Em : m1 = m2).
  { apply pad2_inj; [lia..|]. unfold pad2 in *. congruence. }
  assert (Ed : d1 = d2).
  { apply pad2_inj; [lia..|]. unfold pad2 in *.
    simpl in Hd. congruence. }
  subst m2 d2.
  destruct (Z.lt_trichotomy y1 y2) as [Hy|[Hy|Hy]].
  - pose proof (years_apart y2 y1 m1 d1 Hy). lia.
  - subst. reflexivity.
  - pose proof (years_apart y1 y2 m1 d1 Hy). lia.
Qed.

(** The days before today in the window have other texts than today. *)
Lemma window_day_differs (now : Z) (j : nat) :
  (1 <= j < 364)%nat -> isoDate (now - Z.of_nat j * DAY) <> isoDate now.
Proof.
  intros Hj H. rewrite isoDate_back in H. unfold isoDate in H.
  apply isoDay_near_inj in H; lia.
Qed.

Lemma window_after_click (now : Z) (g g' : JsObject) (d : Z) :
  1 <= d <= 30 ->
  history_has g' (isoDate now) = negb (history_has g (isoDate now)) ->
  (forall day, day <> isoDate now -> history_has g' day = history_has g day) ->
  window_count now g' d
  = window_count now g d + (if history_has g (isoDate now) then -1 else 1).
Proof.
  intros Hd H0 Hother. unfold window_count.
  destruct (Z.to_nat d) as [|n] eqn:En; [lia|].
  cbn [seq filter].
  assert (Hrest : filter (marked now g') (seq 1 n) = filter (marked now g) (seq 1 n)).
  { apply filter_ext_in. intros j Hj. apply in_seq in Hj. unfold marked.
    apply Hother. apply window_day_differs. lia. }
  rewrite Hrest.
  assert (Hm : forall x, marked now x 0 = history_has x (isoDate now)).
  { intros x. unfold marked. f_equal. f_equal. simpl. lia. }
  rewrite !Hm, H0.
  destruct (history_has g (isoDate now)); cbn [negb List.length]; lia.
Qed.

Section WithPlatform.

Variable tz : TimeZone.
Variable Date_parse : string -> option Z.

(** X17. A click on the habit of today moves the count by one, where the
    offset of the time zone does not change in the window of the habit.
    For a goal of the list that is a HABIT with a valid creation time and
    has the id clicked, [toggleHabit] (of either client, with today the UTC
    day of [now]) puts in its place a goal for which [getHabitStats]
    reports the same days elapsed and a count that is one more when today
    was not marked, one less when it was. (Across a change of offset the
    key of today can be read twice, or not at all.) *)
Theorem habit_click_counts (now : Z) (id : value) (goals : list JsObject)
    (g : JsObject) (c : JSON) (start : Z) :
  In g goals -> strict_eq (get "id" g) id = true ->
  is_habit g = true ->
  get "createdAt" g = Some c -> truthy (Some c) = true ->
  new_Date Date_parse c = Some start ->
  steady tz now (clamp_1_30 (ceil_div (Z.abs (now - start)) DAY)) ->
  let today := isoDate now in
  In (Toggles.toggle_today today g) (Toggles.toggleHabit today id goals)
  /\ In (LegacyToggles.toggle_today today g)
       (LegacyToggles.toggleHabit today id goals)
  /\ forall g',
       g' = Toggles.toggle_today today g
       \/ g' = LegacyToggles.toggle_today today g ->
       let before := Client.getHabitStats tz Date_parse now g in
       let after := Client.getHabitStats tz Date_parse now g' in
       LegacyClient.getHabitStats tz Date_parse now g' = after
       /\ daysElapsed after = daysElapsed before
       /\ count after
          = count before + (if history_has g today then -1 else 1).
Proof.
  intros Hin Hid Hh Hc Ht Hd Hs today. split; [|split].
  - unfold Toggles.toggleHabit. apply in_map_iff. exists g.
    rewrite Hid. split; [reflexivity | exact Hin].
  - unfold LegacyToggles.toggleHabit. apply in_map_iff. exists g.
    rewrite Hid. split; [reflexivity | exact Hin].
  - intros g' Hg' before after. subst before after.
    destruct (toggle_today_marks today g g' Hg') as [H0 [Hother Hk]].
    split; [apply getHabitStats_agree|].
    assert (Hh' : is_habit g' = true)
      by (unfold is_habit in *; rewrite Hk by discriminate; exact Hh).
    assert (Hc' : get "createdAt" g' = Some c)
      by (rewrite Hk by discriminate; exact Hc).
    rewrite (getHabitStats_habit tz Date_parse now g c start Hh Hc Ht Hd Hs).
    rewrite (getHabitStats_habit tz Date_parse now g' c start Hh' Hc' Ht Hd Hs).
    cbn [daysElapsed count]. split; [reflexivity|].
    apply window_after_click; [unfold clamp_1_30; lia | exact H0 | exact Hother].
Qed.

End WithPlatform.

(** The habit created on 2026-01-01 and marked on its first three days,
    clicked on 2026-01-03, in Tokyo. *)
Lemma habit_click_counts_witness :
  let now := c4_start + 2 * DAY + 3600000 in
  let id := Some (JNum 1767268800000) in
  let today := isoDate now in
  In (Toggles.toggle_today today c4_goal)
    (Toggles.toggleHabit today id [goal_read; c4_goal])
  /\ In (LegacyToggles.toggle_today today c4_goal)
       (LegacyToggles.toggleHabit today id [goal_read; c4_goal])
  /\ forall g',
       g' = Toggles.toggle_today today c4_goal
       \/ g' = LegacyToggles.toggle_today today c4_goal ->
       let before := Client.getHabitStats tokyo iso_parse now c4_goal in
       let after := Client.getHabitStats tokyo iso_parse now g' in
       LegacyClient.getHabitStats tokyo iso_parse now g' = after
       /\ daysElapsed after = daysElapsed before
       /\ count after
          = count before + (if history_has c4_goal today then -1 else 1).
Proof.
  apply (habit_click_counts tokyo iso_parse (c4_start + 2 * DAY + 3600000)
           (Some (JNum 1767268800000)) [goal_read; c4_goal] c4_goal
           (JStr "2026-01-01T12:00:00.000Z") c4_start).
  - right. now left.
  - reflexivity.
  - reflexivity.
  - reflexivity.
  - reflexivity.
  - reflexivity.
  - apply fixed_zone_steady.
Defined.

End CalendarFacts.
(* ================================================================== *)
(** * Changing the category of a goal *)

Module CategoryFacts.

Import ClientCommon ObjectFacts.

Lemma changed_id (c : string) (g : JsObject) :
  get "id" (set "category" (JStr c) g) = get "id" g.
Proof. apply get_set_other. discriminate. Qed.

(** X18. [changeCategory(goalId, c)] of the client without log-in keeps the
    length and the order of the list; a goal with another id is left as it
    is; in a goal with that id the category becomes [c] and every other
    field stays, the history too. The last change wins, and changing back
    to the category the goals had gives back the list. After a change to a
    category other than HABIT the goal has no habit statistics and is not
    flagged. *)
Theorem changeCategory_moves (goalId : value) (c : string) (goals : list JsObject) :
  Forall2 (fun g g' =>
             (strict_eq (get "id" g) goalId = false -> g' = g)
             /\ (strict_eq (get "id" g) goalId = true ->
                 get "category" g' = Some (JStr c))
             /\ forall k, k <> "category"%string -> get k g' = get k g)
    goals (LegacyToggles.changeCategory goalId c goals)
  /\ (forall c2,
        LegacyToggles.changeCategory goalId c2
          (LegacyToggles.changeCategory goalId c goals)
        = LegacyToggles.changeCategory goalId c2 goals)
  /\ (forall c0,
        (forall g, In g goals -> strict_eq (get "id" g) goalId = true ->
                   get "category" g = Some (JStr c0)) ->
        LegacyToggles.changeCategory goalId c0
          (LegacyToggles.changeCategory goalId c goals)
        = goals)
  /\ (c <> "HABIT"%string ->
      forall tz Date_parse now g',
        In g' (LegacyToggles.changeCategory goalId c goals) ->
        strict_eq (get "id" g') goalId = true ->
        LegacyClient.getHabitStats tz Date_parse now g' = mkStats (Int 0) (Int 0) 0
        /\ LegacyToggles.isWarning tz Date_parse now g' = false).
Proof.
  assert (Hlast : forall c2,
            LegacyToggles.changeCategory goalId c2
              (LegacyToggles.changeCategory goalId c goals)
            = LegacyToggles.changeCategory goalId c2 goals).
  { intros c2. unfold LegacyToggles.changeCategory. rewrite map_map.
    apply map_ext. intros g.
    destruct (strict_eq (get "id" g) goalId) eqn:E.
    - rewrite changed_id, E. apply set_set.
    - now rewrite E. }
  split; [|split; [exact Hlast | split]].
  - apply Forall2_map. intros g.
    destruct (strict_eq (get "id" g) goalId); repeat split; try discriminate; auto.
    + intros _. apply get_set_same.
    + intros k Hk. now apply get_set_other.
  - intros c0 Hc. rewrite Hlast. unfold LegacyToggles.changeCategory.
    rewrite <- (map_id goals) at 2. apply map_ext_in. intros g Hin.
    destruct (strict_eq (get "id" g) goalId) eqn:E; [|reflexivity].
    apply set_same. now apply Hc.
  - intros Hc tz Date_parse now g' Hin Hid.
    unfold LegacyToggles.changeCategory in Hin. apply in_map_iff in Hin.
    destruct Hin as [g [<- _]].
    destruct (strict_eq (get "id" g) goalId) eqn:E; [|congruence].
    unfold LegacyToggles.isWarning, LegacyClient.getHabitStats.
    rewrite get_set_same.
    assert (Hn : strict_eq (Some (JStr c)) (Some (JStr "HABIT")) = false).
    { simpl. now apply String.eqb_neq. }
    rewrite Hn. split; reflexivity.
Qed.

End CategoryFacts.
(* ================================================================== *)
(** * The counts of the header *)

Module HeaderFacts.

Import ClientCommon ObjectFacts Header.

Lemma filter_map_same (p : JsObject -> bool) (f : JsObject -> JsObject)
    (l : list JsObject) :
  (forall g, p (f g) = p g) ->
  List.length (filter p (map f l)) = List.length (filter p l).
Proof.
  intros H. induction l as [|g l IH]; simpl; [reflexivity|].
  rewrite H. destruct (p g); simpl; now rewrite IH.
Qed.

Lemma toggled_category (id : value) (c : string) (g : JsObject) :
  in_category c (if strict_eq (get "id" g) id then Toggles.flip_completed g else g)
  = in_category c g.
Proof.
  destruct (strict_eq (get "id" g) id); [|reflexivity].
  unfold in_category, Toggles.flip_completed.
  rewrite get_set_other by discriminate. reflexivity.
Qed.

Lemma toggleGoal_others (id : value) (l : list JsObject) :
  (forall g, In g l -> strict_eq (get "id" g) id = false) ->
  Toggles.toggleGoal id l = l.
Proof.
  intros H. unfold Toggles.toggleGoal. rewrite <- (map_id l) at 2.
  apply map_ext_in. intros g Hin. now rewrite (H g Hin).
Qed.

Lemma categories_apart (g : JsObject) :
  (Nat.b2n (in_category "CHALLENGE" g) + Nat.b2n (in_category "HABIT" g)
   + Nat.b2n (in_category "HOBBY" g) <= 1)%nat.
Proof.
  unfold in_category.
  destruct (strict_eq (get "category" g) (Some (JStr "CHALLENGE"))) eqn:E1;
  destruct (strict_eq (get "category" g) (Some (JStr "HABIT"))) eqn:E2;
  destruct (strict_eq (get "category" g) (Some (JStr "HOBBY"))) eqn:E3;
  simpl; try lia;
  repeat match goal with
         | H : strict_eq _ _ = true |- _ => apply strict_eq_eq in H
         end; congruence.
Qed.

(** X19. The counts of the header, in both clients. The goals counted as
    CHALLENGE, HABIT and HOBBY are different goals, so the three counts
    together are at most the total, and so is the count of completed goals.
    [toggleGoal] changes none of the total and the category counts; when
    exactly one goal has the id, it moves the count of completed goals by
    one: up when the goal was not completed, down when it was. *)
Theorem stats_consistent (goals : list JsObject) :
  (challenge (stats goals) + habit (stats goals) + hobby (stats goals)
   <= total (stats goals))%nat
  /\ (completed (stats goals) <= total (stats goals))%nat
  /\ (forall id,
        total (stats (Toggles.toggleGoal id goals)) = total (stats goals)
        /\ challenge (stats (Toggles.toggleGoal id goals)) = challenge (stats goals)
        /\ habit (stats (Toggles.toggleGoal id goals)) = habit (stats goals)
        /\ hobby (stats (Toggles.toggleGoal id goals)) = hobby (stats goals))
  /\ (forall id l1 g l2,
        goals = (l1 ++ g :: l2)%list ->
        strict_eq (get "id" g) id = true ->
        (forall x, In x l1 \/ In x l2 -> strict_eq (get "id" x) id = false) ->
        completed (stats (Toggles.toggleGoal id goals))
        = if truthy (get "completed" g)
          then Nat.pred (completed (stats goals))
          else S (completed (stats goals))).
Proof.
  split; [|split; [|split]].
  - unfold stats. cbn [challenge habit hobby total].
    induction goals as [|g l IH]; [simpl; lia|].
    pose proof (categories_apart g) as Hg. cbn [filter List.length].
    destruct (in_category "CHALLENGE" g), (in_category "HABIT" g),
      (in_category "HOBBY" g); cbn [List.length Nat.b2n] in *; lia.
  - unfold stats. cbn [completed total]. apply filter_length_le.
  - intros id. unfold stats. cbn [challenge habit hobby total].
    unfold Toggles.toggleGoal. rewrite length_map.
    repeat split; try reflexivity; apply filter_map_same; intros g;
      apply toggled_category.
  - intros id l1 g l2 -> Hid Hothers. unfold stats. cbn [completed].
    assert (Ht : Toggles.toggleGoal id (l1 ++ g :: l2)
                 = (l1 ++ Toggles.flip_completed g :: l2)%list).
    { unfold Toggles.toggleGoal. rewrite map_app. cbn [map]. rewrite Hid.
      fold (Toggles.toggleGoal id l1). fold (Toggles.toggleGoal id l2).
      rewrite !toggleGoal_others by (intros x Hx; apply Hothers; tauto).
      reflexivity. }
    rewrite Ht. rewrite !filter_app, !length_app. cbn [filter].
    unfold Toggles.flip_completed at 1. rewrite get_set_same.
    destruct (truthy (get "completed" g)); cbn [truthy negb List.length]; lia.
Qed.

End HeaderFacts.
